(** * Domain-Aware Ontology Generator: type inference, schema detection and
      JSON flattening

    A shallow embedding of [src/utils/type_detector.py],
    [src/parsers/json_parser.py] and the part of [src/core/parsed_data.py]
    that exposes the field list, followed by the properties of the
    specification that concern them.

    Conventions of the embedding.
    - Python [str] is Rocq [string]; the characters are read as code points
      of the ASCII range (case mapping, white space and digits are the ASCII
      ones; characters from 128 on are outside the model).
    - Python [int] is [Z]; [int] of a text keeps the interpreter's default
      limit of 4300 digits, and the properties that print an integer held
      in memory ask for one within that limit. A Python [float] is observed by this code only
      through [isinstance], [str] and [json.dumps]; it is carried by its
      [repr] text. The one place where the code computes with floats, the
      agreement ratio of [infer_column_type], uses binary64 primitive floats.
    - A Python [dict] is an association list in insertion order;
      [d[k] = v] is [dict_set].
    - [try: ... except ValueError] is a match on an [option]; an exception
      that escapes is the [Raise] case of [result].
    - Iteration over a Python [set] has no specified order; it is a
      parameter of type [HashOrder]. *)

From Stdlib Require Import String Ascii List ZArith Lia Bool Arith.
From Stdlib Require Import Permutation Sorted DecimalString.
From Stdlib Require DecimalFacts DecimalPos.
From Stdlib Require Import PrimFloat Uint63.
Import ListNotations.

Set Warnings "-register-all".

Local Open Scope list_scope.
Local Open Scope string_scope.
Local Open Scope Z_scope.

(* ================================================================= *)
(** ** Characters and text *)

Module Text.

Definition code (c : ascii) : N := N_of_ascii c.

Definition in_range (lo hi c : ascii) : bool :=
  ((code lo <=? code c) && (code c <=? code hi))%N.

Definition is_digit (c : ascii) : bool := in_range "0" "9" c.

(** [str.isspace] on the ASCII range: TAB..CR, FS..US and SPACE. *)
Definition is_space (c : ascii) : bool :=
  ((9 <=? code c) && (code c <=? 13) || (28 <=? code c) && (code c <=? 32))%N.

Definition upper_char (c : ascii) : ascii :=
  if in_range "a" "z" c then ascii_of_N (code c - 32) else c.

Definition lower_char (c : ascii) : ascii :=
  if in_range "A" "Z" c then ascii_of_N (code c + 32) else c.

Fixpoint smap (f : ascii -> ascii) (s : string) : string :=
  match s with
  | EmptyString => EmptyString
  | String c r => String (f c) (smap f r)
  end.

(** [s.upper()] and [s.lower()] *)
Definition upper (s : string) : string := smap upper_char s.
Definition lower (s : string) : string := smap lower_char s.

(** [c in s] for a one-character [c] *)
Fixpoint contains (c : ascii) (s : string) : bool :=
  match s with
  | EmptyString => false
  | String d r => Ascii.eqb c d || contains c r
  end.

Fixpoint lstrip_with (sp : ascii -> bool) (s : string) : string :=
  match s with
  | EmptyString => EmptyString
  | String c r => if sp c then lstrip_with sp r else s
  end.

Fixpoint rstrip_with (sp : ascii -> bool) (s : string) : string :=
  match s with
  | EmptyString => EmptyString
  | String c r =>
      match rstrip_with sp r with
      | EmptyString => if sp c then EmptyString else String c EmptyString
      | r' => String c r'
      end
  end.

Definition strip_with (sp : ascii -> bool) (s : string) : string :=
  rstrip_with sp (lstrip_with sp s).

(** [s.strip()] *)
Definition strip (s : string) : string := strip_with is_space s.

(** The white space [int] and [float] skip around an ASCII literal (C
    [isspace]): TAB..CR and SPACE. *)
Definition is_c_space (c : ascii) : bool :=
  ((9 <=? code c) && (code c <=? 13) || (code c =? 32))%N.

(** [x in xs] for a list of strings *)
Definition mem (x : string) (xs : list string) : bool :=
  existsb (String.eqb x) xs.

(** [sep.join(parts)] *)
Definition join (sep : string) (parts : list string) : string :=
  String.concat sep parts.

(** [str(n)] for an [int] of at most 4300 digits; the interpreter raises
    [ValueError] for a longer one, which [json.load] cannot produce. *)
Definition str_of_Z (n : Z) : string := NilZero.string_of_int (Z.to_int n).

Definition dquote : ascii := "034"%char.
Definition squote : ascii := "039"%char.

Definition hex_digit (n : N) : ascii :=
  if (n <? 10)%N then ascii_of_N (48 + n) else ascii_of_N (87 + n).

(** two lower-case hexadecimal digits of a code point below 256 *)
Definition hex2 (c : ascii) : string :=
  String (hex_digit (code c / 16)) (String (hex_digit (code c mod 16)) "").

End Text.
Import Text.

(* ================================================================= *)
(** ** Python values *)

(** [DataType] of [type_detector.py] *)
Inductive DataType : Type :=
  | STRING | INTEGER | FLOAT | BOOLEAN | DATETIME | NULL | UNKNOWN.

(** [DataType.value] *)
Definition DataType_value (t : DataType) : string :=
  match t with
  | STRING => "string" | INTEGER => "integer" | FLOAT => "float"
  | BOOLEAN => "boolean" | DATETIME => "datetime" | NULL => "null"
  | UNKNOWN => "unknown"
  end.

Definition DataType_eqb (a b : DataType) : bool :=
  match a, b with
  | STRING, STRING | INTEGER, INTEGER | FLOAT, FLOAT | BOOLEAN, BOOLEAN
  | DATETIME, DATETIME | NULL, NULL | UNKNOWN, UNKNOWN => true
  | _, _ => false
  end.

(** The values [json.load] produces. [JFloat] carries the [repr] of the
    float. *)
Inductive json : Type :=
  | JNone
  | JBool (b : bool)
  | JInt (n : Z)
  | JFloat (repr : string)
  | JStr (s : string)
  | JList (items : list json)
  | JDict (items : list (string * json)).

(** A naive [datetime.datetime] *)
Record datetime : Type := mk_datetime {
  dt_year : Z; dt_month : Z; dt_day : Z;
  dt_hour : Z; dt_minute : Z; dt_second : Z }.

(** The arguments [infer_type] is written for: a decoded JSON value or a
    native [datetime]. *)
Inductive pyobj : Type :=
  | PJson (v : json)
  | PDatetime (d : datetime).

Coercion PJson : json >-> pyobj.

(** Exceptions that leave the modelled functions *)
Inductive exn : Type :=
  | TypeError (msg : string)
  | ValueError (msg : string).

Inductive result (A : Type) : Type :=
  | Ok (a : A)
  | Raise (e : exn).
Arguments Ok {A} a.
Arguments Raise {A} e.

Definition bind {A B : Type} (r : result A) (k : A -> result B) : result B :=
  match r with
  | Ok a => k a
  | Raise e => Raise e
  end.

Notation "x <- r ;; k" := (bind r (fun x => k))
  (at level 61, r at next level, right associativity).

Module Py.

Definition is_dict (v : json) : bool :=
  match v with JDict _ => true | _ => false end.

Definition is_list (v : json) : bool :=
  match v with JList _ => true | _ => false end.

(** [isinstance(v, (str, int, float, bool))] *)
Definition is_str_int_float_bool (v : json) : bool :=
  match v with
  | JStr _ | JInt _ | JFloat _ | JBool _ => true
  | _ => false
  end.

(** [v is not None] *)
Definition is_not_None (v : json) : bool :=
  match v with JNone => false | _ => true end.

(** Lists and dicts have no [__hash__]. *)
Definition hashable (v : json) : bool :=
  match v with JList _ | JDict _ => false | _ => true end.

Definition type_name (v : json) : string :=
  match v with
  | JNone => "NoneType" | JBool _ => "bool" | JInt _ => "int"
  | JFloat _ => "float" | JStr _ => "str" | JList _ => "list"
  | JDict _ => "dict"
  end.

(** One character of [repr] of a [str] quoted with [q] *)
Definition repr_char (q c : ascii) : string :=
  if Ascii.eqb c q || Ascii.eqb c "\" then String "\" (String c "")
  else if Ascii.eqb c "009" then "\t"
  else if Ascii.eqb c "010" then "\n"
  else if Ascii.eqb c "013" then "\r"
  else if (code c <? 32)%N || (code c =? 127)%N then "\x" ++ hex2 c
  else String c "".

Fixpoint sflat (f : ascii -> string) (s : string) : string :=
  match s with
  | EmptyString => EmptyString
  | String c r => f c ++ sflat f r
  end.

(** [repr(s)] for a [str]: single quotes unless [s] has a single quote and
    no double quote. *)
Definition repr_str (s : string) : string :=
  let q := if contains squote s && negb (contains dquote s) then dquote
           else squote in
  String q (sflat (repr_char q) s) ++ String q "".

Definition repr_bool (b : bool) : string := if b then "True" else "False".

(** [repr(v)] *)
Fixpoint repr (v : json) : string :=
  match v with
  | JNone => "None"
  | JBool b => repr_bool b
  | JInt n => str_of_Z n
  | JFloat r => r
  | JStr s => repr_str s
  | JList l => "[" ++ join ", " (map repr l) ++ "]"
  | JDict d =>
      "{" ++ join ", "
               (map (fun kv => repr_str (fst kv) ++ ": " ++ repr (snd kv)) d)
          ++ "}"
  end.

(** [str(v)] *)
Definition str (v : json) : string :=
  match v with
  | JStr s => s
  | _ => repr v
  end.

(** One character of a JSON string literal under [ensure_ascii=True] *)
Definition json_char (c : ascii) : string :=
  if Ascii.eqb c dquote then String "\" (String dquote "")
  else if Ascii.eqb c "\" then "\\"
  else if Ascii.eqb c "008" then "\b"
  else if Ascii.eqb c "012" then "\f"
  else if Ascii.eqb c "010" then "\n"
  else if Ascii.eqb c "013" then "\r"
  else if Ascii.eqb c "009" then "\t"
  else if (code c <? 32)%N || (126 <? code c)%N then "\u00" ++ hex2 c
  else String c "".

Definition json_str (s : string) : string :=
  String dquote (sflat json_char s) ++ String dquote "".

(** [float.__repr__] as the encoder emits it: the three non-finite values
    are renamed. *)
Definition json_float (r : string) : string :=
  if String.eqb r "nan" then "NaN"
  else if String.eqb r "inf" then "Infinity"
  else if String.eqb r "-inf" then "-Infinity"
  else r.

(** [json.dumps(v)] with the default separators *)
Fixpoint dumps (v : json) : string :=
  match v with
  | JNone => "null"
  | JBool b => if b then "true" else "false"
  | JInt n => str_of_Z n
  | JFloat r => json_float r
  | JStr s => json_str s
  | JList l => "[" ++ join ", " (map dumps l) ++ "]"
  | JDict d =>
      "{" ++ join ", "
               (map (fun kv => json_str (fst kv) ++ ": " ++ dumps (snd kv)) d)
          ++ "}"
  end.

End Py.

(* ================================================================= *)
(** ** The library functions the classifier calls *)

Module Num.

Definition digit_val (c : ascii) : Z := Z.of_N (code c) - 48.

(** Digits with single underscores between them, as [int] reads them after
    the first digit. [prev_us] tells that the previous character was an
    underscore. *)
Fixpoint int_digits (acc : Z) (prev_us : bool) (s : string) : option Z :=
  match s with
  | EmptyString => if prev_us then None else Some acc
  | String c r =>
      if is_digit c then int_digits (10 * acc + digit_val c) false r
      else if Ascii.eqb c "_" then
        if prev_us then None else int_digits acc true r
      else None
  end.

(** [sys.get_int_max_str_digits()], at its default: [int] refuses a text
    with more digits, and [str] an integer that has more. *)
Definition MAX_STR_DIGITS : Z := 4300.

(** how many digits a text has: its underscores do not count *)
Fixpoint digit_count (s : string) : Z :=
  match s with
  | EmptyString => 0
  | String c r => (if is_digit c then 1 else 0) + digit_count r
  end.

Definition int_unsigned (s : string) : option Z :=
  match s with
  | EmptyString => None
  | String c r =>
      if is_digit c then
        if MAX_STR_DIGITS <? digit_count s then None
        else int_digits (digit_val c) false r
      else None
  end.

(** [int(s)] for a [str], base 10: [None] is [ValueError], raised also
    for a text of more than [MAX_STR_DIGITS] digits. *)
Definition py_int (s : string) : option Z :=
  match strip_with is_c_space s with
  | String "+" r => int_unsigned r
  | String "-" r => option_map Z.opp (int_unsigned r)
  | t => int_unsigned t
  end.

(** What a float literal denotes, before rounding to binary64 *)
Inductive float_text : Type :=
  | FInf (negative : bool)
  | FNan
  | FDec (negative : bool) (mantissa : Z) (exp10 : Z).

(** The underscore rule of [float]: an underscore stands between two
    digits. Returns the text without its underscores. *)
Fixpoint drop_underscores (prev : ascii) (s : string) : option string :=
  match s with
  | EmptyString => if Ascii.eqb prev "_" then None else Some EmptyString
  | String c r =>
      if Ascii.eqb c "_" then
        if is_digit prev then drop_underscores c r else None
      else if Ascii.eqb prev "_" && negb (is_digit c) then None
      else option_map (String c) (drop_underscores c r)
  end.

(** the longest prefix of digits, and what follows it *)
Fixpoint span_digits (s : string) : string * string :=
  match s with
  | EmptyString => (EmptyString, EmptyString)
  | String c r =>
      if is_digit c then
        let (d, rest) := span_digits r in (String c d, rest)
      else (EmptyString, s)
  end.

Fixpoint Z_of_digits (acc : Z) (s : string) : Z :=
  match s with
  | EmptyString => acc
  | String c r => Z_of_digits (10 * acc + digit_val c) r
  end.

Definition split_sign (s : string) : bool * string :=
  match s with
  | String "-" r => (true, r)
  | String "+" r => (false, r)
  | _ => (false, s)
  end.

(** the exponent part: [e], an optional sign and at least one digit, up to
    the end of the text *)
Definition exponent (s : string) : option Z :=
  match s with
  | EmptyString => Some 0
  | String c r =>
      if Ascii.eqb (lower_char c) "e" then
        let (neg, r1) := split_sign r in
        let (ds, rest) := span_digits r1 in
        match ds, rest with
        | String _ _, EmptyString =>
            Some (if neg then - Z_of_digits 0 ds else Z_of_digits 0 ds)
        | _, _ => None
        end
      else None
  end.

(** digits, an optional point and digits, an optional exponent *)
Definition decimal (neg : bool) (s : string) : option float_text :=
  let (ip, r1) := span_digits s in
  let (fp, r2) :=
    match r1 with
    | String "." r => span_digits r
    | _ => (EmptyString, r1)
    end in
  match (ip ++ fp)%string with
  | EmptyString => None
  | m =>
      match exponent r2 with
      | Some e => Some (FDec neg (Z_of_digits 0 m) (e - Z.of_nat (String.length fp)))
      | None => None
      end
  end.

(** [inf], [infinity] and [nan], in any case *)
Definition inf_or_nan (neg : bool) (s : string) : option float_text :=
  let l := lower s in
  if String.eqb l "inf" || String.eqb l "infinity" then Some (FInf neg)
  else if String.eqb l "nan" then Some FNan
  else None.

(** [float(s)] for a [str]: [None] is [ValueError]. *)
Definition py_float (s : string) : option float_text :=
  match drop_underscores "000" (strip_with is_c_space s) with
  | None => None
  | Some t =>
      let (neg, body) := split_sign t in
      match decimal neg body with
      | Some f => Some f
      | None => inf_or_nan neg body
      end
  end.

End Num.

(** A backtracking matcher for the regular expressions [_strptime] builds
    and for the one [_is_datetime] writes out. A match is tried from the
    start of the text ([re.match]); the outcomes are listed in the order
    the backtracking engine explores them, so the first one is the match it
    reports. *)
Module Re.

Inductive regex : Type :=
  | Eps
  | Lit (c : ascii)                 (* a literal character *)
  | Range (lo hi : ascii)           (* [lo-hi] *)
  | Digit                           (* \d *)
  | Digits1                         (* \d+ *)
  | Spaces1                         (* \s+ *)
  | Seq (r1 r2 : regex)
  | Alt (r1 r2 : regex)
  | Opt (r : regex)                 (* r? *)
  | Group (name : string) (r : regex)   (* (?P<name>r) *)
  | Eos.                            (* $ *)

(** the named groups of a match and the text left after it *)
Definition outcome : Type := (list (string * string) * string)%type.

(** what is left after zero or more characters of a class, longest run
    first *)
Fixpoint many (p : ascii -> bool) (s : string) : list string :=
  match s with
  | EmptyString => [EmptyString]
  | String c r => if p c then (many p r ++ [s])%list else [s]
  end.

Definition many1 (p : ascii -> bool) (s : string) : list outcome :=
  match s with
  | EmptyString => []
  | String c r => if p c then map (pair []) (many p r) else []
  end.

Definition one (p : ascii -> bool) (s : string) : list outcome :=
  match s with
  | EmptyString => []
  | String c r => if p c then [([], r)] else []
  end.

Definition consumed (s rest : string) : string :=
  substring 0 (String.length s - String.length rest) s.

(** [icase] is the flag [re.IGNORECASE]. *)
Fixpoint run (icase : bool) (r : regex) (s : string) : list outcome :=
  match r with
  | Eps => [([], s)]
  | Lit c =>
      one (fun d => if icase then Ascii.eqb (lower_char c) (lower_char d)
                    else Ascii.eqb c d) s
  | Range lo hi => one (in_range lo hi) s
  | Digit => one is_digit s
  | Digits1 => many1 is_digit s
  | Spaces1 => many1 is_space s
  | Seq r1 r2 =>
      flat_map (fun o1 =>
        map (fun o2 => ((fst o1 ++ fst o2)%list, snd o2)) (run icase r2 (snd o1)))
        (run icase r1 s)
  | Alt r1 r2 => (run icase r1 s ++ run icase r2 s)%list
  | Opt r1 => (run icase r1 s ++ [([], s)])%list
  | Group name r1 =>
      map (fun o => (((name, consumed s (snd o)) :: fst o), snd o))
          (run icase r1 s)
  | Eos =>
      if String.eqb s EmptyString || String.eqb s (String "010" EmptyString)
      then [([], s)] else []
  end.

(** [re.match(r, s)]: the first outcome, if any *)
Definition rmatch (icase : bool) (r : regex) (s : string) : option outcome :=
  hd_error (run icase r s).

Fixpoint seq_of (rs : list regex) : regex :=
  match rs with
  | [] => Eps
  | [r] => r
  | r :: rest => Seq r (seq_of rest)
  end.

Fixpoint alt_of (rs : list regex) : regex :=
  match rs with
  | [] => Eps
  | [r] => r
  | r :: rest => Alt r (alt_of rest)
  end.

(** [groupdict()[name]] *)
Fixpoint group (name : string) (gs : list (string * string)) : option string :=
  match gs with
  | [] => None
  | (n, v) :: rest => if String.eqb n name then Some v else group name rest
  end.

End Re.

(** [datetime.strptime] for the directives the formats of this program
    use. *)
Module Strptime.
Import Re Num.

(** the entries of [_strptime.TimeRE] for [%d %H %m %M %S %Y]; any other
    directive is left out of the table *)
Definition directive (d : ascii) : option regex :=
  match d with
  | "d"%char =>
      Some (Group "d" (alt_of [Seq (Lit "3") (Range "0" "1");
                               Seq (Range "1" "2") Digit;
                               Seq (Lit "0") (Range "1" "9");
                               Range "1" "9";
                               Seq (Lit " ") (Range "1" "9")]))
  | "H"%char =>
      Some (Group "H" (alt_of [Seq (Lit "2") (Range "0" "3");
                               Seq (Range "0" "1") Digit;
                               Digit]))
  | "m"%char =>
      Some (Group "m" (alt_of [Seq (Lit "1") (Range "0" "2");
                               Seq (Lit "0") (Range "1" "9");
                               Range "1" "9"]))
  | "M"%char => Some (Group "M" (alt_of [Seq (Range "0" "5") Digit; Digit]))
  | "S"%char =>
      Some (Group "S" (alt_of [Seq (Lit "6") (Range "0" "1");
                               Seq (Range "0" "5") Digit;
                               Digit]))
  | "Y"%char => Some (Group "Y" (seq_of [Digit; Digit; Digit; Digit]))
  | _ => None
  end.

(** [TimeRE.pattern]: a run of white space of the format stands for
    [\s+], [%x] for the entry of [x], any other character for itself.
    [in_ws] tells that the previous character was white space. *)
Fixpoint pattern (in_ws : bool) (format : string) : option regex :=
  match format with
  | EmptyString => Some Eps
  | String c rest =>
      if Ascii.eqb c "%" then
        match rest with
        | EmptyString => None
        | String d rest' =>
            match directive d, pattern false rest' with
            | Some r, Some k => Some (Seq r k)
            | _, _ => None
            end
        end
      else if is_space c then
        if in_ws then pattern true rest
        else option_map (Seq Spaces1) (pattern true rest)
      else option_map (Seq (Lit c)) (pattern false rest)
  end.

Definition is_leap (y : Z) : bool :=
  (y mod 4 =? 0) && (negb (y mod 100 =? 0) || (y mod 400 =? 0)).

Definition days_in_month (y m : Z) : Z :=
  if m =? 2 then (if is_leap y then 29 else 28)
  else if (m =? 4) || (m =? 6) || (m =? 9) || (m =? 11) then 30
  else 31.

(** the checks of [datetime.date(y, m, d)] *)
Definition date_ok (y m d : Z) : bool :=
  (1 <=? y) && (y <=? 9999) && (1 <=? m) && (m <=? 12)
  && (1 <=? d) && (d <=? days_in_month y m).

(** [datetime.datetime(y, m, d, H, M, S)] *)
Definition datetime_new (y m d H M S : Z) : result datetime :=
  if negb (date_ok y m d) then Raise (ValueError "date value out of range")
  else if negb ((0 <=? H) && (H <=? 23)) then
    Raise (ValueError "hour must be in 0..23")
  else if negb ((0 <=? M) && (M <=? 59)) then
    Raise (ValueError "minute must be in 0..59")
  else if negb ((0 <=? S) && (S <=? 59)) then
    Raise (ValueError "second must be in 0..59")
  else Ok (mk_datetime y m d H M S).

(** [int(found_dict[name])], or [default] when the format has no such
    directive *)
Definition field (found : list (string * string)) (name : string)
    (default : Z) : result Z :=
  match group name found with
  | None => Ok default
  | Some t =>
      match py_int t with
      | Some n => Ok n
      | None => Raise (ValueError "invalid literal for int()")
      end
  end.

(** [datetime.strptime(data_string, format)] *)
Definition strptime (data_string format : string) : result datetime :=
  match pattern false format with
  | None => Raise (ValueError "bad directive in format")
  | Some format_regex =>
      match rmatch true format_regex data_string with
      | None => Raise (ValueError "time data does not match format")
      | Some (found, rest) =>
          if negb (String.eqb rest EmptyString) then
            Raise (ValueError "unconverted data remains")
          else
            month <- field found "m" 1 ;;
            day <- field found "d" 1 ;;
            hour <- field found "H" 0 ;;
            minute <- field found "M" 0 ;;
            second <- field found "S" 0 ;;
            match group "Y" found with
            | Some _ =>
                year <- field found "Y" 1900 ;;
                if negb (date_ok year month day) then
                  Raise (ValueError "day is out of range for month")
                else datetime_new year month day hour minute second
            | None =>
                (* no year given: the day of the year is computed in 1904
                   for 29 February and in 1900 otherwise, the result is
                   built in 1900 *)
                let y := if (month =? 2) && (day =? 29) then 1904 else 1900 in
                if negb (date_ok y month day) then
                  Raise (ValueError "day is out of range for month")
                else datetime_new 1900 month day hour minute second
            end
      end
  end.

End Strptime.

(* ================================================================= *)
(** ** Python dicts and sets *)

Module Dict.

(** A [dict] with [str] keys, in insertion order *)
Definition dict (V : Type) : Type := list (string * V).

Section Ops.
Context {V : Type}.

(** [d.get(k)], [None] of the caller's choice when absent *)
Fixpoint get (d : dict V) (k : string) : option V :=
  match d with
  | [] => None
  | (k', v) :: rest => if String.eqb k' k then Some v else get rest k
  end.

(** [d[k] = v]: a present key keeps its place, a new key goes last. *)
Fixpoint set (d : dict V) (k : string) (v : V) : dict V :=
  match d with
  | [] => [(k, v)]
  | (k', v') :: rest =>
      if String.eqb k' k then (k', v) :: rest else (k', v') :: set rest k v
  end.

(** [d.update(other)] *)
Definition update (d other : dict V) : dict V :=
  fold_left (fun acc kv => set acc (fst kv) (snd kv)) other d.

(** [list(d.keys())] *)
Definition keys (d : dict V) : list string := map fst d.

(** [list(d.values())] *)
Definition values (d : dict V) : list V := map snd d.

(** the keys of a Python dict are distinct *)
Definition wf (d : dict V) : Prop := NoDup (keys d).

End Ops.
End Dict.

(** The order in which a [set] is iterated is fixed by the hashes of its
    elements and is not specified by the language. [iter_str l] is the
    order in which a set of [str] yields its elements after they were added
    in the order [l]; it yields every element once. [iter_values l] is the
    same for a set of hashable values, whose equality (e.g. [1 == 1.0 ==
    True]) is left to it. *)
Record HashOrder : Type := {
  iter_str : list string -> list string;
  iter_str_NoDup : forall l, NoDup (iter_str l);
  iter_str_In : forall l x, In x (iter_str l) <-> In x l;
  iter_values : list json -> list json
}.

(* ================================================================= *)
(** ** [src/utils/type_detector.py] *)

Module TypeDetector.
Import Py Num Re Strptime.

Definition DATETIME_FORMATS : list string :=
  [ "%Y-%m-%dT%H:%M:%SZ";
    "%Y-%m-%dT%H:%M:%S";
    "%Y-%m-%d %H:%M:%S";
    "%Y-%m-%d";
    "%d/%m/%Y";
    "%m/%d/%Y";
    "%d-%m-%Y";
    "%Y/%m/%d" ].

Definition strptime_ok (value fmt : string) : bool :=
  match strptime value fmt with
  | Ok _ => true
  | Raise _ => false
  end.

Definition two_digits : regex := Seq Digit Digit.

(** [^\d{4}-\d{2}-\d{2}T\d{2}:\d{2}:\d{2}(\.\d+)?Z?$] *)
Definition iso_pattern : regex :=
  seq_of [ Seq two_digits two_digits; Lit "-"; two_digits; Lit "-";
           two_digits; Lit "T"; two_digits; Lit ":"; two_digits; Lit ":";
           two_digits; Opt (Seq (Lit ".") Digits1); Opt (Lit "Z"); Eos ].

(** The loop of [_is_datetime] and of [detect_date_format]: the first
    format [strptime] accepts. *)
Fixpoint first_format (value : string) (formats : list string) : option string :=
  match formats with
  | [] => None
  | fmt :: rest =>
      match strptime value fmt with
      | Ok _ => Some fmt
      | Raise _ => first_format value rest
      end
  end.

Definition _is_datetime (value : string) : bool :=
  match first_format value DATETIME_FORMATS with
  | Some _ => true
  | None =>
      match rmatch false iso_pattern value with
      | Some _ => true
      | None => false
      end
  end.

Definition detect_date_format (value : string) : option string :=
  first_format value DATETIME_FORMATS.

Definition NULL_TOKENS : list string :=
  ["NULL"; "NONE"; "N/A"; "NA"; "NAN"; "UNDEFINED"].

Definition BOOL_TOKENS : list string :=
  ["TRUE"; "FALSE"; "YES"; "NO"; "Y"; "N"].

Definition pad (width : nat) (n : Z) : string :=
  let s := str_of_Z n in
  (string_of_list_ascii (repeat "0"%char (width - String.length s)) ++ s)%string.

(** [str(value)] *)
Definition py_str (value : pyobj) : string :=
  match value with
  | PJson v => str v
  | PDatetime d =>
      pad 4 (dt_year d) ++ "-" ++ pad 2 (dt_month d) ++ "-" ++ pad 2 (dt_day d)
      ++ " " ++ pad 2 (dt_hour d) ++ ":" ++ pad 2 (dt_minute d) ++ ":"
      ++ pad 2 (dt_second d)
  end.

Definition is_None (value : pyobj) : bool :=
  match value with PJson JNone => true | _ => false end.

Definition isinstance_str (value : pyobj) : bool :=
  match value with PJson (JStr _) => true | _ => false end.

Definition isinstance_bool (value : pyobj) : bool :=
  match value with PJson (JBool _) => true | _ => false end.

(** [bool] is a subclass of [int]. *)
Definition isinstance_int (value : pyobj) : bool :=
  match value with PJson (JInt _) | PJson (JBool _) => true | _ => false end.

Definition isinstance_float (value : pyobj) : bool :=
  match value with PJson (JFloat _) => true | _ => false end.

Definition isinstance_datetime (value : pyobj) : bool :=
  match value with PDatetime _ => true | _ => false end.

(** Lines 92-104 of [infer_type]: the float test, the datetime test and
    the default. *)
Definition infer_after_int (value : string) : DataType :=
  match py_float value with
  | Some _ => FLOAT
  | None => if _is_datetime value then DATETIME else STRING
  end.

(** Lines 67-104 of [infer_type], on the text of the value *)
Definition infer_text (value : string) : DataType :=
  let value := strip value in
  if String.eqb value EmptyString then NULL
  else if mem (upper value) NULL_TOKENS then NULL
  else if mem (upper value) (BOOL_TOKENS ++ ["1"; "0"])%list
          && mem (upper value) BOOL_TOKENS then BOOLEAN
  else
    match py_int value with
    | Some _ =>
        if negb (contains "." value) && negb (contains "e" (lower value))
        then INTEGER
        else infer_after_int value
    | None => infer_after_int value
    end.

Definition infer_type (value : pyobj) : DataType :=
  if is_None value
     || (isinstance_str value && String.eqb (strip (py_str value)) EmptyString)
  then NULL
  else if isinstance_bool value then BOOLEAN
  else if isinstance_int value then INTEGER
  else if isinstance_float value then FLOAT
  else if isinstance_datetime value then DATETIME
  else infer_text (py_str value).

(** [collections.Counter], in insertion order *)
Definition Counter : Type := list (DataType * Z).

Fixpoint counter_get (c : Counter) (t : DataType) : Z :=
  match c with
  | [] => 0
  | (k, n) :: rest => if DataType_eqb k t then n else counter_get rest t
  end.

(** [t in c] *)
Definition counter_mem (c : Counter) (t : DataType) : bool :=
  existsb (fun kn => DataType_eqb (fst kn) t) c.

(** [c[t] += 1] *)
Fixpoint counter_incr (c : Counter) (t : DataType) : Counter :=
  match c with
  | [] => [(t, 1)]
  | (k, n) :: rest =>
      if DataType_eqb k t then (k, n + 1) :: rest
      else (k, n) :: counter_incr rest t
  end.

(** [max(items, key=itemgetter(1))]: the candidate is replaced only by a
    strictly greater count. *)
Fixpoint max_count (best : DataType * Z) (items : Counter) : DataType * Z :=
  match items with
  | [] => best
  | x :: rest =>
      if snd best <? snd x then max_count x rest else max_count best rest
  end.

(** [c.most_common(1)], empty for an empty counter *)
Definition most_common_1 (c : Counter) : option (DataType * Z) :=
  match c with
  | [] => None
  | x :: rest => Some (max_count x rest)
  end.

(** [a / b] on two [int]: the quotient as a binary64 float (exact
    conversions for operands below 2^53). *)
Definition true_div (a b : Z) : float :=
  PrimFloat.div (PrimFloat.of_uint63 (Uint63.of_Z a))
                (PrimFloat.of_uint63 (Uint63.of_Z b)).

(** The loop of [infer_column_type]: the tally and the number of nulls *)
Definition tally_step (acc : Counter * Z) (value : pyobj) : Counter * Z :=
  let (type_counts, null_count) := acc in
  let detected_type := infer_type value in
  if DataType_eqb detected_type NULL then (type_counts, null_count + 1)
  else (counter_incr type_counts detected_type, null_count).

Definition tally (values : list pyobj) : Counter * Z :=
  fold_left tally_step values ([], 0).

Definition infer_column_type (values : list pyobj) (threshold : float) : DataType :=
  match values with
  | [] => UNKNOWN
  | _ =>
      let (type_counts, null_count) := tally values in
      match most_common_1 type_counts with
      | None => NULL
      | Some (most_common_type, count) =>
          let total_non_null := Z.of_nat (List.length values) - null_count in
          let agreement_ratio :=
            if 0 <? total_non_null then true_div count total_non_null
            else 0%float in
          if PrimFloat.leb threshold agreement_ratio then most_common_type
          else if counter_mem type_counts INTEGER && counter_mem type_counts FLOAT
          then FLOAT
          else STRING
      end
  end.

(** the default [threshold=0.8], as the double the literal denotes *)
Definition default_threshold : float := 0x1.999999999999ap-1%float.

(** [record.get(field)] *)
Definition record_get (record : Dict.dict json) (field : string) : json :=
  match Dict.get record field with
  | Some v => v
  | None => JNone
  end.

(** [[record.get(field) for record in records]] *)
Definition column (records : list (Dict.dict json)) (field : string) : list json :=
  map (fun record => record_get record field) records.

(** The set [all_fields] after the loop that fills it, as it is iterated *)
Definition all_fields (h : HashOrder) (records : list (Dict.dict json)) : list string :=
  iter_str h (flat_map Dict.keys records).

Definition analyze_field_types (h : HashOrder) (records : list (Dict.dict json))
    : Dict.dict DataType :=
  match records with
  | [] => []
  | _ =>
      fold_left
        (fun field_types field =>
           Dict.set field_types field
             (infer_column_type (map PJson (column records field))
                                default_threshold))
        (all_fields h records) []
  end.

End TypeDetector.

(* ================================================================= *)
(** ** [src/parsers/json_parser.py] and [src/core/parsed_data.py] *)

(** [FieldMetadata] *)
Module FieldMetadata.
Record t : Type := mk {
  name : string;
  data_type : string;
  nullable : bool;
  null_count : Z;
  unique_count : Z;
  sample_values : list json
}.
End FieldMetadata.

Module JSONParser.
Import Py TypeDetector.
Import Dict(dict).

(** a flat record *)
Definition record : Type := dict json.

(** The list branches of [_flatten_object]. *)
Definition flatten_list (value : list json) : json :=
  match value with
  | JDict _ :: _ => JStr (dumps (JList value))
  | _ =>
      if forallb is_str_int_float_bool value
      then JStr (join ", " (map str value))
      else JStr (dumps (JList value))
  end.

(** [_flatten_object], by recursion on the nesting of its argument
    [JDict obj]. *)
Fixpoint flatten_value (obj : json) (prefix : string)
    (max_depth current_depth : Z) {struct obj} : record :=
  match obj with
  | JDict items =>
      (fix loop (items : list (string * json)) (flattened : record)
           {struct items} : record :=
         match items with
         | [] => flattened
         | (key, value) :: rest =>
             let new_key :=
               if String.eqb prefix EmptyString then key
               else (prefix ++ key)%string in
             loop rest
               match value with
               | JDict _ =>
                   if current_depth <? max_depth then
                     Dict.update flattened
                       (flatten_value value (new_key ++ "_")%string
                          max_depth (current_depth + 1))
                   else Dict.set flattened new_key value
               | JList l => Dict.set flattened new_key (flatten_list l)
               | _ => Dict.set flattened new_key value
               end
         end) items []
  | _ => []
  end.

Definition _flatten_object (obj : dict json) (prefix : string)
    (max_depth current_depth : Z) : record :=
  flatten_value (JDict obj) prefix max_depth current_depth.

(** the defaults [max_depth=3, current_depth=0] *)
Definition flatten_object (obj : dict json) (prefix : string) : record :=
  _flatten_object obj prefix 3 0.

Definition _flatten_records (records : list json) : list record :=
  map (fun record =>
         match record with
         | JDict d => flatten_object d EmptyString
         | _ => [("value", record)]
         end) records.

(** [sum(1 for v in data.values() if isinstance(v, list))] *)
Definition list_count (data : dict json) : Z :=
  Z.of_nat (List.length (filter is_list (Dict.values data))).

(** [list_count > 0 and list_count >= len(data) * 0.5]; halving is exact
    in binary floating point, the comparison is written on the doubles. *)
Definition _is_collection_dict (data : dict json) : bool :=
  (0 <? list_count data) && (Z.of_nat (List.length data) <=? 2 * list_count data).

(** The instance state: [self.hierarchy_map] *)
Record parser : Type := mk_parser { hierarchy_map : dict Z }.

(** the records of one item of the collection [collection_name] *)
Definition collection_item (collection_name : string) (item : json) : record :=
  match item with
  | JDict d =>
      Dict.set (flatten_object d (collection_name ++ "_")%string)
               "_entity_type" (JStr collection_name)
  | _ => [("_entity_type", JStr collection_name); ("value", item)]
  end.

(** one turn of the loop of [_flatten_collection_dict] *)
Definition collection_step (acc : parser * list record)
    (entry : string * json) : parser * list record :=
  let (self, all_records) := acc in
  match snd entry with
  | JList collection_data =>
      (mk_parser (Dict.set (hierarchy_map self) (fst entry)
                           (Z.of_nat (List.length collection_data))),
       (all_records ++ map (collection_item (fst entry)) collection_data)%list)
  | _ => (self, all_records)
  end.

Definition _flatten_collection_dict (self : parser) (data : dict json)
    : parser * list record :=
  fold_left collection_step data (self, []).

Definition _extract_records (self : parser) (data : json)
    : parser * list record :=
  let self := mk_parser [] in
  match data with
  | JList l => (self, _flatten_records l)
  | JDict d =>
      if _is_collection_dict d then _flatten_collection_dict self d
      else (self, [flatten_object d EmptyString])
  | _ => (self, [[("value", data)]])
  end.

(** [JSONParser()] *)
Definition new_parser : parser := mk_parser [].

(** what [detect_schema] returns *)
Record schema : Type := mk_schema {
  field_metadata : dict FieldMetadata.t;
  hierarchy : dict Z
}.

(** [set(values)] hashes every element in turn; the first list or dict
    stops it. *)
Fixpoint check_hashable (values : list json) : result unit :=
  match values with
  | [] => Ok tt
  | v :: rest =>
      if hashable v then check_hashable rest
      else Raise (TypeError ("unhashable type: '" ++ type_name v ++ "'"))
  end.

(** [list(set(values))[:5]] *)
Definition sample (h : HashOrder) (values : list json) : result (list json) :=
  _ <- check_hashable values ;;
  Ok (firstn 5 (iter_values h values)).

(** [len(set(str(v) for v in values))] *)
Definition count_distinct_str (values : list json) : Z :=
  Z.of_nat (List.length (nodup string_dec (map str values))).

(** the body of the loop of [detect_schema] over the fields *)
Definition schema_step (h : HashOrder) (records : list record)
    (field_types : dict DataType)
    (acc : result (dict FieldMetadata.t)) (field_name : string)
    : result (dict FieldMetadata.t) :=
  field_metadata <- acc ;;
  let values := column records field_name in
  let non_null_values := filter is_not_None values in
  unique_values <- sample h non_null_values ;;
  let metadata :=
    {| FieldMetadata.name := field_name;
       FieldMetadata.data_type :=
         DataType_value
           match Dict.get field_types field_name with
           | Some t => t
           | None => UNKNOWN
           end;
       FieldMetadata.nullable :=
         (List.length non_null_values <? List.length values)%nat;
       FieldMetadata.null_count :=
         Z.of_nat (List.length values) - Z.of_nat (List.length non_null_values);
       FieldMetadata.unique_count := count_distinct_str non_null_values;
       FieldMetadata.sample_values := unique_values |} in
  Ok (Dict.set field_metadata field_name metadata).

Definition detect_schema (h : HashOrder) (self : parser)
    (records : list record) : result schema :=
  match records with
  | [] => Ok (mk_schema [] [])
  | _ =>
      let field_types := analyze_field_types h records in
      field_metadata <-
        fold_left (schema_step h records field_types)
                  (all_fields h records) (Ok []) ;;
      Ok (mk_schema field_metadata (hierarchy_map self))
  end.

End JSONParser.

(** [ParsedData], without the source path and the rendering methods *)
Module ParsedData.
Import Dict(dict).

Record t : Type := mk {
  file_format : string;
  records : list (dict json);
  field_metadata : dict FieldMetadata.t;
  hierarchy : dict Z;
  _record_count : Z
}.

(** [ParsedData(source_file, file_format)] *)
Definition init (file_format : string) : t := mk file_format [] [] [] 0.

Definition set_records (self : t) (records : list (dict json)) : t :=
  mk (file_format self) records (field_metadata self) (hierarchy self)
     (Z.of_nat (List.length records)).

Definition set_field_metadata (self : t) (fm : dict FieldMetadata.t) : t :=
  mk (file_format self) (records self) fm (hierarchy self) (_record_count self).

Definition set_hierarchy (self : t) (hier : dict Z) : t :=
  mk (file_format self) (records self) (field_metadata self) hier
     (_record_count self).

(** [list(self.field_metadata.keys())] *)
Definition get_fields (self : t) : list string := Dict.keys (field_metadata self).

Definition get_hierarchy (self : t) : dict Z := hierarchy self.

Definition get_records (self : t) : list (dict json) := records self.

Definition get_record_count (self : t) : Z := _record_count self.

(** [self.field_metadata.get(field_name)] *)
Definition get_field_metadata (self : t) (field_name : string)
    : option FieldMetadata.t :=
  Dict.get (field_metadata self) field_name.

(** [metadata.data_type if metadata else None]: a [FieldMetadata] is
    always true. *)
Definition get_field_type (self : t) (field_name : string) : option string :=
  match Dict.get (field_metadata self) field_name with
  | Some metadata => Some (FieldMetadata.data_type metadata)
  | None => None
  end.

(** [l[:n]]: a negative [n] counts from the end. *)
Definition slice_to {A : Type} (l : list A) (n : Z) : list A :=
  if 0 <=? n then firstn (Z.to_nat n) l
  else firstn (Z.to_nat (Z.of_nat (List.length l) + n)) l.

(** [self.records[:n]] *)
Definition preview (self : t) (n : Z) : list (dict json) :=
  slice_to (records self) n.

End ParsedData.

(** [JSONParser.parse] after [json.load]: the decoded document
    [raw_data] is the input. *)
Definition json_parse (h : HashOrder) (self : JSONParser.parser)
    (raw_data : json) : result (JSONParser.parser * ParsedData.t) :=
  let parsed_data := ParsedData.init "json" in
  let (self, records) := JSONParser._extract_records self raw_data in
  let parsed_data := ParsedData.set_records parsed_data records in
  schema <- JSONParser.detect_schema h self records ;;
  let parsed_data :=
    ParsedData.set_field_metadata parsed_data (JSONParser.field_metadata schema) in
  let parsed_data :=
    ParsedData.set_hierarchy parsed_data (JSONParser.hierarchy schema) in
  Ok (self, parsed_data).

(** [CSVParser.parse] after [pandas] has read the file and
    [CSVParser.detect_schema] has computed the per-column metadata: the rows
    and that metadata are the inputs. The hierarchy of the result is never
    set. *)
Definition csv_parse (rows : list (Dict.dict json))
    (columns : Dict.dict FieldMetadata.t) : ParsedData.t :=
  let parsed_data := ParsedData.init "csv" in
  let parsed_data := ParsedData.set_records parsed_data rows in
  ParsedData.set_field_metadata parsed_data columns.


(* ================================================================= *)
(** ** Hash orders *)

(** the elements of [l] that are not in [seen], each at its first
    occurrence *)
Fixpoint first_seen (seen l : list string) : list string :=
  match l with
  | [] => []
  | x :: rest =>
      if mem x seen then first_seen seen rest
      else x :: first_seen (x :: seen) rest
  end.

(** values told apart by their [repr] *)
Fixpoint distinct_values (seen : list string) (l : list json) : list json :=
  match l with
  | [] => []
  | v :: rest =>
      if mem (Py.repr v) seen then distinct_values seen rest
      else v :: distinct_values (Py.repr v :: seen) rest
  end.

Definition first_seen_spec (l : list string) :
  forall seen,
    NoDup (first_seen seen l) /\
    forall x, In x (first_seen seen l) <-> In x l /\ ~ In x seen.
Proof.
  induction l as [|a l IH]; intros seen; simpl.
  - split; [constructor | intros x; tauto].
  - destruct (mem a seen) eqn:Hm.
    + destruct (IH seen) as [Hnd Hin]. split; [exact Hnd|].
      intros x. rewrite Hin. split.
      * intros [H1 H2]; auto.
      * intros [[->|H1] H2]; [|auto].
        exfalso. apply H2. unfold mem in Hm.
        apply existsb_exists in Hm. destruct Hm as [y [Hy He]].
        apply String.eqb_eq in He. subst y. exact Hy.
    + destruct (IH (a :: seen)) as [Hnd Hin]. split.
      * constructor; [|exact Hnd]. rewrite Hin. simpl. tauto.
      * intros x. simpl. rewrite Hin. simpl. split.
        -- intros [->|[H1 H2]].
           ++ split; [auto|]. intros Hs.
              assert (mem x seen = true) as Hc; [|congruence].
              unfold mem. apply existsb_exists. exists x.
              split; [exact Hs | apply String.eqb_refl].
           ++ split; [auto|tauto].
        -- intros [[->|H1] H2]; [auto|].
           destruct (string_dec a x) as [->|Hne]; [auto|].
           right. split; [exact H1|]. intros [He|Hs]; [congruence|auto].
Defined.

(** The hash order that happens to agree with insertion order. *)
Definition insertion_order : HashOrder :=
  {| iter_str := first_seen [];
     iter_str_NoDup := fun l => proj1 (first_seen_spec l []);
     iter_str_In := fun l x =>
       conj (fun H => proj1 (proj1 (proj2 (first_seen_spec l []) x) H))
            (fun H => proj2 (proj2 (first_seen_spec l []) x)
                            (conj H (fun F : In x [] => F)));
     iter_values := distinct_values [] |}.

(** A hash order that yields the elements the other way round. *)
Definition reverse_order : HashOrder :=
  {| iter_str := fun l => rev (first_seen [] l);
     iter_str_NoDup := fun l =>
       NoDup_rev (proj1 (first_seen_spec l []));
     iter_str_In := fun l x =>
       conj (fun H => proj1 (proj1 (proj2 (first_seen_spec l []) x)
                                   (proj2 (in_rev _ x) H)))
            (fun H => proj1 (in_rev _ x)
                            (proj2 (proj2 (first_seen_spec l []) x)
                                   (conj H (fun F : In x [] => F))));
     iter_values := fun l => rev (distinct_values [] l) |}.

(* ================================================================= *)
(** ** The notions the specification speaks of *)

Module Spec.
Import Py Num Re TypeDetector JSONParser.
Import Dict(dict).

Definition DataType_eq_dec (a b : DataType) : {a = b} + {a <> b}.
Proof. decide equality. Defined.

Definition is_some {A : Type} (o : option A) : bool :=
  match o with Some _ => true | None => false end.

(** *** The classifier, step by step *)

(** the value converted to text and trimmed *)
Definition text_of (v : pyobj) : string := strip (py_str v).

Definition native_int (v : pyobj) : bool :=
  match v with PJson (JInt _) => true | _ => false end.

Definition rule : Type := ((pyobj -> bool) * DataType)%type.

(** The decision steps, in their order *)
Definition classify_rules : list rule :=
  [ (fun v => is_None v
              || (isinstance_str v && String.eqb (text_of v) EmptyString), NULL);
    (isinstance_bool, BOOLEAN);
    (native_int, INTEGER);
    (isinstance_float, FLOAT);
    (isinstance_datetime, DATETIME);
    (fun v => String.eqb (text_of v) EmptyString, NULL);
    (fun v => mem (upper (text_of v)) NULL_TOKENS, NULL);
    (fun v => mem (upper (text_of v)) BOOL_TOKENS, BOOLEAN);
    (fun v => is_some (py_int (text_of v)), INTEGER);
    (fun v => is_some (py_float (text_of v)), FLOAT);
    (fun v => is_some (detect_date_format (text_of v))
              || is_some (rmatch false iso_pattern (text_of v)), DATETIME) ].

(** first match wins *)
Fixpoint first_match (rules : list rule) (default : DataType) (v : pyobj)
    : DataType :=
  match rules with
  | [] => default
  | (guard, tag) :: rest => if guard v then tag else first_match rest default v
  end.

Definition classify (v : pyobj) : DataType :=
  first_match classify_rules STRING v.

(** *** Columns *)

(** the classification of each value, in the order of the column *)
Definition classes (values : list pyobj) : list DataType :=
  map infer_type values.

(** how many values classify as [t] *)
Definition count_type (values : list pyobj) (t : DataType) : Z :=
  Z.of_nat (count_occ DataType_eq_dec (classes values) t).

(** how many values do not classify as [NULL] *)
Definition non_null_total (values : list pyobj) : Z :=
  Z.of_nat (List.length
              (filter (fun t => negb (DataType_eqb t NULL)) (classes values))).

(** some value classifies as [t] *)
Definition appears (values : list pyobj) (t : DataType) : bool :=
  existsb (DataType_eqb t) (classes values).

(** the position at which [t] is first met ([length l] if never) *)
Fixpoint first_index (t : DataType) (l : list DataType) : nat :=
  match l with
  | [] => O
  | x :: rest => if DataType_eqb x t then O else S (first_index t rest)
  end.

(** the type whose share [infer_column_type] compares with the threshold *)
Definition most_common_type (values : list pyobj) : option DataType :=
  option_map fst (most_common_1 (fst (tally values))).

(** *** Flattening *)

(** a scalar of the data model: a number, a boolean, a text or null *)
Definition is_scalar (v : json) : bool := negb (is_list v) && negb (is_dict v).

Definition starts_with_object (l : list json) : bool :=
  match l with JDict _ :: _ => true | _ => false end.

(** What one key/value pair of an object at depth [depth] adds to the
    record [flattened]; [flatten] is the flattening of a nested object. *)
Definition flatten_entry (flatten : dict json -> string -> Z -> Z -> record)
    (prefix : string) (max_depth depth : Z)
    (flattened : record) (entry : string * json) : record :=
  let new_key := (prefix ++ fst entry)%string in
  match snd entry with
  | JDict d =>
      if depth <? max_depth
      then Dict.update flattened (flatten d (new_key ++ "_")%string max_depth (depth + 1))
      else Dict.set flattened new_key (JDict d)
  | JList l =>
      if starts_with_object l || negb (forallb is_str_int_float_bool l)
      then Dict.set flattened new_key (JStr (dumps (JList l)))
      else Dict.set flattened new_key (JStr (join ", " (map str l)))
  | v => Dict.set flattened new_key v
  end.

(** The rule for lists as the specification words it: every list of
    scalars is joined. *)
Definition scalar_lists_are_joined : Prop :=
  forall (key : string) (l : list json),
    forallb is_scalar l = true ->
    flatten_object [(key, JList l)] EmptyString
    = [(key, JStr (join ", " (map str l)))].

(** *** Collection dicts *)

Definition list_valued (entry : string * json) : bool := is_list (snd entry).

(** the records of the collections of [data], collection by collection *)
Definition collection_records (data : dict json) : list record :=
  flat_map (fun entry =>
              match snd entry with
              | JList l => map (collection_item (fst entry)) l
              | _ => []
              end) data.

(** each collection with the number of its items *)
Definition collection_sizes (data : dict json) : dict Z :=
  flat_map (fun entry =>
              match snd entry with
              | JList l => [(fst entry, Z.of_nat (List.length l))]
              | _ => []
              end) data.

(** *** Schemas *)

(** the field names of the records, each at its first appearance *)
Definition first_seen_fields (records : list record) : list string :=
  first_seen [] (flat_map Dict.keys records).

(** no field of any record holds a list or a dict *)
Definition all_hashable (records : list record) : bool :=
  forallb (fun r => forallb (fun kv => hashable (snd kv)) r) records.

(** The order of the fields as the specification words it: first
    appearance, whatever the hash order. *)
Definition fields_in_first_seen_order : Prop :=
  forall (h : HashOrder) (self : parser) (records : list record) (s : schema),
    detect_schema h self records = Ok s ->
    Dict.keys (field_metadata s) = first_seen_fields records.

End Spec.

Import Text Py Num Re Strptime TypeDetector JSONParser Spec.
Import Dict(dict).

(* ================================================================= *)
(** ** Notions of the proofs, and the inputs of the examples *)

(** every character of [s] satisfies [p] *)
Fixpoint sall (p : ascii -> bool) (s : string) : bool :=
  match s with
  | EmptyString => true
  | String c r => p c && sall p r
  end.

(** the characters an [int] literal is made of *)
Definition int_char (c : ascii) : bool :=
  is_digit c || Ascii.eqb c "_" || Ascii.eqb c "+" || Ascii.eqb c "-".

(** the six tags a single value can get *)
Definition value_tag (t : DataType) : bool :=
  match t with UNKNOWN => false | _ => true end.




(** the types of a counter, in insertion order *)
Definition counter_keys (c : Counter) : list DataType := map fst c.

(** the counter that holds the types [ks], each with the count [g] gives *)
Definition entries (g : DataType -> Z) (ks : list DataType) : Counter :=
  map (fun t => (t, g t)) ks.

(** [a] is met before [b] in [l] *)
Definition met_before (l : list DataType) (a b : DataType) : Prop :=
  (first_index a l < first_index b l)%nat.

(** the tally, from the classifications *)
Definition tally_classes (cls : list DataType) : Counter * Z :=
  fold_left (fun acc t =>
               if DataType_eqb t NULL then (fst acc, snd acc + 1)
               else (counter_incr (fst acc) t, snd acc))
            cls ([], 0).

(** how often [t] is among the classifications [cls] *)
Definition occurrences (cls : list DataType) (t : DataType) : Z :=
  Z.of_nat (count_occ DataType_eq_dec cls t).

(** What the loop of [infer_column_type] has computed after the values
    classified [cls]. *)
Record tally_inv (cls : list DataType) (acc : Counter * Z) : Prop := {
  inv_entries : fst acc = entries (occurrences cls) (counter_keys (fst acc));
  inv_keys : forall t, In t (counter_keys (fst acc)) <-> In t cls /\ t <> NULL;
  inv_order : StronglySorted (met_before cls) (counter_keys (fst acc));
  inv_nulls : snd acc = occurrences cls NULL
}.

(** the value [infer_column_type] returns once a most common type exists *)
Definition decide_column (values : list pyobj) (threshold : float)
    (most : DataType) : DataType :=
  if PrimFloat.leb threshold
       (true_div (count_type values most) (non_null_total values))
  then most
  else if appears values INTEGER && appears values FLOAT then FLOAT
  else STRING.

(** the column [1, 2.5, 3, 4.0] of the tests *)
Definition mixed_numeric_column : list pyobj :=
  [PJson (JInt 1); PJson (JFloat "2.5"); PJson (JInt 3); PJson (JFloat "4.0")].

(** a column with two texts and two integers, a text first *)
Definition tied_column : list pyobj :=
  [PJson (JStr "a"); PJson (JInt 1); PJson JNone; PJson (JInt 2);
   PJson (JStr "b")].

(** the shapes that are not a collection dict *)
Definition is_collection (data : json) : bool :=
  match data with
  | JDict d => _is_collection_dict d
  | _ => false
  end.

(** two collections and one key that is not list-valued *)
Definition two_collections : dict json :=
  [ ("users", JList [JDict [("id", JInt 1)]; JStr "guest"]);
    ("devices", JList [JDict [("id", JInt 9)]]);
    ("version", JInt 2) ].

(** two records with the fields [a b] and [b c] *)
Definition two_fields : list record :=
  [ [("a", JInt 1); ("b", JStr "x")]; [("b", JNone); ("c", JFloat "2.5")] ].

(** an object nested five deep *)
Definition deep_document : json :=
  JDict [("a", JDict [("b", JDict [("c", JDict [("d", JDict [("e", JInt 1)])])])])].

(** the metadata [detect_schema] builds for one field once the set of its
    values exists *)
Definition metadata_of (h : HashOrder) (records : list record)
    (field_types : dict DataType) (field_name : string) : FieldMetadata.t :=
  let values := column records field_name in
  let non_null_values := filter is_not_None values in
  {| FieldMetadata.name := field_name;
     FieldMetadata.data_type :=
       DataType_value
         match Dict.get field_types field_name with
         | Some t => t
         | None => UNKNOWN
         end;
     FieldMetadata.nullable :=
       (List.length non_null_values <? List.length values)%nat;
     FieldMetadata.null_count :=
       Z.of_nat (List.length values) - Z.of_nat (List.length non_null_values);
     FieldMetadata.unique_count := count_distinct_str non_null_values;
     FieldMetadata.sample_values := firstn 5 (iter_values h non_null_values) |}.

(** some record has the key [f] *)
Definition field_appears (records : list record) (f : string) : bool :=
  existsb (fun r => mem f (Dict.keys r)) records.

(** how many records have no value, or [None], for [f] *)
Definition missing_count (records : list record) (f : string) : Z :=
  Z.of_nat (List.length
              (filter (fun r => negb (is_not_None (record_get r f))) records)).

(** how deep objects are nested in objects: 0 for a value that is not an
    object, 1 for an object without object values *)
Fixpoint dict_depth (v : json) : nat :=
  match v with
  | JDict items =>
      S (fold_right Nat.max O (map (fun kv => dict_depth (snd kv)) items))
  | _ => O
  end.

(** [sum(xs)] *)
Definition sum (xs : list Z) : Z := fold_right Z.add 0 xs.

(** an item a record can be made of without a list or a dict in it: not
    a list, and objects nested at most four deep *)
Definition shallow (v : json) : bool :=
  match v with
  | JList _ => false
  | _ => (dict_depth v <=? 4)%nat
  end.

(** a document all of whose records are made of shallow items *)
Definition shallow_document (raw_data : json) : bool :=
  match raw_data with
  | JList l => forallb shallow l
  | JDict d =>
      if _is_collection_dict d then
        forallb (fun kv => match snd kv with
                           | JList l => forallb shallow l
                           | _ => true
                           end) d
      else shallow raw_data
  | _ => true
  end.

(** an array whose first element nests objects four deep, with a list of
    a list at the bottom *)
Definition four_deep_document : json :=
  JList [ JDict [("a", JDict [("b", JDict [("c",
                    JDict [("d", JInt 1);
                           ("tags", JList [JList [JInt 1]; JNone])])])]);
                 ("id", JInt 7)];
          JStr "x" ].

(** the value does not classify as NULL *)
Definition non_null (v : pyobj) : bool := negb (DataType_eqb (infer_type v) NULL).

(* ================================================================= *)
(** ** [src/core/data_validator.py] and [src/parsers/parser_factory.py] *)

Module Validator.

(** [FileFormat] *)
Inductive FileFormat : Type := JSON | CSV | UNKNOWN.

Definition FileFormat_name (f : FileFormat) : string :=
  match f with JSON => "JSON" | CSV => "CSV" | UNKNOWN => "UNKNOWN" end.

(** What opening the file and [json.load] come to; [JsonOtherError] is
    any exception other than the two the code names, with its text *)
Inductive json_load : Type :=
  | JsonData (data : json)
  | JSONDecodeError (msg : string)
  | JsonUnicodeDecodeError
  | JsonOtherError (msg : string).

(** What opening the file and [list(csv.reader(f))] come to *)
Inductive csv_read : Type :=
  | CsvRows (rows : list (list string))
  | CsvError (msg : string)
  | CsvUnicodeDecodeError
  | CsvOtherError (msg : string).

(** What the operating system and the decoders answer for one path: the
    environment of the validator *)
Record file_view : Type := {
  path_exists : bool;            (* os.path.exists *)
  path_isfile : bool;            (* os.path.isfile *)
  path_readable : bool;          (* os.access(path, os.R_OK) *)
  path_getsize : Z;              (* os.path.getsize *)
  load_json : json_load;
  read_csv : csv_read
}.

Definition file_system : Type := string -> file_view.

(** the characters of a text, last first *)
Fixpoint rev_chars (s : string) (acc : list ascii) : list ascii :=
  match s with
  | EmptyString => acc
  | String c r => rev_chars r (c :: acc)
  end.

(** the run of characters before the first [.] or [/] of a list, and the
    rest from that character on *)
Fixpoint span_ext (l : list ascii) : list ascii * list ascii :=
  match l with
  | [] => ([], [])
  | c :: r =>
      if Ascii.eqb c "." || Ascii.eqb c "/" then ([], l)
      else let (e, rest) := span_ext r in (c :: e, rest)
  end.

(** the name, read backwards from its last dot up to the directory
    separator, has a character that is not a dot *)
Fixpoint has_stem (l : list ascii) : bool :=
  match l with
  | [] => false
  | c :: r =>
      if Ascii.eqb c "/" then false
      else if Ascii.eqb c "." then has_stem r
      else true
  end.

(** [os.path.splitext(p)[1]] (POSIX): the text from the last dot of the
    last component of the path, when a character other than a dot comes
    before it in that component; empty otherwise. *)
Definition extension (p : string) : string :=
  let (e, rest) := span_ext (rev_chars p []) in
  match rest with
  | "."%char :: stem =>
      if has_stem stem then String "." (string_of_list_ascii (rev e))
      else EmptyString
  | _ => EmptyString
  end.

Definition SUPPORTED_FORMATS : list string := [".json"; ".csv"].

(** 100 * 1024 * 1024 *)
Definition MAX_FILE_SIZE : Z := 100 * 1024 * 1024.

(** [f"{n / 1024 / 1024:.2f}"] for an [int] below 2^53: the quotient by
    2^20 is exact in binary64, and the text is that quotient rounded to
    two decimals, a tie going to the even digit. *)
Definition megabytes_2f (n : Z) : string :=
  let scaled := n * 100 in
  let q := scaled / 1048576 in
  let r := scaled mod 1048576 in
  let q :=
    if (524288 <? r) || ((r =? 524288) && Z.odd q) then q + 1 else q in
  (str_of_Z (q / 100) ++ "." ++ TypeDetector.pad 2 (q mod 100))%string.

(** [DataValidator] *)
Record t : Type := mk {
  file_path : option string;
  file_format : FileFormat;
  validation_errors : list string
}.

(** [DataValidator()] *)
Definition init : t := mk None UNKNOWN [].

(** [self.file_path]; the checks run inside [validate_file], which sets
    it first *)
Definition path_of (self : t) : string :=
  match file_path self with Some p => p | None => EmptyString end.

(** [self.validation_errors.append(msg)] *)
Definition append_error (self : t) (msg : string) : t :=
  mk (file_path self) (file_format self) (validation_errors self ++ [msg])%list.

Definition _check_file_exists (os : file_system) (self : t) : t * bool :=
  let v := os (path_of self) in
  if negb (path_exists v) then
    (append_error self ("File not found: " ++ path_of self), false)
  else if negb (path_isfile v) then
    (append_error self ("Path is not a file: " ++ path_of self), false)
  else if negb (path_readable v) then
    (append_error self ("File is not readable: " ++ path_of self), false)
  else (self, true).

Definition _check_file_size (os : file_system) (self : t) : t * bool :=
  let file_size := path_getsize (os (path_of self)) in
  if MAX_FILE_SIZE <? file_size then
    (append_error self
       ("File size (" ++ megabytes_2f file_size
        ++ " MB) exceeds maximum allowed size ("
        ++ megabytes_2f MAX_FILE_SIZE ++ " MB)"), false)
  else (self, true).

Definition _detect_format (self : t) : FileFormat :=
  let ext := lower (extension (path_of self)) in
  if String.eqb ext ".json" then JSON
  else if String.eqb ext ".csv" then CSV
  else UNKNOWN.

Definition _check_not_empty (os : file_system) (self : t) : t * bool :=
  if path_getsize (os (path_of self)) =? 0 then
    (append_error self "File is empty", false)
  else (self, true).

(** [bool(data)] for a decoded value *)
Definition truthy (data : json) : bool :=
  match data with
  | JNone => false
  | JBool b => b
  | JInt n => negb (n =? 0)
  | JFloat r => negb (String.eqb r "0.0" || String.eqb r "-0.0")
  | JStr s => negb (String.eqb s EmptyString)
  | JList l => match l with [] => false | _ => true end
  | JDict d => match d with [] => false | _ => true end
  end.

(** what a structure check comes to: it returns, or lets an exception
    through, of which only the text [str(e)] is used *)
Inductive outcome : Type :=
  | Returned (r : t * bool)
  | Raised (text : string).

Definition _validate_json_structure (os : file_system) (self : t)
    : outcome :=
  match load_json (os (path_of self)) with
  | JsonData data =>
      if negb (truthy data) then
        Returned (append_error self "JSON file contains no data", false)
      else if negb (Py.is_dict data || Py.is_list data) then
        Returned (append_error self "JSON must be an object or array", false)
      else Returned (self, true)
  | JSONDecodeError msg =>
      Returned (append_error self ("Invalid JSON format: " ++ msg), false)
  | JsonUnicodeDecodeError =>
      Returned (append_error self "File encoding error. Expected UTF-8.", false)
  | JsonOtherError msg => Raised msg
  end.

Definition blank (cell : string) : bool := String.eqb (strip cell) EmptyString.

Definition _validate_csv_structure (os : file_system) (self : t)
    : outcome :=
  match read_csv (os (path_of self)) with
  | CsvRows rows =>
      match rows with
      | [] => Returned (append_error self "CSV file has no rows", false)
      | header :: data_rows =>
          if (match header with [] => true | _ => false end)
             || forallb blank header then
            Returned (append_error self "CSV file has no valid header", false)
          else
            match data_rows with
            | [] =>
                Returned (append_error self
                            "CSV file has no data rows (only header)", false)
            | _ => Returned (self, true)
            end
      end
  | CsvError msg =>
      Returned (append_error self ("Invalid CSV format: " ++ msg), false)
  | CsvUnicodeDecodeError =>
      Returned (append_error self "File encoding error. Expected UTF-8.", false)
  | CsvOtherError msg => Raised msg
  end.

Definition _validate_structure (os : file_system) (self : t) : t * bool :=
  let attempt :=
    match file_format self with
    | JSON => _validate_json_structure os self
    | CSV => _validate_csv_structure os self
    | UNKNOWN => Returned (self, true)
    end in
  match attempt with
  | Returned r => r
  | Raised text =>
      (append_error self ("Structure validation error: " ++ text), false)
  end.

(** [validate_file]: the validator afterwards and the triple returned *)
Definition validate_file (os : file_system) (self : t) (path : string)
    : t * (bool * FileFormat * list string) :=
  let self := mk (Some path) (file_format self) [] in
  let (self, ok) := _check_file_exists os self in
  if negb ok then (self, (false, UNKNOWN, validation_errors self)) else
  let (self, ok) := _check_file_size os self in
  if negb ok then (self, (false, UNKNOWN, validation_errors self)) else
  let self := mk (file_path self) (_detect_format self) (validation_errors self) in
  match file_format self with
  | UNKNOWN =>
      let self :=
        append_error self
          "Unsupported file format. Only JSON and CSV are supported." in
      (self, (false, UNKNOWN, validation_errors self))
  | _ =>
      let (self, ok) := _check_not_empty os self in
      if negb ok then (self, (false, file_format self, validation_errors self))
      else
      let (self, ok) := _validate_structure os self in
      if negb ok then (self, (false, file_format self, validation_errors self))
      else (self, (true, file_format self, []))
  end.

(** [validate_input_file] *)
Definition validate_input_file (os : file_system) (path : string)
    : bool * FileFormat * list string :=
  snd (validate_file os init path).

(** the parser [create_parser] builds *)
Inductive parser_object : Type :=
  | AJSONParser (p : JSONParser.parser)
  | ACSVParser.

(** [create_parser] *)
Definition create_parser (file_format : FileFormat) : result parser_object :=
  match file_format with
  | JSON => Ok (AJSONParser JSONParser.new_parser)
  | CSV => Ok ACSVParser
  | UNKNOWN =>
      Raise (ValueError ("Unsupported file format: FileFormat."
                         ++ FileFormat_name file_format))
  end.

End Validator.

(** A check of the validator keeps the path and the format, changes
    nothing when it passes and adds one message when it fails. *)
Definition one_message_check (check : Validator.t -> Validator.t * bool) : Prop :=
  forall self,
    Validator.file_path (fst (check self)) = Validator.file_path self
    /\ Validator.file_format (fst (check self)) = Validator.file_format self
    /\ (snd (check self) = true -> fst (check self) = self)
    /\ (snd (check self) = false ->
        exists msg,
          Validator.validation_errors (fst (check self))
          = (Validator.validation_errors self ++ [msg])%list).

(** a file system with one good JSON file *)
Definition one_json_file : Validator.file_system :=
  fun path =>
    if String.eqb path "data/users.JSON" then
      {| Validator.path_exists := true; Validator.path_isfile := true;
         Validator.path_readable := true; Validator.path_getsize := 17;
         Validator.load_json := Validator.JsonData (JList [JInt 1]);
         Validator.read_csv := Validator.CsvError "not a CSV file" |}
    else
      {| Validator.path_exists := false; Validator.path_isfile := false;
         Validator.path_readable := false; Validator.path_getsize := 0;
         Validator.load_json := Validator.JsonOtherError "No such file";
         Validator.read_csv := Validator.CsvOtherError "No such file" |}.

(** neither a dot nor a directory separator *)
Definition ext_char (c : ascii) : bool :=
  negb (Ascii.eqb c "." || Ascii.eqb c "/").

(** the format [_detect_format] gives to the text after the last dot *)
Definition format_of_suffix (e : string) : Validator.FileFormat :=
  if String.eqb (lower e) "json" then Validator.JSON
  else if String.eqb (lower e) "csv" then Validator.CSV
  else Validator.UNKNOWN.

(** the characters of [str(n)] for an [int] *)
Definition sign_or_digit (c : ascii) : bool := is_digit c || Ascii.eqb c "-".

(** [None], a [bool], or an [int] that [str] prints: the interpreter
    refuses to print or read more than 4300 digits. *)
Definition printed_scalar (v : json) : bool :=
  match v with
  | JNone | JBool _ => true
  | JInt n => Z.abs n <? 10 ^ 4300
  | _ => false
  end.

(** the entries of a dict whose value is a list *)
Definition collections_only (data : dict json) : dict json :=
  filter (fun entry => is_list (snd entry)) data.

(* ================================================================= *)
(** * Properties *)

(** ** Text *)

Lemma sall_weaken (p q : ascii -> bool) (s : string) :
  (forall c, p c = true -> q c = true) -> sall p s = true -> sall q s = true.
Proof.
  intros Hpq. induction s as [|c r IH]; simpl; [reflexivity|].
  intros H. apply andb_prop in H. destruct H as [Hc Hr].
  rewrite (Hpq _ Hc), (IH Hr). reflexivity.
Qed.

Lemma sall_lstrip (sp q : ascii -> bool) (s : string) :
  sall q (lstrip_with sp s) = true ->
  sall (fun c => sp c || q c) s = true.
Proof.
  induction s as [|c r IH]; simpl; [reflexivity|].
  destruct (sp c) eqn:Hsp; simpl.
  - exact IH.
  - intros H. apply andb_prop in H. destruct H as [Hc Hr]. rewrite Hc. simpl.
    apply sall_weaken with (p := q); [|exact Hr].
    intros d Hd. rewrite Hd. apply orb_true_r.
Qed.

Lemma sall_rstrip (sp q : ascii -> bool) (s : string) :
  sall q (rstrip_with sp s) = true ->
  sall (fun c => sp c || q c) s = true.
Proof.
  induction s as [|c r IH]; simpl; [reflexivity|].
  destruct (rstrip_with sp r) as [|d r'] eqn:Hr.
  - destruct (sp c) eqn:Hsp; simpl.
    + intros _. apply IH. reflexivity.
    + rewrite andb_true_r. intros Hc. rewrite Hc. simpl. apply IH. reflexivity.
  - intros H. change (q c && sall q (String d r') = true) in H.
    apply andb_prop in H. destruct H as [Hc Hd].
    rewrite Hc, orb_true_r. simpl. apply IH. exact Hd.
Qed.

Lemma sall_strip (sp q : ascii -> bool) (s : string) :
  sall q (strip_with sp s) = true ->
  sall (fun c => sp c || q c) s = true.
Proof.
  intros H. unfold strip_with in H. apply sall_rstrip in H.
  apply sall_lstrip in H.
  apply sall_weaken with (2 := H).
  intros c Hc. destruct (sp c); [reflexivity|exact Hc].
Qed.

Lemma contains_sall (c : ascii) (p : ascii -> bool) (s : string) :
  p c = false -> sall p s = true -> contains c s = false.
Proof.
  intros Hc. induction s as [|d r IH]; simpl; [reflexivity|].
  intros H. apply andb_prop in H. destruct H as [Hd Hr].
  rewrite (IH Hr), orb_false_r.
  destruct (Ascii.eqb_spec c d) as [->|]; [congruence|reflexivity].
Qed.

Lemma sall_smap (f : ascii -> ascii) (p : ascii -> bool) (s : string) :
  sall p (smap f s) = sall (fun c => p (f c)) s.
Proof.
  induction s as [|c r IH]; simpl; [reflexivity|]. rewrite IH. reflexivity.
Qed.

(** ** [int] *)

Lemma int_digits_chars (s : string) :
  forall acc b z, int_digits acc b s = Some z -> sall int_char s = true.
Proof.
  induction s as [|c r IH]; simpl; intros acc b z H; [reflexivity|].
  unfold int_char at 1.
  destruct (is_digit c) eqn:Hd; simpl.
  - eapply IH. exact H.
  - destruct (Ascii.eqb c "_") eqn:Hu; simpl; [|discriminate].
    destruct b; [discriminate|]. eapply IH. exact H.
Qed.

Lemma int_unsigned_chars (s : string) (z : Z) :
  int_unsigned s = Some z -> sall int_char s = true.
Proof.
  destruct s as [|c r]; [discriminate|]. unfold int_unsigned.
  destruct (is_digit c) eqn:Hd; [|discriminate].
  destruct (MAX_STR_DIGITS <? digit_count (String c r)); [discriminate|].
  intros H. cbn [sall]. unfold int_char at 1. rewrite Hd. simpl.
  eapply int_digits_chars. exact H.
Qed.

Lemma py_int_chars (s : string) (z : Z) :
  py_int s = Some z ->
  sall (fun c => is_c_space c || int_char c) s = true.
Proof.
  unfold py_int. intros H. apply sall_strip.
  destruct (strip_with is_c_space s) as [|c r] eqn:Hs; [discriminate|].
  destruct (Ascii.eqb_spec c "+") as [->|Hp].
  - simpl. eapply int_unsigned_chars. exact H.
  - destruct (Ascii.eqb_spec c "-") as [->|Hm].
    + simpl. destruct (int_unsigned r) eqn:Hr; [|discriminate].
      eapply int_unsigned_chars. exact Hr.
    + assert (int_unsigned (String c r) = Some z) as Hu.
      { revert H.
        destruct c as [[] [] [] [] [] [] [] []]; try exact (fun h => h);
          solve [ exfalso; apply Hp; reflexivity
                | exfalso; apply Hm; reflexivity ]. }
      eapply int_unsigned_chars. exact Hu.
Qed.

(** A text [int] accepts has neither a decimal point nor an exponent
    marker: the second test of the integer step never fails. *)
Lemma py_int_no_point_no_exponent (s : string) :
  implb (is_some (py_int s))
        (negb (contains "." s) && negb (contains "e" (lower s))) = true.
Proof.
  destruct (py_int s) as [z|] eqn:H; [|reflexivity]. simpl.
  apply py_int_chars in H.
  rewrite (contains_sall "." _ s eq_refl H). simpl.
  assert (sall (fun c => is_c_space c || int_char c) (lower s) = true) as Hl.
  { unfold lower. rewrite sall_smap. apply sall_weaken with (2 := H).
    intros c. destruct c as [[] [] [] [] [] [] [] []]; vm_compute; auto. }
  rewrite (contains_sall "e" _ (lower s) eq_refl Hl). reflexivity.
Qed.

(** ** The classifier *)

Lemma mem_app_l (x : string) (xs ys : list string) :
  mem x xs = true -> mem x (xs ++ ys)%list = true.
Proof.
  unfold mem. rewrite existsb_app. intros ->. reflexivity.
Qed.

(** The text steps of [infer_type] are the last six rules. *)
Lemma infer_text_chain (v : pyobj) :
  infer_text (py_str v) = first_match (skipn 5 classify_rules) STRING v.
Proof.
  unfold infer_text, classify_rules, skipn, first_match, text_of.
  set (t := strip (py_str v)).
  destruct (String.eqb t EmptyString); [reflexivity|].
  destruct (mem (upper t) NULL_TOKENS); [reflexivity|].
  destruct (mem (upper t) BOOL_TOKENS) eqn:Hb.
  - rewrite (mem_app_l _ _ _ Hb). reflexivity.
  - rewrite andb_false_r.
    pose proof (py_int_no_point_no_exponent t) as Hi.
    destruct (py_int t) as [z|]; cbn [is_some implb andb] in Hi |- *.
    + rewrite Hi. reflexivity.
    + unfold infer_after_int, _is_datetime, detect_date_format.
      destruct (py_float t); [reflexivity|]. cbn [is_some].
      destruct (first_format t DATETIME_FORMATS); [reflexivity|].
      cbn [is_some orb].
      destruct (rmatch false iso_pattern t); reflexivity.
Qed.

Lemma first_match_app (rs1 rs2 : list rule) (d : DataType) (v : pyobj) :
  first_match (rs1 ++ rs2)%list d v = first_match rs1 (first_match rs2 d v) v.
Proof.
  induction rs1 as [|[g t] rs1 IH]; simpl; [reflexivity|].
  rewrite IH. reflexivity.
Qed.

Lemma infer_type_classify (v : pyobj) : infer_type v = classify v.
Proof.
  unfold classify.
  change classify_rules with (firstn 5 classify_rules ++ skipn 5 classify_rules)%list.
  rewrite first_match_app.
  unfold infer_type. rewrite infer_text_chain.
  generalize (first_match (skipn 5 classify_rules) STRING v). intros d.
  unfold classify_rules, firstn, first_match, text_of.
  destruct v as [[| b | n | r | s | l | items] | dt]; reflexivity.
Qed.



Lemma infer_type_value_tag (v : pyobj) : value_tag (infer_type v) = true.
Proof.
  rewrite infer_type_classify. unfold classify, classify_rules, first_match.
  repeat match goal with
         | |- value_tag (if ?g then _ else _) = true => destruct g
         end; reflexivity.
Qed.

(** ** The tally of a column *)

Lemma DataType_eqb_eq (a b : DataType) : DataType_eqb a b = true <-> a = b.
Proof.
  split; [destruct a, b; simpl; congruence | intros ->; destruct b; reflexivity].
Qed.

Lemma DataType_eqb_neq (a b : DataType) : DataType_eqb a b = false <-> a <> b.
Proof.
  rewrite <- DataType_eqb_eq. destruct (DataType_eqb a b); split; congruence.
Qed.

Lemma counter_incr_fresh (g : DataType -> Z) (ks : list DataType) (t : DataType) :
  ~ In t ks ->
  counter_incr (entries g ks) t = (entries g ks ++ [(t, 1)])%list.
Proof.
  induction ks as [|k ks IH]; simpl; intros Hn; [reflexivity|].
  destruct (DataType_eqb k t) eqn:E.
  - apply DataType_eqb_eq in E. tauto.
  - rewrite IH by tauto. reflexivity.
Qed.

Lemma counter_incr_present (g : DataType -> Z) (ks : list DataType) (t : DataType) :
  NoDup ks -> In t ks ->
  counter_incr (entries g ks) t
  = entries (fun k => if DataType_eqb k t then g k + 1 else g k) ks.
Proof.
  induction ks as [|k ks IH]; simpl; intros Hnd Hin; [contradiction|].
  inversion Hnd as [|? ? Hk Hnd']; subst.
  destruct (DataType_eqb k t) eqn:E.
  - apply DataType_eqb_eq in E. subst k. f_equal.
    unfold entries. apply map_ext_in. intros a Ha.
    destruct (DataType_eqb a t) eqn:E'; [|reflexivity].
    apply DataType_eqb_eq in E'. subst a. contradiction.
  - f_equal. apply IH; [exact Hnd'|].
    destruct Hin as [->|Hin]; [|exact Hin].
    apply DataType_eqb_neq in E. congruence.
Qed.

Lemma first_index_app_in (t : DataType) (l l' : list DataType) :
  In t l -> first_index t (l ++ l') = first_index t l.
Proof.
  induction l as [|x l IH]; simpl; intros Hin; [contradiction|].
  destruct (DataType_eqb x t) eqn:E; [reflexivity|].
  f_equal. apply IH. destruct Hin as [->|Hin]; [|exact Hin].
  apply DataType_eqb_neq in E. congruence.
Qed.

Lemma first_index_absent (t : DataType) (l l' : list DataType) :
  ~ In t l -> first_index t (l ++ t :: l') = List.length l.
Proof.
  induction l as [|x l IH]; simpl; intros Hn.
  - replace (DataType_eqb t t) with true; [reflexivity|].
    symmetry. apply DataType_eqb_eq. reflexivity.
  - destruct (DataType_eqb x t) eqn:E.
    + apply DataType_eqb_eq in E. tauto.
    + f_equal. apply IH. tauto.
Qed.

Lemma first_index_lt (t : DataType) (l : list DataType) :
  In t l -> (first_index t l < List.length l)%nat.
Proof.
  induction l as [|x l IH]; simpl; intros Hin; [contradiction|].
  destruct (DataType_eqb x t) eqn:E; [lia|].
  apply DataType_eqb_neq in E.
  destruct Hin as [->|Hin]; [congruence|]. specialize (IH Hin). lia.
Qed.

Lemma met_before_sorted_NoDup (l ks : list DataType) :
  StronglySorted (met_before l) ks -> NoDup ks.
Proof.
  induction 1 as [|k ks Hs IH Hall]; constructor; [|exact IH].
  intros Hin. rewrite Forall_forall in Hall. specialize (Hall _ Hin).
  unfold met_before in Hall. lia.
Qed.

Lemma sorted_snoc {A : Type} (R : A -> A -> Prop) (l : list A) (x : A) :
  StronglySorted R l -> Forall (fun y => R y x) l ->
  StronglySorted R (l ++ [x]).
Proof.
  induction 1 as [|a l Hs IH Hall]; simpl; intros Hx.
  - constructor; constructor.
  - inversion Hx; subst. constructor; [apply IH; assumption|].
    apply Forall_app. split; [exact Hall|]. constructor; [assumption|constructor].
Qed.

Lemma sorted_impl_in {A : Type} (R R' : A -> A -> Prop) (l : list A) :
  (forall a b, In a l -> In b l -> R a b -> R' a b) ->
  StronglySorted R l -> StronglySorted R' l.
Proof.
  intros Himp Hs. induction Hs as [|a l Hs IH Hall]; constructor.
  - apply IH. intros x y Hx Hy. apply Himp; right; assumption.
  - rewrite Forall_forall in Hall |- *. intros y Hy.
    apply Himp; [left; reflexivity | right; exact Hy | apply Hall; exact Hy].
Qed.

Lemma tally_as_classes (values : list pyobj) :
  tally values = tally_classes (classes values).
Proof.
  unfold tally, tally_classes, classes.
  generalize (@nil (DataType * Z), 0).
  induction values as [|v values IH]; intros acc; simpl; [reflexivity|].
  rewrite <- IH. f_equal. unfold tally_step. destruct acc as [c n]. simpl.
  destruct (DataType_eqb (infer_type v) NULL); reflexivity.
Qed.

Lemma occurrences_snoc (cls : list DataType) (x t : DataType) :
  occurrences (cls ++ [x]) t
  = if DataType_eqb t x then occurrences cls t + 1 else occurrences cls t.
Proof.
  unfold occurrences. rewrite count_occ_app. simpl.
  destruct (DataType_eq_dec x t) as [->|Hne].
  - replace (DataType_eqb t t) with true by (symmetry; apply DataType_eqb_eq; reflexivity).
    lia.
  - replace (DataType_eqb t x) with false; [lia|].
    symmetry. apply DataType_eqb_neq. congruence.
Qed.

Lemma counter_keys_entries (g : DataType -> Z) (ks : list DataType) :
  counter_keys (entries g ks) = ks.
Proof.
  unfold counter_keys, entries. rewrite map_map. simpl. apply map_id.
Qed.

Lemma entries_ext (g g' : DataType -> Z) (ks : list DataType) :
  (forall k, In k ks -> g k = g' k) -> entries g ks = entries g' ks.
Proof.
  intros H. unfold entries. apply map_ext_in. intros k Hk. rewrite (H k Hk).
  reflexivity.
Qed.

Lemma entries_snoc (g : DataType -> Z) (ks : list DataType) (k : DataType) :
  entries g (ks ++ [k]) = (entries g ks ++ [(k, g k)])%list.
Proof. unfold entries. rewrite map_app. reflexivity. Qed.

Lemma occurrences_absent (cls : list DataType) (t : DataType) :
  ~ In t cls -> occurrences cls t = 0.
Proof.
  intros H. unfold occurrences.
  rewrite (proj1 (count_occ_not_In DataType_eq_dec cls t) H). reflexivity.
Qed.

Lemma occurrences_present (cls : list DataType) (t : DataType) :
  In t cls -> 0 < occurrences cls t.
Proof.
  intros H. unfold occurrences.
  pose proof (proj1 (count_occ_In DataType_eq_dec cls t) H). lia.
Qed.

Lemma met_before_snoc (cls : list DataType) (x a b : DataType) :
  In a cls -> In b cls -> met_before cls a b -> met_before (cls ++ [x]) a b.
Proof.
  unfold met_before. intros Ha Hb.
  rewrite !first_index_app_in by assumption. exact (fun h => h).
Qed.

Lemma tally_inv_step (cls : list DataType) (acc : Counter * Z) (x : DataType) :
  tally_inv cls acc ->
  tally_inv (cls ++ [x])
    (if DataType_eqb x NULL then (fst acc, snd acc + 1)
     else (counter_incr (fst acc) x, snd acc)).
Proof.
  intros [He Hk Ho Hn]. destruct acc as [c n]. simpl in *.
  set (ks := counter_keys c) in *.
  assert (forall a b, In a ks -> In b ks ->
                      met_before cls a b -> met_before (cls ++ [x]) a b) as Hmb.
  { intros a b Ha Hb. apply met_before_snoc; [apply Hk, Ha | apply Hk, Hb]. }
  destruct (DataType_eqb x NULL) eqn:Ex.
  - apply DataType_eqb_eq in Ex. subst x. constructor; simpl.
    + rewrite He at 1. fold ks. apply entries_ext. intros k Hin.
      rewrite occurrences_snoc.
      replace (DataType_eqb k NULL) with false; [reflexivity|].
      symmetry. apply DataType_eqb_neq. apply Hk, Hin.
    + intros t. fold ks. rewrite Hk, in_app_iff. simpl. intuition congruence.
    + fold ks. apply sorted_impl_in with (2 := Ho). exact Hmb.
    + rewrite occurrences_snoc. simpl. lia.
  - apply DataType_eqb_neq in Ex.
    assert (NoDup ks) as Hnd by (eapply met_before_sorted_NoDup; exact Ho).
    destruct (in_dec DataType_eq_dec x ks) as [Hin|Hnin].
    + assert (counter_incr c x = entries (occurrences (cls ++ [x])) ks) as Hc.
      { rewrite He. fold ks. rewrite counter_incr_present by assumption.
        apply entries_ext. intros k _. rewrite occurrences_snoc. reflexivity. }
      constructor; simpl; rewrite ?Hc, ?counter_keys_entries.
      * reflexivity.
      * intros t. rewrite Hk, in_app_iff. simpl.
        split; [tauto|]. intros [[H|[<-|[]]] H']; [tauto|].
        apply Hk. exact Hin.
      * apply sorted_impl_in with (2 := Ho). exact Hmb.
      * rewrite occurrences_snoc.
        replace (DataType_eqb NULL x) with false; [exact Hn|].
        symmetry. apply DataType_eqb_neq. congruence.
    + assert (~ In x cls) as Hxc by (intros H; apply Hnin, Hk; tauto).
      assert (counter_incr c x = entries (occurrences (cls ++ [x])) (ks ++ [x])) as Hc.
      { rewrite He. fold ks. rewrite counter_incr_fresh by assumption.
        rewrite entries_snoc. f_equal.
        - apply entries_ext. intros k Hin. rewrite occurrences_snoc.
          replace (DataType_eqb k x) with false; [reflexivity|].
          symmetry. apply DataType_eqb_neq. intros ->. contradiction.
        - rewrite occurrences_snoc, occurrences_absent by assumption.
          replace (DataType_eqb x x) with true; [reflexivity|].
          symmetry. apply DataType_eqb_eq. reflexivity. }
      constructor; simpl; rewrite ?Hc, ?counter_keys_entries.
      * reflexivity.
      * intros t. rewrite !in_app_iff, Hk. simpl.
        split.
        -- intros [[H H']|[<-|[]]]; tauto.
        -- intros [[H|[<-|[]]] H']; tauto.
      * apply sorted_snoc.
        -- apply sorted_impl_in with (2 := Ho). exact Hmb.
        -- apply Forall_forall. intros y Hy. unfold met_before.
           assert (In y cls) as Hyc by (apply Hk, Hy).
           rewrite first_index_app_in by assumption.
           rewrite first_index_absent by assumption.
           apply first_index_lt. exact Hyc.
      * rewrite occurrences_snoc.
        replace (DataType_eqb NULL x) with false; [exact Hn|].
        symmetry. apply DataType_eqb_neq. congruence.
Qed.

Lemma tally_classes_inv (cls : list DataType) : tally_inv cls (tally_classes cls).
Proof.
  induction cls as [|x cls IH] using rev_ind.
  - constructor; simpl; try reflexivity; [|constructor].
    intros t. simpl. tauto.
  - unfold tally_classes. rewrite fold_left_app. simpl.
    apply tally_inv_step. exact IH.
Qed.

(** [max] returns the first entry with the greatest count. *)
Lemma max_count_split (items : Counter) :
  forall best,
  exists pre post,
    best :: items = (pre ++ max_count best items :: post)%list
    /\ (forall x, In x pre -> snd x < snd (max_count best items))
    /\ (forall x, In x post -> snd x <= snd (max_count best items)).
Proof.
  induction items as [|x rest IH]; intros best; simpl.
  - exists [], []. simpl. repeat split; intros ? [].
  - destruct (snd best <? snd x) eqn:E.
    + apply Z.ltb_lt in E.
      destruct (IH x) as (pre & post & Heq & Hpre & Hpost).
      exists (best :: pre), post. simpl. rewrite Heq.
      repeat split; [|exact Hpost].
      intros y [<-|Hy]; [|apply Hpre, Hy].
      assert (In x (pre ++ max_count x rest :: post)%list) as Hx
        by (rewrite <- Heq; left; reflexivity).
      apply in_app_iff in Hx. destruct Hx as [Hx|[Hx|Hx]].
      * specialize (Hpre _ Hx). lia.
      * rewrite Hx. lia.
      * specialize (Hpost _ Hx). lia.
    + apply Z.ltb_ge in E.
      destruct (IH best) as (pre & post & Heq & Hpre & Hpost).
      destruct pre as [|b pre]; simpl in Heq.
      * exists [], (x :: post). simpl.
        injection Heq as Hb Hr.
        assert (snd (max_count best rest) = snd best) as Hs by congruence.
        repeat split; [congruence|intros ? []|].
        intros y [<-|Hy]; [lia|]. apply Hpost, Hy.
      * injection Heq as Hb Hr. subst b.
        exists (best :: x :: pre), post. simpl.
        repeat split; [do 2 f_equal; exact Hr| |exact Hpost].
        assert (snd best < snd (max_count best rest)) as Hlt
          by (apply Hpre; left; reflexivity).
        intros y [<-|[<-|Hy]]; [exact Hlt|lia|].
        apply Hpre. right. exact Hy.
Qed.

Lemma sorted_split {A : Type} (R : A -> A -> Prop) (l1 l2 : list A) (a : A) :
  StronglySorted R (l1 ++ a :: l2) -> forall b, In b l2 -> R a b.
Proof.
  induction l1 as [|x l1 IH]; simpl; intros Hs b Hb.
  - apply StronglySorted_inv in Hs. destruct Hs as [_ Hall].
    rewrite Forall_forall in Hall. apply Hall, Hb.
  - apply StronglySorted_inv in Hs. destruct Hs as [Hs _]. eapply IH; eassumption.
Qed.

Lemma in_entries (g : DataType -> Z) (ks : list DataType) (t : DataType) (n : Z) :
  In (t, n) (entries g ks) <-> In t ks /\ n = g t.
Proof.
  unfold entries. rewrite in_map_iff. split.
  - intros (k & Hk & Hin). injection Hk as <- <-. auto.
  - intros [Hin ->]. exists t. auto.
Qed.

(** What [most_common(1)] yields on the tally of the classifications
    [cls]: nothing when every value is null; otherwise a non-null type of
    greatest count, met before any other type of that count. *)
Lemma most_common_tally (cls : list DataType) :
  match most_common_1 (fst (tally_classes cls)) with
  | None => forall t, In t cls -> t = NULL
  | Some (t, n) =>
      In t cls /\ t <> NULL /\ n = occurrences cls t
      /\ (forall t', t' <> NULL -> occurrences cls t' <= occurrences cls t)
      /\ (forall t', t' <> NULL -> t' <> t ->
                     occurrences cls t' = occurrences cls t ->
                     met_before cls t t')
  end.
Proof.
  destruct (tally_classes_inv cls) as [He Hk Ho _].
  destruct (tally_classes cls) as [c n0]. cbn [fst snd] in *.
  set (ks := counter_keys c) in *.
  destruct (most_common_1 c) as [[t n]|] eqn:Em.
  2:{ assert (c = []) as -> by (destruct c; [reflexivity|discriminate]).
      intros t Ht. destruct (DataType_eq_dec t NULL) as [|Hne]; [assumption|].
      exfalso. apply (proj2 (Hk t)). tauto. }
  assert (exists pre post,
             c = (pre ++ (t, n) :: post)%list
             /\ (forall x, In x pre -> snd x < n)
             /\ (forall x, In x post -> snd x <= n)) as Hsplit.
  { destruct c as [|x rest]; [discriminate|]. injection Em as Em.
    pose proof (max_count_split rest x) as H. rewrite Em in H. exact H. }
  destruct Hsplit as (pre & post & Heq & Hpre & Hpost).
  - 
    assert (forall t' n', In (t', n') c <->
                          In t' ks /\ n' = occurrences cls t') as Hin.
    { intros t' n'. rewrite He. apply in_entries. }
    assert (In (t, n) c) as Htn
      by (rewrite Heq; apply in_app_iff; right; left; reflexivity).
    apply Hin in Htn. destruct Htn as [Htk ->].
    apply Hk in Htk. destruct Htk as [Htc Htn].
    pose proof (occurrences_present cls t Htc) as Hpos.
    assert (forall t', t' <> NULL -> In t' cls ->
              In (t', occurrences cls t') pre
              \/ t' = t \/ In (t', occurrences cls t') post) as Hwhere.
    { intros t' Hn' Hc'.
      assert (In (t', occurrences cls t') c) as H'
        by (apply Hin; split; [apply Hk; tauto | reflexivity]).
      rewrite Heq in H'. apply in_app_iff in H'.
      destruct H' as [H'|[H'|H']]; [auto| |auto].
      injection H' as H' _. auto. }
    repeat split; try assumption.
    + intros t' Hn'. destruct (in_dec DataType_eq_dec t' cls) as [Hc'|Hc'].
      * destruct (Hwhere t' Hn' Hc') as [H|[->|H]].
        -- specialize (Hpre _ H). simpl in Hpre. lia.
        -- lia.
        -- specialize (Hpost _ H). simpl in Hpost. lia.
      * rewrite (occurrences_absent cls t' Hc'). lia.
    + intros t' Hn' Hne Htie.
      assert (In t' cls) as Hc'.
      { destruct (in_dec DataType_eq_dec t' cls) as [Hc'|Hc']; [assumption|].
        rewrite (occurrences_absent cls t' Hc') in Htie. lia. }
      destruct (Hwhere t' Hn' Hc') as [H|[->|H]].
      * specialize (Hpre _ H). simpl in Hpre. lia.
      * congruence.
      * assert (ks = (map fst pre ++ t :: map fst post)%list) as Hks.
        { unfold ks, counter_keys. rewrite Heq, map_app. reflexivity. }
        rewrite Hks in Ho. eapply sorted_split; [exact Ho|].
        change t' with (fst (t', occurrences cls t')). apply in_map. exact H.
Qed.

(** ** [infer_column_type] *)

Lemma length_nulls_non_nulls (cls : list DataType) :
  Z.of_nat (List.length cls) - occurrences cls NULL
  = Z.of_nat (List.length (filter (fun t => negb (DataType_eqb t NULL)) cls)).
Proof.
  unfold occurrences. induction cls as [|x cls IH]; [reflexivity|].
  cbn [List.length filter count_occ].
  destruct (DataType_eq_dec x NULL) as [->|Hne].
  - cbn [DataType_eqb negb]. lia.
  - replace (DataType_eqb x NULL) with false
      by (symmetry; apply DataType_eqb_neq; exact Hne).
    cbn [negb List.length]. lia.
Qed.

Lemma appears_In (values : list pyobj) (t : DataType) :
  appears values t = true <-> In t (classes values).
Proof.
  unfold appears. rewrite existsb_exists. split.
  - intros (x & Hx & He). apply DataType_eqb_eq in He. subst x. exact Hx.
  - intros H. exists t. split; [exact H | apply DataType_eqb_eq; reflexivity].
Qed.

Lemma counter_mem_appears (values : list pyobj) (t : DataType) :
  t <> NULL -> counter_mem (fst (tally values)) t = appears values t.
Proof.
  intros Hne. rewrite tally_as_classes.
  destruct (tally_classes_inv (classes values)) as [_ Hk _ _].
  apply eq_true_iff_eq. rewrite appears_In.
  unfold counter_mem. rewrite existsb_exists.
  specialize (Hk t). unfold counter_keys in Hk. rewrite in_map_iff in Hk.
  split.
  - intros (x & Hx & He). apply DataType_eqb_eq in He. apply Hk. exists x. auto.
  - intros H. destruct (proj2 Hk (conj H Hne)) as (x & He & Hx).
    exists x. split; [exact Hx | apply DataType_eqb_eq; exact He].
Qed.

(** The whole of [infer_column_type] on a column that is not empty. *)
Lemma infer_column_type_cases (values : list pyobj) (threshold : float) :
  values <> [] ->
  match most_common_type values with
  | None =>
      (forall t, In t (classes values) -> t = NULL)
      /\ infer_column_type values threshold = NULL
  | Some most =>
      In most (classes values) /\ most <> NULL
      /\ 0 < non_null_total values
      /\ (forall t, t <> NULL -> count_type values t <= count_type values most)
      /\ (forall t, t <> NULL -> t <> most ->
                    count_type values t = count_type values most ->
                    met_before (classes values) most t)
      /\ infer_column_type values threshold = decide_column values threshold most
  end.
Proof.
  intros Hne. unfold most_common_type.
  assert (infer_column_type values threshold =
          match most_common_1 (fst (tally values)) with
          | None => NULL
          | Some (most, count) =>
              let total := Z.of_nat (List.length values) - snd (tally values) in
              if PrimFloat.leb threshold
                   (if 0 <? total then true_div count total else 0%float)
              then most
              else if counter_mem (fst (tally values)) INTEGER
                      && counter_mem (fst (tally values)) FLOAT
              then FLOAT else STRING
          end) as Hunf.
  { unfold infer_column_type. destruct values as [|v values]; [congruence|].
    destruct (tally (v :: values)) as [c n]. cbn [fst snd].
    destruct (most_common_1 c) as [[m k]|]; reflexivity. }
  rewrite Hunf. clear Hunf.
  rewrite !counter_mem_appears by discriminate.
  assert (Z.of_nat (List.length values) - snd (tally values)
          = non_null_total values) as Htot.
  { rewrite tally_as_classes.
    destruct (tally_classes_inv (classes values)) as [_ _ _ Hn]. rewrite Hn.
    unfold non_null_total. rewrite <- length_nulls_non_nulls.
    unfold classes. rewrite length_map. reflexivity. }
  rewrite Htot. clear Htot.
  pose proof (most_common_tally (classes values)) as Hm.
  rewrite <- tally_as_classes in Hm.
  destruct (most_common_1 (fst (tally values))) as [[most k]|]; cbn [option_map fst].
  - destruct Hm as (Hin & Hnn & Hk & Hmax & Htie).
    assert (0 < non_null_total values) as Hpos.
    { unfold non_null_total.
      assert (In most (filter (fun t => negb (DataType_eqb t NULL))
                              (classes values))) as Hf.
      { apply filter_In. split; [exact Hin|].
        apply negb_true_iff, DataType_eqb_neq, Hnn. }
      destruct (filter _ (classes values)); [contradiction|]. simpl. lia. }
    repeat split; try assumption.
    unfold decide_column. cbn zeta.
    replace (0 <? non_null_total values) with true
      by (symmetry; apply Z.ltb_lt, Hpos).
    rewrite Hk. reflexivity.
  - split; [exact Hm | reflexivity].
Qed.

Lemma no_class_no_total (values : list pyobj) :
  (forall t, In t (classes values) -> t = NULL) -> non_null_total values = 0.
Proof.
  intros H. unfold non_null_total.
  replace (filter (fun t => negb (DataType_eqb t NULL)) (classes values))
    with (@nil DataType); [reflexivity|].
  symmetry. induction (classes values) as [|x cls IH]; [reflexivity|].
  simpl. rewrite (H x (or_introl eq_refl)). simpl.
  apply IH. intros t Ht. apply H. right. exact Ht.
Qed.

(** C3: on a column with at least one non-null value,
    [infer_column_type] applies its rules in this order: the most common
    type when its share of the non-null values reaches the threshold;
    otherwise FLOAT when both INTEGER and FLOAT appear; otherwise STRING.
    The share is taken over the non-null values only. The column
    [1, 2.5, 3, 4.0] is the witness: neither type reaches 0.8 and the
    result is FLOAT. *)
Theorem column_rule_order (values : list pyobj) (threshold : float) :
  0 < non_null_total values ->
  exists most : DataType,
    most_common_type values = Some most
    /\ most <> NULL
    /\ (forall t, t <> NULL -> count_type values t <= count_type values most)
    /\ infer_column_type values threshold =
         if PrimFloat.leb threshold
              (true_div (count_type values most) (non_null_total values))
         then most
         else if appears values INTEGER && appears values FLOAT then FLOAT
         else STRING.
Proof.
  intros Hpos.
  assert (values <> []) as Hne by (intros ->; vm_compute in Hpos; discriminate).
  pose proof (infer_column_type_cases values threshold Hne) as H.
  destruct (most_common_type values) as [most|].
  - destruct H as (_ & Hnn & _ & Hmax & _ & Hres).
    exists most. repeat split; assumption.
  - destruct H as [Hall _]. rewrite (no_class_no_total values Hall) in Hpos. lia.
Qed.

Lemma column_rule_order_witness :
  0 < non_null_total mixed_numeric_column
  /\ exists most : DataType,
       most_common_type mixed_numeric_column = Some most
       /\ most <> NULL
       /\ (forall t, t <> NULL ->
             count_type mixed_numeric_column t
             <= count_type mixed_numeric_column most)
       /\ infer_column_type mixed_numeric_column default_threshold =
            if PrimFloat.leb default_threshold
                 (true_div (count_type mixed_numeric_column most)
                           (non_null_total mixed_numeric_column))
            then most
            else if appears mixed_numeric_column INTEGER
                    && appears mixed_numeric_column FLOAT then FLOAT
            else STRING.
Proof.
  split; [reflexivity|].
  apply (column_rule_order mixed_numeric_column default_threshold).
  reflexivity.
Defined.

(** The example of the specification, evaluated: two integers and two
    floats, a share of one half for either, and FLOAT. *)
Lemma mixed_numeric_column_is_float :
  infer_column_type mixed_numeric_column default_threshold = FLOAT
  /\ most_common_type mixed_numeric_column = Some INTEGER
  /\ count_type mixed_numeric_column INTEGER = 2
  /\ count_type mixed_numeric_column FLOAT = 2
  /\ non_null_total mixed_numeric_column = 4
  /\ PrimFloat.leb default_threshold (true_div 2 4) = false
  /\ infer_column_type (map PJson [JInt 1; JInt 2; JInt 3; JInt 4; JInt 5])
                       default_threshold = INTEGER
  /\ infer_column_type (map PJson [JStr "a"; JStr "b"; JStr ""; JStr "d"])
                       default_threshold = STRING
  /\ infer_column_type (map PJson [JInt 1; JInt 2; JInt 3; JInt 4; JStr "x"])
                       default_threshold = INTEGER
  /\ infer_column_type (map PJson [JInt 1; JInt 2; JInt 3; JStr "x"])
                       default_threshold = STRING.
Proof. repeat split; vm_compute; reflexivity. Qed.

(** C4: [infer_column_type] returns UNKNOWN on the empty column and NULL
    on a column, not empty, all of whose values classify as NULL. *)
Theorem column_empty_or_all_null (values : list pyobj) (threshold : float) :
  (forall v, In v values -> infer_type v = NULL) ->
  infer_column_type values threshold =
    match values with
    | [] => UNKNOWN
    | _ :: _ => NULL
    end.
Proof.
  intros Hall. destruct values as [|v values]; [reflexivity|].
  assert (v :: values <> []) as Hne by discriminate.
  pose proof (infer_column_type_cases (v :: values) threshold Hne) as H.
  destruct (most_common_type (v :: values)) as [most|].
  - destruct H as (Hin & Hnn & _). exfalso. apply Hnn.
    unfold classes in Hin. apply in_map_iff in Hin.
    destruct Hin as (w & <- & Hw). apply Hall, Hw.
  - apply H.
Qed.

Lemma column_empty_or_all_null_witness :
  infer_column_type [PJson JNone; PJson (JStr " "); PJson (JStr "N/A")]
                    default_threshold = NULL.
Proof.
  apply (column_empty_or_all_null
           [PJson JNone; PJson (JStr " "); PJson (JStr "N/A")]
           default_threshold).
  intros v [<-|[<-|[<-|[]]]]; vm_compute; reflexivity.
Defined.

(** C8: the type whose share [infer_column_type] checks has the greatest
    count among the non-null types, and among the types of that count it
    is the one met first when the values are scanned in order; it is the
    type returned when the share reaches the threshold. *)
Theorem tie_break_first_seen (values : list pyobj) (t : DataType) :
  most_common_type values = Some t ->
  (forall t', t' <> NULL -> count_type values t' <= count_type values t)
  /\ (forall t', t' <> NULL -> t' <> t ->
                 count_type values t' = count_type values t ->
                 (first_index t (classes values)
                  < first_index t' (classes values))%nat)
  /\ (forall threshold,
        PrimFloat.leb threshold
          (true_div (count_type values t) (non_null_total values)) = true ->
        infer_column_type values threshold = t).
Proof.
  intros Hm.
  assert (values <> []) as Hne by (intros ->; discriminate).
  assert (forall threshold,
            In t (classes values) /\ t <> NULL
            /\ 0 < non_null_total values
            /\ (forall t0, t0 <> NULL -> count_type values t0 <= count_type values t)
            /\ (forall t0, t0 <> NULL -> t0 <> t ->
                           count_type values t0 = count_type values t ->
                           met_before (classes values) t t0)
            /\ infer_column_type values threshold
               = decide_column values threshold t) as H.
  { intros threshold.
    pose proof (infer_column_type_cases values threshold Hne) as H.
    rewrite Hm in H. exact H. }
  destruct (H default_threshold) as (_ & _ & _ & Hmax & Htie & _).
  repeat split; [exact Hmax | exact Htie |].
  intros threshold Hth.
  destruct (H threshold) as (_ & _ & _ & _ & _ & Hres).
  rewrite Hres. unfold decide_column. rewrite Hth. reflexivity.
Qed.

Lemma tie_break_first_seen_witness :
  most_common_type tied_column = Some STRING
  /\ count_type tied_column INTEGER = count_type tied_column STRING
  /\ infer_column_type tied_column 0.5%float = STRING.
Proof.
  split; [reflexivity|]. split; [reflexivity|].
  apply (tie_break_first_seen tied_column STRING); reflexivity.
Defined.

(** C10: a single value never classifies as UNKNOWN, its tag is one of
    the six others; UNKNOWN is what the aggregation returns on the empty
    column, and on no other. *)
Theorem unknown_only_for_empty_column :
  (forall v : pyobj,
     infer_type v <> UNKNOWN
     /\ In (infer_type v) [NULL; BOOLEAN; INTEGER; FLOAT; DATETIME; STRING])
  /\ (forall (values : list pyobj) (threshold : float),
        infer_column_type values threshold = UNKNOWN <-> values = []).
Proof.
  split.
  - intros v. pose proof (infer_type_value_tag v) as H.
    destruct (infer_type v); simpl; try discriminate H; split;
      try discriminate; tauto.
  - intros values threshold. split; [|intros ->; reflexivity].
    intros Hu. destruct values as [|v values]; [reflexivity|]. exfalso.
    assert (v :: values <> []) as Hne by discriminate.
    pose proof (infer_column_type_cases (v :: values) threshold Hne) as H.
    destruct (most_common_type (v :: values)) as [most|].
    + destruct H as (Hin & _ & _ & _ & _ & Hres).
      rewrite Hres in Hu. unfold decide_column in Hu.
      unfold classes in Hin. apply in_map_iff in Hin.
      destruct Hin as (w & Hw & _).
      pose proof (infer_type_value_tag w) as Hw'. rewrite Hw in Hw'.
      destruct (PrimFloat.leb _ _); [subst most; discriminate|].
      destruct (appears _ _ && appears _ _); discriminate.
    + destruct H as [_ Hres]. rewrite Hres in Hu. discriminate.
Qed.

(** ** The datetime formats *)

Lemma first_format_spec (value : string) (formats : list string) :
  match first_format value formats with
  | Some fmt =>
      exists pre post,
        formats = (pre ++ fmt :: post)%list
        /\ strptime_ok value fmt = true
        /\ forall g, In g pre -> strptime_ok value g = false
  | None => forall g, In g formats -> strptime_ok value g = false
  end.
Proof.
  induction formats as [|f formats IH]; simpl; [intros g []|].
  destruct (strptime value f) as [d|e] eqn:E.
  - exists [], formats. unfold strptime_ok. rewrite E.
    repeat split. intros g [].
  - destruct (first_format value formats) as [fmt|].
    + destruct IH as (pre & post & -> & Hok & Hpre).
      exists (f :: pre), post. repeat split; [exact Hok|].
      intros g [<-|Hg]; [unfold strptime_ok; rewrite E; reflexivity|].
      apply Hpre, Hg.
    + intros g [<-|Hg]; [unfold strptime_ok; rewrite E; reflexivity|].
      apply IH, Hg.
Qed.

(** C7: the timestamp with fractional seconds is a DATETIME for the
    classifier, through the regular expression alone, and has no format
    for [detect_date_format]; on every text [detect_date_format] returns
    the first of the eight formats, in their order, that [strptime]
    accepts, and nothing when it accepts none. *)
Theorem detect_date_format_first_match :
  (infer_type (JStr "2024-01-15T09:30:00.123Z") = DATETIME
   /\ detect_date_format "2024-01-15T09:30:00.123Z" = None
   /\ is_some (rmatch false iso_pattern "2024-01-15T09:30:00.123Z") = true)
  /\ List.length DATETIME_FORMATS = 8%nat
  /\ (forall value : string,
        match detect_date_format value with
        | Some fmt =>
            exists pre post,
              DATETIME_FORMATS = (pre ++ fmt :: post)%list
              /\ strptime_ok value fmt = true
              /\ forall g, In g pre -> strptime_ok value g = false
        | None =>
            (forall g, In g DATETIME_FORMATS -> strptime_ok value g = false)
            /\ _is_datetime value = is_some (rmatch false iso_pattern value)
        end).
Proof.
  split; [repeat split; vm_compute; reflexivity|].
  split; [reflexivity|].
  intros value. unfold detect_date_format.
  pose proof (first_format_spec value DATETIME_FORMATS) as H.
  unfold _is_datetime.
  destruct (first_format value DATETIME_FORMATS) as [fmt|]; [exact H|].
  split; [exact H|]. destruct (rmatch false iso_pattern value); reflexivity.
Qed.

(** the formats of the tests, and texts near them *)
Lemma detect_date_format_examples :
  detect_date_format "2024-01-15T09:30:00Z" = Some "%Y-%m-%dT%H:%M:%SZ"
  /\ detect_date_format "2024-01-15" = Some "%Y-%m-%d"
  /\ detect_date_format "15/01/2024" = Some "%d/%m/%Y"
  /\ detect_date_format "01/15/2024" = Some "%m/%d/%Y"
  /\ detect_date_format "2024-02-30" = None
  /\ infer_type (JStr "2024-02-30") = STRING
  /\ infer_type (JStr "2024-01-15T09:30:60") = DATETIME
  /\ detect_date_format "2024-01-15T09:30:60" = None.
Proof. repeat split; vm_compute; reflexivity. Qed.

(** ** Dicts *)

Section DictFacts.
Context {V : Type}.
Implicit Types (d : dict V) (k : string) (v : V).

Lemma get_set d k v k' :
  Dict.get (Dict.set d k v) k' = if String.eqb k k' then Some v else Dict.get d k'.
Proof.
  induction d as [|[k0 v0] d IH]; simpl.
  - destruct (String.eqb k k'); reflexivity.
  - destruct (String.eqb_spec k0 k) as [->|Hne]; simpl.
    + destruct (String.eqb k k'); reflexivity.
    + rewrite IH. destruct (String.eqb_spec k0 k') as [->|Hne'].
      * destruct (String.eqb_spec k k'); [congruence|reflexivity].
      * reflexivity.
Qed.

Lemma keys_set_present d k v :
  In k (Dict.keys d) -> Dict.keys (Dict.set d k v) = Dict.keys d.
Proof.
  induction d as [|[k0 v0] d IH]; simpl; intros Hin; [contradiction|].
  destruct (String.eqb_spec k0 k) as [->|Hne]; simpl; [reflexivity|].
  f_equal. apply IH. destruct Hin as [->|Hin]; [congruence|exact Hin].
Qed.

Lemma set_fresh d k v :
  ~ In k (Dict.keys d) -> Dict.set d k v = (d ++ [(k, v)])%list.
Proof.
  induction d as [|[k0 v0] d IH]; simpl; intros Hn; [reflexivity|].
  destruct (String.eqb_spec k0 k) as [->|Hne]; [tauto|].
  rewrite IH by tauto. reflexivity.
Qed.

Lemma wf_set d k v : Dict.wf d -> Dict.wf (Dict.set d k v).
Proof.
  unfold Dict.wf. intros Hwf.
  destruct (in_dec string_dec k (Dict.keys d)) as [Hin|Hn].
  - rewrite keys_set_present by assumption. exact Hwf.
  - rewrite set_fresh by assumption. unfold Dict.keys. rewrite map_app. simpl.
    apply NoDup_app; [exact Hwf | repeat constructor; intros [] |].
    intros x Hx [<-|[]]. exact (Hn Hx).
Qed.

Lemma wf_update d other : Dict.wf d -> Dict.wf (Dict.update d other).
Proof.
  unfold Dict.update. revert d.
  induction other as [|[k v] other IH]; simpl; intros d Hwf; [exact Hwf|].
  apply IH. apply wf_set. exact Hwf.
Qed.

Lemma get_absent d k : ~ In k (Dict.keys d) -> Dict.get d k = None.
Proof.
  induction d as [|[k0 v0] d IH]; simpl; intros Hn; [reflexivity|].
  destruct (String.eqb_spec k0 k) as [->|Hne]; [tauto|]. apply IH. tauto.
Qed.

(** [update] on a well-formed [other]: the keys of [other] win. *)
Lemma get_update d other k :
  Dict.wf other ->
  Dict.get (Dict.update d other) k
  = match Dict.get other k with
    | Some v => Some v
    | None => Dict.get d k
    end.
Proof.
  unfold Dict.update, Dict.wf. revert d.
  induction other as [|[k0 v0] other IH]; simpl; intros d Hwf; [reflexivity|].
  inversion Hwf as [|? ? Hk0 Hwf']; subst.
  rewrite IH by assumption. rewrite get_set.
  destruct (String.eqb_spec k0 k) as [->|Hne].
  - rewrite get_absent by assumption. reflexivity.
  - reflexivity.
Qed.

End DictFacts.

(** ** [_flatten_object] *)

Lemma flatten_list_cases (l : list json) :
  flatten_list l
  = if starts_with_object l || negb (forallb is_str_int_float_bool l)
    then JStr (dumps (JList l))
    else JStr (join ", " (map str l)).
Proof.
  unfold flatten_list, starts_with_object.
  destruct l as [|[] l]; try reflexivity;
    cbn [orb]; destruct (forallb _ _); reflexivity.
Qed.

Lemma flatten_object_fold (obj : dict json) (prefix : string)
    (max_depth depth : Z) :
  _flatten_object obj prefix max_depth depth
  = fold_left (flatten_entry _flatten_object prefix max_depth depth) obj [].
Proof.
  unfold _flatten_object at 1. cbn [flatten_value].
  generalize (@nil (string * json)).
  induction obj as [|[key value] obj IH]; intros acc; [reflexivity|].
  cbn [fold_left]. rewrite <- IH. clear IH.
  f_equal. unfold flatten_entry. cbn [fst snd].
  assert ((if String.eqb prefix EmptyString then key else (prefix ++ key)%string)
          = (prefix ++ key)%string) as ->.
  { destruct (String.eqb_spec prefix EmptyString) as [->|]; reflexivity. }
  destruct value; try reflexivity.
  rewrite flatten_list_cases.
  destruct (starts_with_object items || _); reflexivity.
Qed.

Lemma wf_fold_entries (obj : dict json) (prefix : string) (max_depth depth : Z)
    (flatten : dict json -> string -> Z -> Z -> record) :
  (depth < max_depth -> forall d p, Dict.wf (flatten d p max_depth (depth + 1))) ->
  forall acc, Dict.wf acc ->
    Dict.wf (fold_left (flatten_entry flatten prefix max_depth depth) obj acc).
Proof.
  intros Hf. induction obj as [|[key value] obj IH]; intros acc Hacc;
    [exact Hacc|].
  cbn [fold_left]. apply IH. unfold flatten_entry. cbn [fst snd].
  destruct value; try (apply wf_set; exact Hacc).
  - destruct (_ || _); apply wf_set; exact Hacc.
  - destruct (Z.ltb_spec depth max_depth) as [Hlt|Hge].
    + apply wf_update. exact Hacc.
    + apply wf_set. exact Hacc.
Qed.

(** A flattened record has distinct keys. *)
Lemma wf_flatten_object (obj : dict json) (prefix : string)
    (max_depth depth : Z) :
  Dict.wf (_flatten_object obj prefix max_depth depth).
Proof.
  remember (Z.to_nat (max_depth - depth)) as n eqn:Hn.
  revert obj prefix depth Hn.
  induction n as [|n IH]; intros obj prefix depth Hn;
    rewrite flatten_object_fold; apply wf_fold_entries;
    try (unfold Dict.wf; constructor).
  - intros Hlt. lia.
  - intros Hlt d p. apply IH. lia.
Qed.

(** C5, as the code has it: [_flatten_object] treats the key/value pairs
    of an object one after the other, each as [flatten_entry] says. A nested
    object below [max_depth] is flattened with the prefix [new_key + "_"]
    and merged, its keys winning over the keys already there; a nested
    object at [max_depth] is stored as it is; a list that starts with an
    object, or that holds anything but texts, integers, floats and
    booleans (a null, a list, an object), is stored as its JSON text; a
    list of texts, integers, floats and booleans is stored as their texts
    joined by [", "], the empty list as the empty text; any other value is
    stored unchanged. *)
Theorem flatten_object_rule :
  (forall (obj : dict json) (prefix : string) (max_depth depth : Z),
     _flatten_object obj prefix max_depth depth
     = fold_left (flatten_entry _flatten_object prefix max_depth depth) obj [])
  /\ (forall (flattened : record) (d : dict json) (p : string) (m c : Z)
             (k : string),
        Dict.get (Dict.update flattened (_flatten_object d p m c)) k
        = match Dict.get (_flatten_object d p m c) k with
          | Some v => Some v
          | None => Dict.get flattened k
          end)
  /\ (forall (flattened : record) (k : string) (v : json) (k' : string),
        Dict.get (Dict.set flattened k v) k'
        = if String.eqb k k' then Some v else Dict.get flattened k')
  /\ flatten_object [("k", JList [])] EmptyString = [("k", JStr EmptyString)]
  /\ flatten_object [("k", JList [JInt 1; JNone])] EmptyString
     = [("k", JStr "[1, null]")]
  /\ flatten_object [("k", JList [JInt 1; JFloat "2.5"; JStr "x"; JBool true])]
                    EmptyString
     = [("k", JStr "1, 2.5, x, True")].
Proof.
  split; [exact flatten_object_fold|].
  split; [intros; apply get_update, wf_flatten_object|].
  split; [intros; apply get_set|].
  repeat split; vm_compute; reflexivity.
Qed.

(** C5, as the specification words it, fails: null is a scalar of the data
    model, and the list [1, null] is stored as its JSON text, not
    joined. *)
Lemma scalar_list_with_null_not_joined : ~ scalar_lists_are_joined.
Proof.
  intros H. specialize (H "k" [JInt 1; JNone] eq_refl).
  vm_compute in H. discriminate H.
Qed.

(** the examples of the specification and of the tests *)
Lemma flatten_examples :
  _extract_records new_parser
    (JDict [("user", JDict [("name", JStr "John");
                            ("details", JDict [("age", JInt 30);
                                               ("city", JStr "NYC")])])])
  = (mk_parser [],
     [[("user_name", JStr "John"); ("user_details_age", JInt 30);
       ("user_details_city", JStr "NYC")]])
  /\ _extract_records new_parser
       (JDict [("users", JList [JDict [("id", JInt 1)]]);
               ("devices", JList [JDict [("id", JInt 9)]])])
     = (mk_parser [("users", 1); ("devices", 1)],
        [[("users_id", JInt 1); ("_entity_type", JStr "users")];
         [("devices_id", JInt 9); ("_entity_type", JStr "devices")]])
  /\ flatten_object
       [("a", JDict [("b", JDict [("c", JDict [("d", JDict [("e", JInt 1)])])])])]
       EmptyString
     = [("a_b_c_d", JDict [("e", JInt 1)])]
  /\ flatten_object [("a", JDict [("b", JInt 1)]); ("a_b", JInt 2)] EmptyString
     = [("a_b", JInt 2)].
Proof. repeat split; vm_compute; reflexivity. Qed.

(** ** Collection dicts *)

Lemma list_count_filter (data : dict json) :
  list_count data = Z.of_nat (List.length (filter list_valued data)).
Proof.
  unfold list_count, Dict.values. f_equal.
  induction data as [|[k v] data IH]; [reflexivity|].
  cbn [map filter snd]. unfold list_valued at 1. cbn [snd].
  destruct (is_list v); cbn [List.length]; rewrite IH; reflexivity.
Qed.

Lemma some_list_valued (data : dict json) :
  (0 < List.length (filter list_valued data))%nat
  <-> exists k l, In (k, JList l) data.
Proof.
  split.
  - intros H. destruct (filter list_valued data) as [|[k v] rest] eqn:E;
      [simpl in H; lia|].
    assert (In (k, v) (filter list_valued data)) as Hin
      by (rewrite E; left; reflexivity).
    apply filter_In in Hin. destruct Hin as [Hin Hl].
    unfold list_valued in Hl. simpl in Hl. destruct v; try discriminate.
    eauto.
  - intros (k & l & Hin).
    assert (In (k, JList l) (filter list_valued data)) as Hf
      by (apply filter_In; split; [exact Hin|reflexivity]).
    destruct (filter list_valued data); [contradiction|simpl; lia].
Qed.

(** The loop of [_flatten_collection_dict], from any state in which the
    collections to come are not yet in the hierarchy. *)
Lemma collection_fold (data : dict json) :
  forall (hier : dict Z) (recs : list record),
    Dict.wf data ->
    (forall k, In k (Dict.keys data) -> ~ In k (Dict.keys hier)) ->
    fold_left collection_step data (mk_parser hier, recs)
    = (mk_parser (hier ++ collection_sizes data)%list,
       (recs ++ collection_records data)%list).
Proof.
  unfold Dict.wf.
  induction data as [|[k v] data IH]; intros hier recs Hwf Hfresh.
  - simpl. rewrite !app_nil_r. reflexivity.
  - cbn [Dict.keys map fst] in Hwf. inversion Hwf as [|? ? Hk Hwf']; subst.
    cbn [fold_left]. unfold collection_step at 2. cbn [fst snd hierarchy_map].
    unfold collection_sizes, collection_records. cbn [flat_map fst snd].
    fold (collection_sizes data). fold (collection_records data).
    destruct v as [| | | | |l|];
      try (rewrite IH; [reflexivity | exact Hwf' |
                        intros k' Hk'; apply Hfresh; right; exact Hk']).
    rewrite set_fresh by (apply Hfresh; left; reflexivity).
    rewrite IH; [rewrite <- !app_assoc; reflexivity | exact Hwf' |].
    intros k' Hk'. unfold Dict.keys. rewrite map_app, in_app_iff. simpl.
    intros [H|[<-|[]]]; [|exact (Hk Hk')].
    apply (Hfresh k'); [right; exact Hk' | exact H].
Qed.

Lemma collection_sizes_keys (data : dict json) (k : string) :
  In k (Dict.keys (collection_sizes data)) -> In k (Dict.keys data).
Proof.
  induction data as [|[k0 v] data IH]; simpl; [tauto|].
  unfold collection_sizes. cbn [flat_map fst snd]. fold (collection_sizes data).
  destruct v; simpl; tauto.
Qed.

Lemma collection_sizes_get (data : dict json) (k : string) (l : list json) :
  Dict.wf data -> In (k, JList l) data ->
  Dict.get (collection_sizes data) k = Some (Z.of_nat (List.length l)).
Proof.
  unfold Dict.wf.
  induction data as [|[k0 v] data IH]; intros Hwf Hin; [contradiction|].
  cbn [Dict.keys map fst] in Hwf. inversion Hwf as [|? ? Hk Hwf']; subst.
  unfold collection_sizes. cbn [flat_map fst snd]. fold (collection_sizes data).
  destruct Hin as [Heq|Hin].
  - injection Heq as -> ->. simpl. rewrite String.eqb_refl. reflexivity.
  - assert (k0 <> k) as Hne.
    { intros ->. apply Hk. change k with (fst (k, JList l)).
      apply in_map. exact Hin. }
    specialize (IH Hwf' Hin).
    destruct v; simpl; try exact IH.
    destruct (String.eqb_spec k0 k); [congruence|exact IH].
Qed.

Lemma collection_sizes_none (data : dict json) (k : string) :
  (forall l, ~ In (k, JList l) data) ->
  Dict.get (collection_sizes data) k = None.
Proof.
  induction data as [|[k0 v] data IH]; intros Hn; [reflexivity|].
  unfold collection_sizes. cbn [flat_map fst snd]. fold (collection_sizes data).
  assert (Dict.get (collection_sizes data) k = None) as IH'
    by (apply IH; intros l Hl; apply (Hn l); right; exact Hl).
  destruct v; simpl; try exact IH'.
  destruct (String.eqb_spec k0 k) as [->|]; [|exact IH'].
  exfalso. apply (Hn items). left. reflexivity.
Qed.

(** C6: a top-level dict is a collection dict exactly when some value is
    a list and the list-valued keys are at least half of the keys. Then
    the hierarchy maps each list-valued key to the length of its list, and
    the records are, collection after collection, the items of the lists:
    a dict item flattened with the prefix [k + "_"] and stamped with
    [_entity_type = k], any other item as [_entity_type] and [value]; the
    keys that are not list-valued give neither a record nor an entry. For
    any other shape, and for tabular input, the hierarchy is empty. *)
Theorem collection_dict_rule (self : parser) (data : dict json) :
  Dict.wf data ->
  (_is_collection_dict data = true
   <-> (exists k l, In (k, JList l) data)
       /\ (List.length data <= 2 * List.length (filter list_valued data))%nat)
  /\ (_is_collection_dict data = true ->
      _extract_records self (JDict data)
      = (mk_parser (collection_sizes data), collection_records data))
  /\ (forall k l, In (k, JList l) data ->
        Dict.get (collection_sizes data) k = Some (Z.of_nat (List.length l)))
  /\ (forall k, (forall l, ~ In (k, JList l) data) ->
        Dict.get (collection_sizes data) k = None)
  /\ (forall k d f,
        Dict.get (collection_item k (JDict d)) f
        = if String.eqb "_entity_type" f then Some (JStr k)
          else Dict.get (flatten_object d (k ++ "_")%string) f)
  /\ (forall k item, is_dict item = false ->
        collection_item k item = [("_entity_type", JStr k); ("value", item)])
  /\ (forall other : json, is_collection other = false ->
        hierarchy_map (fst (_extract_records self other)) = [])
  /\ (forall rows columns,
        ParsedData.get_hierarchy (csv_parse rows columns) = []).
Proof.
  intros Hwf.
  split.
  { unfold _is_collection_dict. rewrite list_count_filter.
    rewrite andb_true_iff, Z.ltb_lt, Z.leb_le.
    rewrite <- some_list_valued. lia. }
  split.
  { intros Hc. unfold _extract_records. rewrite Hc.
    unfold _flatten_collection_dict.
    rewrite collection_fold; [reflexivity | exact Hwf | intros k _ []]. }
  split; [intros k l; apply collection_sizes_get; exact Hwf|].
  split; [apply collection_sizes_none|].
  split; [intros k d f; unfold collection_item; apply get_set|].
  split; [intros k item Hd; destruct item; try reflexivity; discriminate|].
  split; [|reflexivity].
  intros other Hc. unfold _extract_records.
  destruct other; try reflexivity.
  simpl in Hc. rewrite Hc. reflexivity.
Qed.

Lemma collection_dict_rule_witness :
  _is_collection_dict two_collections = true
  /\ _extract_records new_parser (JDict two_collections)
     = (mk_parser [("users", 2); ("devices", 1)],
        [ [("users_id", JInt 1); ("_entity_type", JStr "users")];
          [("_entity_type", JStr "users"); ("value", JStr "guest")];
          [("devices_id", JInt 9); ("_entity_type", JStr "devices")] ]).
Proof.
  split; [reflexivity|].
  assert (Dict.wf two_collections) as Hwf.
  { unfold Dict.wf. simpl.
    repeat constructor; simpl; intros H;
      repeat (destruct H as [H|H]; [discriminate H|]); exact H. }
  destruct (collection_dict_rule new_parser two_collections Hwf)
    as (_ & Hrecs & _).
  rewrite (Hrecs eq_refl). reflexivity.
Defined.

(** ** Schema detection *)

Lemma iter_str_nil (h : HashOrder) : iter_str h [] = [].
Proof.
  destruct (iter_str h []) as [|x l] eqn:E; [reflexivity|].
  exfalso. apply (proj1 (iter_str_In h [] x)). rewrite E. left. reflexivity.
Qed.

Lemma iter_str_singleton (h : HashOrder) (k : string) : iter_str h [k] = [k].
Proof.
  pose proof (iter_str_NoDup h [k]) as Hnd.
  pose proof (iter_str_In h [k]) as Hin.
  destruct (iter_str h [k]) as [|x l].
  - exfalso. apply (proj2 (Hin k)). left. reflexivity.
  - assert (x = k) as ->.
    { destruct (proj1 (Hin x) (or_introl eq_refl)) as [H|[]]. congruence. }
    destruct l as [|y l]; [reflexivity|]. exfalso.
    assert (y = k) as ->.
    { destruct (proj1 (Hin y) (or_intror (or_introl eq_refl))) as [H|[]].
      congruence. }
    inversion Hnd as [|? ? Hn _]. apply Hn. left. reflexivity.
Qed.

Lemma check_hashable_ok (values : list json) :
  forallb hashable values = true -> check_hashable values = Ok tt.
Proof.
  induction values as [|v values IH]; simpl; [reflexivity|].
  intros H. apply andb_prop in H. destruct H as [Hv Hr].
  rewrite Hv. apply IH, Hr.
Qed.

Lemma get_In {V : Type} (d : dict V) (k : string) (v : V) :
  Dict.get d k = Some v -> In (k, v) d.
Proof.
  induction d as [|[k0 v0] d IH]; simpl; [discriminate|].
  destruct (String.eqb_spec k0 k) as [->|Hne].
  - intros H. injection H as ->. left. reflexivity.
  - intros H. right. apply IH, H.
Qed.

Lemma column_hashable (records : list record) (f : string) :
  all_hashable records = true ->
  forallb hashable (filter is_not_None (column records f)) = true.
Proof.
  unfold all_hashable, column. intros Hall.
  apply forallb_forall. intros v Hv. apply filter_In in Hv.
  destruct Hv as [Hv _]. apply in_map_iff in Hv.
  destruct Hv as (r & <- & Hr). unfold record_get.
  destruct (Dict.get r f) as [v|] eqn:E; [|reflexivity].
  apply get_In in E. rewrite forallb_forall in Hall. specialize (Hall r Hr).
  rewrite forallb_forall in Hall. exact (Hall (f, v) E).
Qed.

(** On records without lists and dicts the loop of [detect_schema] adds
    the fields one by one, in the order it is given them. *)
Lemma schema_fold_ok (h : HashOrder) (records : list record)
    (field_types : dict DataType) (fields : list string) :
  all_hashable records = true ->
  forall acc : dict FieldMetadata.t,
    NoDup fields ->
    (forall f, In f fields -> ~ In f (Dict.keys acc)) ->
    exists acc',
      fold_left (schema_step h records field_types) fields (Ok acc) = Ok acc'
      /\ Dict.keys acc' = (Dict.keys acc ++ fields)%list.
Proof.
  intros Hall. induction fields as [|f fields IH]; intros acc Hnd Hfresh.
  - exists acc. rewrite app_nil_r. split; reflexivity.
  - inversion Hnd as [|? ? Hf Hnd']; subst. cbn [fold_left].
    unfold schema_step at 2. cbn [bind]. unfold sample.
    rewrite (check_hashable_ok _ (column_hashable records f Hall)). cbn [bind].
    rewrite set_fresh by (apply Hfresh; left; reflexivity).
    match goal with
    | |- context [Ok (acc ++ [(f, ?md)])%list] =>
        destruct (IH (acc ++ [(f, md)])%list Hnd') as (acc' & Hfold & Hkeys)
    end.
    + intros g Hg. unfold Dict.keys. rewrite map_app, in_app_iff. simpl.
      intros [H|[<-|[]]]; [|exact (Hf Hg)].
      apply (Hfresh g); [right; exact Hg | exact H].
    + exists acc'. split; [exact Hfold|]. rewrite Hkeys.
      unfold Dict.keys. rewrite map_app, <- app_assoc. reflexivity.
Qed.

(** C9, as the code has it: on records whose values are hashable, schema
    detection returns, and the keys of its field metadata are the field
    names that appear in some record, each once: a permutation of their
    first-appearance order. They come in the order in which the set of the
    field names is iterated, which the hash order fixes. *)
Theorem schema_fields_are_the_record_keys (h : HashOrder) (self : parser)
    (records : list record) :
  all_hashable records = true ->
  exists s : schema,
    detect_schema h self records = Ok s
    /\ NoDup (Dict.keys (field_metadata s))
    /\ (forall f, In f (Dict.keys (field_metadata s))
                  <-> exists r, In r records /\ In f (Dict.keys r))
    /\ Permutation (Dict.keys (field_metadata s)) (first_seen_fields records)
    /\ Dict.keys (field_metadata s) = iter_str h (flat_map Dict.keys records)
    /\ (forall pd,
          ParsedData.get_fields
            (ParsedData.set_field_metadata pd (field_metadata s))
          = Dict.keys (field_metadata s)).
Proof.
  intros Hall.
  assert (exists s, detect_schema h self records = Ok s
                    /\ Dict.keys (field_metadata s)
                       = iter_str h (flat_map Dict.keys records))
    as (s & Hs & Hkeys).
  { destruct records as [|r records].
    - exists (mk_schema [] []). split; [reflexivity|].
      simpl. rewrite iter_str_nil. reflexivity.
    - unfold detect_schema. cbv beta iota zeta.
      destruct (schema_fold_ok h (r :: records)
                  (analyze_field_types h (r :: records))
                  (all_fields h (r :: records)) Hall [])
        as (acc' & Hfold & Hk).
      + apply iter_str_NoDup.
      + intros f _ [].
      + unfold Dict.dict in *. eexists. rewrite Hfold. cbn [bind].
        split; [reflexivity|].
        cbn [field_metadata]. exact Hk. }
  exists s. split; [exact Hs|]. rewrite Hkeys.
  assert (forall f, In f (iter_str h (flat_map Dict.keys records))
                    <-> exists r, In r records /\ In f (Dict.keys r)) as Hin.
  { intros f. rewrite iter_str_In, in_flat_map. reflexivity. }
  split; [apply iter_str_NoDup|].
  split; [exact Hin|].
  split; [|split; [reflexivity|]].
  - apply NoDup_Permutation.
    + apply iter_str_NoDup.
    + apply (first_seen_spec _ []).
    + intros f. rewrite iter_str_In. unfold first_seen_fields.
      rewrite (proj2 (first_seen_spec (flat_map Dict.keys records) []) f).
      simpl. tauto.
  - intros pd. unfold ParsedData.get_fields. cbn. exact Hkeys.
Qed.

Lemma schema_fields_are_the_record_keys_witness :
  exists s : schema,
    detect_schema reverse_order new_parser two_fields = Ok s
    /\ NoDup (Dict.keys (field_metadata s))
    /\ (forall f, In f (Dict.keys (field_metadata s))
                  <-> exists r, In r two_fields /\ In f (Dict.keys r))
    /\ Permutation (Dict.keys (field_metadata s)) (first_seen_fields two_fields)
    /\ Dict.keys (field_metadata s)
       = iter_str reverse_order (flat_map Dict.keys two_fields)
    /\ (forall pd,
          ParsedData.get_fields
            (ParsedData.set_field_metadata pd (field_metadata s))
          = Dict.keys (field_metadata s)).
Proof.
  apply (schema_fields_are_the_record_keys reverse_order new_parser two_fields).
  reflexivity.
Defined.

(** C9, as the specification words it, fails: under a hash order that is
    not the insertion order the fields do not come in the order of their
    first appearance. *)
Lemma fields_not_in_first_seen_order : ~ fields_in_first_seen_order.
Proof.
  intros H. pose proof (H reverse_order new_parser two_fields) as H'.
  destruct (detect_schema reverse_order new_parser two_fields) as [s|e] eqn:E;
    vm_compute in E; [|discriminate E].
  specialize (H' s eq_refl). injection E as <-.
  vm_compute in H'. discriminate H'.
Qed.

(** the schema of two records, under the two hash orders *)
Lemma schema_examples :
  (exists s, detect_schema insertion_order new_parser two_fields = Ok s
             /\ Dict.keys (field_metadata s) = ["a"; "b"; "c"]
             /\ map FieldMetadata.data_type (Dict.values (field_metadata s))
                = ["integer"; "string"; "float"]
             /\ map FieldMetadata.null_count (Dict.values (field_metadata s))
                = [1; 1; 1])
  /\ (exists s, detect_schema reverse_order new_parser two_fields = Ok s
                /\ Dict.keys (field_metadata s) = ["c"; "b"; "a"])
  /\ first_seen_fields two_fields = ["a"; "b"; "c"].
Proof.
  split; [|split]; [eexists | eexists |]; vm_compute; repeat split; reflexivity.
Qed.

(** C1, on the code: the flattener stores the object at depth 3 as it is,
    the classifier gives it a type, and schema detection raises
    [TypeError] when it builds the set of the sample values; so does the
    whole parse. *)
Theorem schema_detection_raises_on_raw_mapping (h : HashOrder) :
  snd (_extract_records new_parser deep_document)
  = [[("a_b_c_d", JDict [("e", JInt 1)])]]
  /\ infer_type (PJson (JDict [("e", JInt 1)])) = STRING
  /\ infer_column_type [PJson (JDict [("e", JInt 1)])] default_threshold = STRING
  /\ detect_schema h new_parser [[("a_b_c_d", JDict [("e", JInt 1)])]]
     = Raise (TypeError "unhashable type: 'dict'")
  /\ json_parse h new_parser deep_document
     = Raise (TypeError "unhashable type: 'dict'")
  /\ json_parse h new_parser (JList [JList [JInt 1]])
     = Raise (TypeError "unhashable type: 'list'").
Proof.
  assert (forall self k v, hashable v = false ->
            detect_schema h self [[(k, v)]]
            = Raise (TypeError ("unhashable type: '" ++ type_name v ++ "'")))
    as Hraise.
  { intros self k v Hv. unfold detect_schema. cbv beta iota zeta.
    unfold all_fields. cbn [flat_map Dict.keys map fst app].
    rewrite iter_str_singleton. cbn [fold_left].
    unfold schema_step, column, record_get. cbn [map Dict.get bind].
    rewrite String.eqb_refl. unfold sample.
    destruct v; try discriminate Hv; reflexivity. }
  split; [reflexivity|]. split; [reflexivity|]. split; [reflexivity|].
  split; [apply (Hraise new_parser "a_b_c_d" (JDict [("e", JInt 1)]));
          reflexivity|].
  split.
  - unfold json_parse.
    change (_extract_records new_parser deep_document)
      with (mk_parser [], [[("a_b_c_d", JDict [("e", JInt 1)])]]).
    cbv beta iota zeta.
    rewrite (Hraise _ "a_b_c_d" (JDict [("e", JInt 1)]) eq_refl). reflexivity.
  - unfold json_parse.
    change (_extract_records new_parser (JList [JList [JInt 1]]))
      with (mk_parser [], [[("value", JList [JInt 1])]]).
    cbv beta iota zeta.
    rewrite (Hraise _ "value" (JList [JInt 1]) eq_refl). reflexivity.
Qed.

(** The three other operations return on every value: their results are
    plain values, and on records without lists and dicts schema detection
    returns too. *)
Lemma total_operations (h : HashOrder) (self : parser) :
  (forall v : pyobj, exists t, infer_type v = t /\ value_tag t = true)
  /\ (forall values threshold, exists t, infer_column_type values threshold = t)
  /\ (forall data, exists st recs, _extract_records self data = (st, recs))
  /\ (forall records, all_hashable records = true ->
         exists s, detect_schema h self records = Ok s).
Proof.
  split; [intros v; exists (infer_type v); split;
          [reflexivity | apply infer_type_value_tag]|].
  split; [intros; eexists; reflexivity|].
  split.
  - intros data. destruct (_extract_records self data) as [st recs]. eauto.
  - intros records Hall.
    destruct records as [|r records]; [eexists; reflexivity|].
    unfold detect_schema. cbv beta iota zeta.
    destruct (schema_fold_ok h (r :: records)
                (analyze_field_types h (r :: records))
                (all_fields h (r :: records)) Hall [])
      as (acc' & Hfold & _).
    + apply iter_str_NoDup.
    + intros f _ [].
    + unfold Dict.dict in *. eexists. rewrite Hfold. reflexivity.
Qed.

(* ================================================================= *)
(** * Further properties of the code *)

(** ** Field types and field metadata *)

Lemma mem_In (x : string) (l : list string) : mem x l = true <-> In x l.
Proof.
  unfold mem. rewrite existsb_exists. split.
  - intros (y & Hy & He). apply String.eqb_eq in He. subst y. exact Hy.
  - intros H. exists x. split; [exact H | apply String.eqb_refl].
Qed.

Lemma field_appears_iff (records : list record) (f : string) :
  field_appears records f = true
  <-> exists r, In r records /\ In f (Dict.keys r).
Proof.
  unfold field_appears. rewrite existsb_exists.
  split; intros (r & Hr & H); exists r; split; try exact Hr; apply mem_In, H.
Qed.

Lemma all_fields_In (h : HashOrder) (records : list record) (f : string) :
  In f (all_fields h records) <-> field_appears records f = true.
Proof.
  unfold all_fields. rewrite iter_str_In, in_flat_map, field_appears_iff.
  reflexivity.
Qed.

Lemma fold_set_get {V : Type} (g : string -> V) (fs : list string) :
  forall (acc : dict V) (k : string),
    Dict.get (fold_left (fun a f => Dict.set a f (g f)) fs acc) k
    = if mem k fs then Some (g k) else Dict.get acc k.
Proof.
  induction fs as [|f fs IH]; intros acc k; [reflexivity|].
  cbn [fold_left]. rewrite IH. unfold mem. cbn [existsb].
  fold (mem k fs). destruct (mem k fs); [rewrite orb_true_r; reflexivity|].
  rewrite orb_false_r, get_set, String.eqb_sym.
  destruct (String.eqb_spec k f) as [->|]; reflexivity.
Qed.

Lemma fold_set_keys {V : Type} (g : string -> V) (fs : list string) :
  forall acc : dict V,
    NoDup fs -> (forall f, In f fs -> ~ In f (Dict.keys acc)) ->
    Dict.keys (fold_left (fun a f => Dict.set a f (g f)) fs acc)
    = (Dict.keys acc ++ fs)%list.
Proof.
  induction fs as [|f fs IH]; intros acc Hnd Hfresh.
  - rewrite app_nil_r. reflexivity.
  - inversion Hnd as [|? ? Hf Hnd']; subst. cbn [fold_left].
    rewrite set_fresh by (apply Hfresh; left; reflexivity).
    rewrite IH; [|exact Hnd'|].
    + unfold Dict.keys. rewrite map_app, <- app_assoc. reflexivity.
    + intros g0 Hg. unfold Dict.keys. rewrite map_app, in_app_iff. simpl.
      intros [H|[<-|[]]]; [|exact (Hf Hg)].
      apply (Hfresh g0); [right; exact Hg | exact H].
Qed.

(** UNKNOWN is the answer for the empty column only. *)
Lemma infer_column_type_known (values : list pyobj) (threshold : float) :
  values <> [] -> infer_column_type values threshold <> UNKNOWN.
Proof.
  intros Hne Hu.
  pose proof (infer_column_type_cases values threshold Hne) as H.
  destruct (most_common_type values) as [most|].
  - destruct H as (Hin & _ & _ & _ & _ & Hres).
    rewrite Hres in Hu. unfold decide_column in Hu.
    unfold classes in Hin. apply in_map_iff in Hin.
    destruct Hin as (w & Hw & _).
    pose proof (infer_type_value_tag w) as Hw'. rewrite Hw in Hw'.
    destruct (PrimFloat.leb _ _); [subst most; discriminate|].
    destruct (appears _ _ && appears _ _); discriminate.
  - destruct H as [_ Hres]. rewrite Hres in Hu. discriminate.
Qed.

Lemma analyze_field_types_get (h : HashOrder) (records : list record)
    (f : string) :
  Dict.get (analyze_field_types h records) f
  = if field_appears records f
    then Some (infer_column_type (map PJson (column records f))
                                 default_threshold)
    else None.
Proof.
  destruct records as [|r records]; [reflexivity|].
  unfold analyze_field_types.
  rewrite (fold_set_get
             (fun field => infer_column_type
                             (map PJson (column (r :: records) field))
                             default_threshold)).
  destruct (mem f (all_fields h (r :: records))) eqn:Em.
  - apply mem_In, all_fields_In in Em. rewrite Em. reflexivity.
  - destruct (field_appears (r :: records) f) eqn:Ea; [|reflexivity].
    apply (proj2 (all_fields_In h _ f)) in Ea.
    apply (proj2 (mem_In _ _)) in Ea. congruence.
Qed.

(** X1: [analyze_field_types] gives a type to exactly the fields that
    appear in some record, in the order in which the set of the field names
    is iterated; the type of a field is that of its column, a record
    without the field counting as None; it is never UNKNOWN. *)
Theorem analyze_field_types_covers_fields (h : HashOrder)
    (records : list record) :
  Dict.keys (analyze_field_types h records) = all_fields h records
  /\ (forall f,
        Dict.get (analyze_field_types h records) f
        = if field_appears records f
          then Some (infer_column_type (map PJson (column records f))
                                       default_threshold)
          else None)
  /\ (forall f, Dict.get (analyze_field_types h records) f <> Some UNKNOWN).
Proof.
  split; [|split].
  - destruct records as [|r records].
    + unfold all_fields. simpl. rewrite iter_str_nil. reflexivity.
    + unfold analyze_field_types.
      rewrite fold_set_keys; [reflexivity | apply iter_str_NoDup |].
      intros f _ [].
  - apply analyze_field_types_get.
  - intros f. rewrite analyze_field_types_get.
    destruct (field_appears records f) eqn:Ea; [|discriminate].
    intros H. injection H as H. revert H. apply infer_column_type_known.
    apply field_appears_iff in Ea. destruct Ea as (r & Hr & _).
    unfold column. destruct records; [contradiction|discriminate].
Qed.

Lemma schema_fold_raise (h : HashOrder) (records : list record)
    (field_types : dict DataType) (fields : list string) (e : exn) :
  fold_left (schema_step h records field_types) fields (Raise e) = Raise e.
Proof.
  induction fields as [|f fields IH]; [reflexivity|]. exact IH.
Qed.

Lemma schema_step_cases (h : HashOrder) (records : list record)
    (field_types : dict DataType) (acc : dict FieldMetadata.t) (f : string) :
  schema_step h records field_types (Ok acc) f
  = match check_hashable (filter is_not_None (column records f)) with
    | Ok _ => Ok (Dict.set acc f (metadata_of h records field_types f))
    | Raise e => Raise e
    end.
Proof.
  unfold schema_step, sample, metadata_of. cbn [bind].
  destruct (check_hashable _); reflexivity.
Qed.

(** When the loop of [detect_schema] ends without an exception it has
    added the metadata of each field, in the order of the fields. *)
Lemma schema_fold_inv (h : HashOrder) (records : list record)
    (field_types : dict DataType) (fields : list string) :
  forall acc acc' : dict FieldMetadata.t,
    NoDup fields ->
    (forall f, In f fields -> ~ In f (Dict.keys acc)) ->
    fold_left (schema_step h records field_types) fields (Ok acc) = Ok acc' ->
    acc' = (acc ++ map (fun f => (f, metadata_of h records field_types f))
                       fields)%list
    /\ forall f, In f fields ->
         check_hashable (filter is_not_None (column records f)) = Ok tt.
Proof.
  induction fields as [|f fields IH]; intros acc acc' Hnd Hfresh Hfold.
  - simpl in Hfold. injection Hfold as <-. rewrite app_nil_r.
    split; [reflexivity | intros f []].
  - inversion Hnd as [|? ? Hf Hnd']; subst. cbn [fold_left] in Hfold.
    rewrite schema_step_cases in Hfold.
    destruct (check_hashable (filter is_not_None (column records f)))
      as [[]|e] eqn:Ec.
    2:{ rewrite schema_fold_raise in Hfold. discriminate Hfold. }
    rewrite set_fresh in Hfold by (apply Hfresh; left; reflexivity).
    apply IH in Hfold; [|exact Hnd'|].
    + destruct Hfold as [-> Hok]. split.
      * rewrite <- app_assoc. reflexivity.
      * intros g [<-|Hg]; [exact Ec | apply Hok, Hg].
    + intros g Hg. unfold Dict.keys. rewrite map_app, in_app_iff. simpl.
      intros [H|[<-|[]]]; [|exact (Hf Hg)].
      apply (Hfresh g); [right; exact Hg | exact H].
Qed.

Lemma detect_schema_inv (h : HashOrder) (self : parser)
    (records : list record) (s : schema) :
  detect_schema h self records = Ok s ->
  field_metadata s
  = map (fun f => (f, metadata_of h records (analyze_field_types h records) f))
        (all_fields h records)
  /\ hierarchy s = match records with [] => [] | _ => hierarchy_map self end
  /\ forall f, In f (all_fields h records) ->
       check_hashable (filter is_not_None (column records f)) = Ok tt.
Proof.
  destruct records as [|r records].
  - intros H. injection H as <-. unfold all_fields. simpl.
    rewrite iter_str_nil. repeat split.
  - unfold detect_schema. cbv beta iota zeta.
    destruct (fold_left (schema_step h (r :: records)
                           (analyze_field_types h (r :: records)))
                        (all_fields h (r :: records)) (Ok []))
      as [acc'|e] eqn:Ef; cbn [bind]; [|discriminate].
    intros H. injection H as <-. cbn [field_metadata hierarchy].
    apply schema_fold_inv in Ef;
      [| apply iter_str_NoDup | intros f _ []].
    destruct Ef as [-> Hok]. repeat split. exact Hok.
Qed.

Lemma get_entries {V : Type} (m : string -> V) (fs : list string) (f : string) :
  Dict.get (map (fun k => (k, m k)) fs) f
  = if mem f fs then Some (m f) else None.
Proof.
  induction fs as [|k fs IH]; [reflexivity|].
  cbn [map Dict.get]. unfold mem. cbn [existsb]. fold (mem f fs).
  rewrite String.eqb_sym.
  destruct (String.eqb_spec f k) as [->|]; [reflexivity|]. exact IH.
Qed.

Lemma length_filter_map {A B : Type} (p : B -> bool) (g : A -> B) (l : list A) :
  List.length (filter p (map g l))
  = List.length (filter (fun x => p (g x)) l).
Proof.
  induction l as [|x l IH]; [reflexivity|]. simpl.
  destruct (p (g x)); simpl; rewrite IH; reflexivity.
Qed.

Lemma length_filter_negb {A : Type} (p : A -> bool) (l : list A) :
  (List.length (filter p l) + List.length (filter (fun x => negb (p x)) l)
   = List.length l)%nat.
Proof.
  induction l as [|x l IH]; [reflexivity|]. simpl.
  destruct (p x); simpl; lia.
Qed.

Lemma nodup_length_le (l : list string) :
  (List.length (nodup string_dec l) <= List.length l)%nat.
Proof.
  apply NoDup_incl_length; [apply NoDup_nodup|].
  intros x Hx. apply nodup_In in Hx. exact Hx.
Qed.

Lemma nodup_nonempty (l : list string) :
  l <> [] -> (1 <= List.length (nodup string_dec l))%nat.
Proof.
  destruct l as [|x l]; [congruence|]. intros _.
  assert (In x (nodup string_dec (x :: l))) as H
    by (apply nodup_In; left; reflexivity).
  destruct (nodup string_dec (x :: l)); [contradiction|simpl; lia].
Qed.

(** The counts of one field, read off [metadata_of]. *)
Lemma metadata_counts (h : HashOrder) (records : list record)
    (field_types : dict DataType) (f : string) :
  let md := metadata_of h records field_types f in
  let n := Z.of_nat (List.length records) in
  FieldMetadata.name md = f
  /\ FieldMetadata.null_count md = missing_count records f
  /\ 0 <= FieldMetadata.null_count md <= n
  /\ (FieldMetadata.nullable md = true <-> 0 < FieldMetadata.null_count md)
  /\ 0 <= FieldMetadata.unique_count md <= n - FieldMetadata.null_count md
  /\ (FieldMetadata.null_count md < n -> 1 <= FieldMetadata.unique_count md)
  /\ (List.length (FieldMetadata.sample_values md) <= 5)%nat.
Proof.
  cbv zeta. unfold metadata_of. cbn [FieldMetadata.name FieldMetadata.null_count
    FieldMetadata.nullable FieldMetadata.unique_count FieldMetadata.sample_values].
  set (values := column records f).
  set (nn := filter is_not_None values).
  assert (List.length values = List.length records) as Hlen
    by (unfold values, column; apply length_map).
  pose proof (length_filter_negb is_not_None values) as Hsplit. fold nn in Hsplit.
  assert (List.length (filter (fun x => negb (is_not_None x)) values)
          = List.length
              (filter (fun r => negb (is_not_None (record_get r f))) records))
    as Hmiss.
  { unfold values, column.
    apply (length_filter_map (fun x => negb (is_not_None x))). }
  unfold missing_count, count_distinct_str. rewrite <- Hmiss.
  pose proof (nodup_length_le (map str nn)) as Hu. rewrite length_map in Hu.
  split; [reflexivity|]. split; [lia|]. split; [lia|].
  split; [rewrite Nat.ltb_lt; lia|]. split; [lia|]. split.
  - intros Hlt. assert (map str nn <> []) as Hne.
    { destruct nn; [simpl in *; lia | discriminate]. }
    pose proof (nodup_nonempty _ Hne). lia.
  - apply firstn_le_length.
Qed.

(** X2: in the schema [detect_schema] returns, the metadata of a field
    carries the field's name; its null count is the number of records in
    which the field is missing or None, between 0 and the number of
    records; it is nullable exactly when that count is positive; its
    unique count is at most the number of the other records, and at least
    1 when there is one; it has at most five sample values. *)
Theorem field_metadata_counts (h : HashOrder) (self : parser)
    (records : list record) (s : schema) (f : string) (md : FieldMetadata.t) :
  detect_schema h self records = Ok s ->
  Dict.get (field_metadata s) f = Some md ->
  let n := Z.of_nat (List.length records) in
  FieldMetadata.name md = f
  /\ FieldMetadata.null_count md = missing_count records f
  /\ 0 <= FieldMetadata.null_count md <= n
  /\ (FieldMetadata.nullable md = true <-> 0 < FieldMetadata.null_count md)
  /\ 0 <= FieldMetadata.unique_count md <= n - FieldMetadata.null_count md
  /\ (FieldMetadata.null_count md < n -> 1 <= FieldMetadata.unique_count md)
  /\ (List.length (FieldMetadata.sample_values md) <= 5)%nat.
Proof.
  intros Hs Hget. apply detect_schema_inv in Hs. destruct Hs as (Hfm & _ & _).
  rewrite Hfm, get_entries in Hget.
  destruct (mem f (all_fields h records)); [|discriminate].
  injection Hget as <-. apply metadata_counts.
Qed.

Lemma field_metadata_counts_witness :
  exists s md,
    detect_schema insertion_order new_parser two_fields = Ok s
    /\ Dict.get (field_metadata s) "b" = Some md
    /\ let n := Z.of_nat (List.length two_fields) in
       FieldMetadata.name md = "b"
       /\ FieldMetadata.null_count md = missing_count two_fields "b"
       /\ 0 <= FieldMetadata.null_count md <= n
       /\ (FieldMetadata.nullable md = true <-> 0 < FieldMetadata.null_count md)
       /\ 0 <= FieldMetadata.unique_count md <= n - FieldMetadata.null_count md
       /\ (FieldMetadata.null_count md < n -> 1 <= FieldMetadata.unique_count md)
       /\ (List.length (FieldMetadata.sample_values md) <= 5)%nat.
Proof.
  destruct (detect_schema insertion_order new_parser two_fields) as [s|e] eqn:Es;
    [|vm_compute in Es; discriminate Es].
  destruct (Dict.get (field_metadata s) "b") as [md|] eqn:Eg.
  - exists s, md. split; [reflexivity|]. split; [exact Eg|].
    exact (field_metadata_counts insertion_order new_parser two_fields
             s "b" md Es Eg).
  - vm_compute in Es. injection Es as <-. vm_compute in Eg. discriminate Eg.
Defined.

(** ** The parse as a whole *)

Lemma json_parse_inv (h : HashOrder) (self : parser) (raw_data : json)
    (st : parser) (pd : ParsedData.t) :
  json_parse h self raw_data = Ok (st, pd) ->
  exists s,
    st = fst (_extract_records self raw_data)
    /\ detect_schema h st (snd (_extract_records self raw_data)) = Ok s
    /\ pd = ParsedData.mk "json" (snd (_extract_records self raw_data))
                          (field_metadata s) (hierarchy s)
                          (Z.of_nat (List.length
                                       (snd (_extract_records self raw_data)))).
Proof.
  unfold json_parse.
  destruct (_extract_records self raw_data) as [st' recs]. cbn [fst snd].
  destruct (detect_schema h st' recs) as [s|e] eqn:Es; cbn [bind];
    [|discriminate].
  intros H. injection H as <- <-. exists s. repeat split. exact Es.
Qed.

Lemma DataType_value_unknown (t : DataType) :
  DataType_value t = "unknown" -> t = UNKNOWN.
Proof. destruct t; simpl; intros H; try discriminate H; reflexivity. Qed.

(** X3: after a parse that returns, the record count is the number of
    records; the fields are the field names of the records; the type of a
    field that appears in some record is the name of the type of its
    column, never "unknown"; a field that appears in no record has no type
    and no metadata. *)
Theorem parsed_data_field_types (h : HashOrder) (self : parser)
    (raw_data : json) (st : parser) (pd : ParsedData.t) :
  json_parse h self raw_data = Ok (st, pd) ->
  let recs := ParsedData.get_records pd in
  recs = snd (_extract_records self raw_data)
  /\ ParsedData.get_record_count pd = Z.of_nat (List.length recs)
  /\ ParsedData.get_fields pd = all_fields h recs
  /\ (forall f,
        ParsedData.get_field_type pd f
        = if field_appears recs f
          then Some (DataType_value
                       (infer_column_type (map PJson (column recs f))
                                          default_threshold))
          else None)
  /\ (forall f, ParsedData.get_field_type pd f <> Some "unknown")
  /\ (forall f, ParsedData.get_field_metadata pd f = None
                <-> field_appears recs f = false).
Proof.
  intros Hp. apply json_parse_inv in Hp. destruct Hp as (s & _ & Hs & ->).
  cbv zeta. unfold ParsedData.get_records, ParsedData.get_record_count,
    ParsedData.get_fields, ParsedData.get_field_type,
    ParsedData.get_field_metadata.
  cbn [ParsedData.records ParsedData._record_count ParsedData.field_metadata].
  set (recs := snd (_extract_records self raw_data)) in *.
  apply detect_schema_inv in Hs. destruct Hs as (Hfm & _ & _).
  assert (forall f,
            Dict.get (field_metadata s) f
            = if field_appears recs f
              then Some (metadata_of h recs (analyze_field_types h recs) f)
              else None) as Hget.
  { intros f. rewrite Hfm, get_entries.
    destruct (mem f (all_fields h recs)) eqn:Em.
    - apply mem_In, all_fields_In in Em. rewrite Em. reflexivity.
    - destruct (field_appears recs f) eqn:Ea; [|reflexivity].
      apply (proj2 (all_fields_In h _ f)) in Ea.
      apply (proj2 (mem_In _ _)) in Ea. congruence. }
  assert (forall f,
            match Dict.get (field_metadata s) f with
            | Some metadata => Some (FieldMetadata.data_type metadata)
            | None => None
            end
            = if field_appears recs f
              then Some (DataType_value
                           (infer_column_type (map PJson (column recs f))
                                              default_threshold))
              else None) as Htype.
  { intros f. rewrite Hget.
    destruct (field_appears recs f) eqn:Ea; [|reflexivity].
    unfold metadata_of. cbn [FieldMetadata.data_type].
    rewrite analyze_field_types_get, Ea. reflexivity. }
  split; [reflexivity|]. split; [reflexivity|]. split.
  { rewrite Hfm. unfold Dict.keys. rewrite map_map. apply map_id. }
  split; [exact Htype|]. split.
  - intros f. rewrite Htype.
    destruct (field_appears recs f) eqn:Ea; [|discriminate].
    intros H. injection H as H. apply DataType_value_unknown in H.
    revert H. apply infer_column_type_known.
    apply field_appears_iff in Ea. destruct Ea as (r & Hr & _).
    unfold column. destruct recs; [contradiction|discriminate].
  - intros f. rewrite Hget. destruct (field_appears recs f); split;
      congruence.
Qed.

Lemma parsed_data_field_types_witness :
  exists st pd,
    json_parse insertion_order new_parser
      (JList [JDict [("id", JStr "7"); ("tag", JStr "x")]; JDict [("id", JInt 8)]])
    = Ok (st, pd)
    /\ ParsedData.get_field_type pd "id" = Some "integer"
    /\ ParsedData.get_field_type pd "tag" = Some "string"
    /\ ParsedData.get_field_type pd "other" = None
    /\ ParsedData.get_field_type pd "id" <> Some "unknown".
Proof.
  destruct (json_parse insertion_order new_parser
              (JList [JDict [("id", JStr "7"); ("tag", JStr "x")];
                      JDict [("id", JInt 8)]])) as [[st pd]|e] eqn:E;
    [|vm_compute in E; discriminate E].
  exists st, pd. split; [reflexivity|].
  destruct (parsed_data_field_types _ _ _ _ _ E) as (_ & _ & _ & _ & Hu & _).
  vm_compute in E. injection E as <- <-.
  repeat split. apply Hu.
Defined.

Lemma collection_fold_records (data : dict json) :
  forall (st : parser) (recs : list record),
    snd (fold_left collection_step data (st, recs))
    = (recs ++ collection_records data)%list.
Proof.
  induction data as [|[k v] data IH]; intros st recs.
  - simpl. rewrite app_nil_r. reflexivity.
  - cbn [fold_left]. unfold collection_step at 2. cbn [fst snd].
    unfold collection_records. cbn [flat_map fst snd].
    fold (collection_records data).
    destruct v; rewrite IH; try reflexivity.
    rewrite <- app_assoc. reflexivity.
Qed.

Lemma extract_records_collection (self : parser) (data : dict json) :
  _is_collection_dict data = true ->
  snd (_extract_records self (JDict data)) = collection_records data.
Proof.
  intros Hc. unfold _extract_records. rewrite Hc.
  unfold _flatten_collection_dict. rewrite collection_fold_records.
  reflexivity.
Qed.

Lemma wf_collection_item (k : string) (item : json) :
  Dict.wf (collection_item k item).
Proof.
  destruct item;
    try (unfold Dict.wf; simpl;
         constructor; [simpl; intros [H|[]]; discriminate H|];
         constructor; [intros []|constructor]).
  unfold collection_item. apply wf_set, wf_flatten_object.
Qed.

Lemma wf_singleton {V : Type} (k : string) (v : V) : Dict.wf [(k, v)].
Proof. unfold Dict.wf. simpl. repeat constructor. intros []. Qed.

(** Every record [_extract_records] returns has distinct keys. *)
Lemma extract_records_wf (self : parser) (raw_data : json) :
  Forall Dict.wf (snd (_extract_records self raw_data)).
Proof.
  destruct raw_data as [| | | | |l|d];
    try (cbn; constructor; [apply wf_singleton | constructor]).
  - cbn [_extract_records snd]. unfold _flatten_records.
    apply Forall_forall. intros r Hr. apply in_map_iff in Hr.
    destruct Hr as (x & <- & _).
    destruct x; try apply wf_singleton. apply wf_flatten_object.
  - destruct (_is_collection_dict d) eqn:Hc.
    + rewrite (extract_records_collection self d Hc).
      apply Forall_forall. intros r Hr. unfold collection_records in Hr.
      apply in_flat_map in Hr. destruct Hr as ([k v] & _ & Hr). cbn [fst snd] in Hr.
      destruct v; try contradiction.
      apply in_map_iff in Hr. destruct Hr as (x & <- & _).
      apply wf_collection_item.
    + unfold _extract_records. rewrite Hc. cbn [snd].
      constructor; [apply wf_flatten_object | constructor].
Qed.

Lemma In_get {V : Type} (d : dict V) (k : string) (v : V) :
  Dict.wf d -> In (k, v) d -> Dict.get d k = Some v.
Proof.
  unfold Dict.wf.
  induction d as [|[k0 v0] d IH]; intros Hwf Hin; [contradiction|].
  cbn [Dict.keys map fst] in Hwf. inversion Hwf as [|? ? Hk Hwf']; subst.
  cbn [Dict.get]. destruct Hin as [H|Hin].
  - injection H as -> ->. rewrite String.eqb_refl. reflexivity.
  - destruct (String.eqb_spec k0 k) as [->|]; [|apply IH; assumption].
    exfalso. apply Hk. change k with (fst (k, v)). apply in_map. exact Hin.
Qed.

Lemma check_hashable_inv (values : list json) :
  match check_hashable values with
  | Ok _ => forallb hashable values = true
  | Raise e =>
      forallb hashable values = false
      /\ (e = TypeError "unhashable type: 'list'"
          \/ e = TypeError "unhashable type: 'dict'")
  end.
Proof.
  induction values as [|v values IH]; [reflexivity|].
  cbn [check_hashable forallb].
  destruct (hashable v) eqn:Hv; [exact IH|].
  split; [reflexivity|]. destruct v; try discriminate Hv; [left|right]; reflexivity.
Qed.

Lemma schema_fold_error (h : HashOrder) (records : list record)
    (field_types : dict DataType) (fields : list string) :
  forall (acc : dict FieldMetadata.t) (e : exn),
    fold_left (schema_step h records field_types) fields (Ok acc) = Raise e ->
    e = TypeError "unhashable type: 'list'"
    \/ e = TypeError "unhashable type: 'dict'".
Proof.
  induction fields as [|f fields IH]; intros acc e Hfold; [discriminate Hfold|].
  cbn [fold_left] in Hfold. rewrite schema_step_cases in Hfold.
  pose proof (check_hashable_inv (filter is_not_None (column records f))) as Hc.
  destruct (check_hashable (filter is_not_None (column records f))) as [[]|e'].
  - eapply IH. exact Hfold.
  - rewrite schema_fold_raise in Hfold. injection Hfold as <-. apply Hc.
Qed.

(** Schema detection returns exactly on the records that hold no list
    and no dict; what it raises otherwise is the [TypeError] of [set]. *)
Lemma detect_schema_outcome (h : HashOrder) (self : parser)
    (records : list record) :
  Forall Dict.wf records ->
  match detect_schema h self records with
  | Ok _ => all_hashable records = true
  | Raise e =>
      all_hashable records = false
      /\ (e = TypeError "unhashable type: 'list'"
          \/ e = TypeError "unhashable type: 'dict'")
  end.
Proof.
  intros Hwf.
  destruct (detect_schema h self records) as [s|e] eqn:Es.
  - apply detect_schema_inv in Es. destruct Es as (_ & _ & Hok).
    unfold all_hashable. apply forallb_forall. intros r Hr.
    apply forallb_forall. intros [k v] Hkv. cbn [snd].
    destruct (hashable v) eqn:Hv; [reflexivity|]. exfalso.
    assert (In k (all_fields h records)) as Hk.
    { apply all_fields_In, field_appears_iff. exists r. split; [exact Hr|].
      change k with (fst (k, v)). apply in_map. exact Hkv. }
    specialize (Hok k Hk).
    pose proof (check_hashable_inv (filter is_not_None (column records k))) as Hc.
    rewrite Hok in Hc. rewrite forallb_forall in Hc.
    rewrite Forall_forall in Hwf.
    assert (In v (filter is_not_None (column records k))) as Hin.
    { apply filter_In. split; [|destruct v; try reflexivity; discriminate Hv].
      unfold column. apply in_map_iff. exists r. split; [|exact Hr].
      unfold record_get. rewrite (In_get r k v (Hwf r Hr) Hkv). reflexivity. }
    specialize (Hc v Hin). congruence.
  - destruct (all_hashable records) eqn:Hall.
    + exfalso. destruct records as [|r records]; [discriminate Es|].
      unfold detect_schema in Es. cbv beta iota zeta in Es.
      destruct (schema_fold_ok h (r :: records)
                  (analyze_field_types h (r :: records))
                  (all_fields h (r :: records)) Hall [])
        as (acc' & Hfold & _);
        [apply iter_str_NoDup | intros f _ [] |].
      unfold Dict.dict in *. rewrite Hfold in Es. discriminate Es.
    + split; [reflexivity|].
      destruct records as [|r records]; [discriminate Es|].
      unfold detect_schema in Es. cbv beta iota zeta in Es.
      destruct (fold_left (schema_step h (r :: records)
                             (analyze_field_types h (r :: records)))
                          (all_fields h (r :: records)) (Ok []))
        as [acc'|e'] eqn:Ef; cbn [bind] in Es; [discriminate Es|].
      injection Es as <-. eapply schema_fold_error. exact Ef.
Qed.

(** X4: the parse of a decoded document returns exactly when no record
    extracted from it holds a list or a dict as a field value; otherwise it
    raises the [TypeError] of an unhashable list or dict, and nothing
    else. *)
Theorem parse_returns_iff_hashable (h : HashOrder) (self : parser)
    (raw_data : json) :
  match json_parse h self raw_data with
  | Ok _ => all_hashable (snd (_extract_records self raw_data)) = true
  | Raise e =>
      all_hashable (snd (_extract_records self raw_data)) = false
      /\ (e = TypeError "unhashable type: 'list'"
          \/ e = TypeError "unhashable type: 'dict'")
  end.
Proof.
  pose proof (extract_records_wf self raw_data) as Hwf.
  unfold json_parse.
  destruct (_extract_records self raw_data) as [st recs]. cbn [snd] in *.
  pose proof (detect_schema_outcome h st recs Hwf) as H.
  destruct (detect_schema h st recs) as [s|e]; cbn [bind]; exact H.
Qed.

(** ** Collections *)

Lemma collection_records_length (data : dict json) :
  Z.of_nat (List.length (collection_records data))
  = sum (Dict.values (collection_sizes data)).
Proof.
  unfold collection_records, collection_sizes, sum, Dict.values.
  induction data as [|[k v] data IH]; [reflexivity|].
  cbn [flat_map fst snd]. rewrite length_app, map_app, fold_right_app.
  rewrite Nat2Z.inj_add, IH.
  destruct v; try reflexivity.
  cbn [map snd fold_right app]. rewrite length_map. reflexivity.
Qed.

Lemma extract_collection (self : parser) (data : dict json) :
  Dict.wf data -> _is_collection_dict data = true ->
  _extract_records self (JDict data)
  = (mk_parser (collection_sizes data), collection_records data).
Proof.
  intros Hwf Hc. unfold _extract_records. rewrite Hc.
  unfold _flatten_collection_dict.
  rewrite collection_fold; [reflexivity | exact Hwf | intros k _ []].
Qed.

(** X5: for a collection dict the counts of the hierarchy add up to the
    number of records. *)
Theorem collection_record_count (self : parser) (data : dict json) :
  Dict.wf data -> _is_collection_dict data = true ->
  Z.of_nat (List.length (snd (_extract_records self (JDict data))))
  = sum (Dict.values (hierarchy_map (fst (_extract_records self (JDict data))))).
Proof.
  intros Hwf Hc. rewrite (extract_collection self data Hwf Hc).
  cbn [fst snd hierarchy_map]. apply collection_records_length.
Qed.

Lemma wf_two_collections : Dict.wf two_collections.
Proof.
  unfold Dict.wf. simpl.
  repeat constructor; simpl; intros H;
    repeat (destruct H as [H|H]; [discriminate H|]); exact H.
Qed.

Lemma collection_record_count_witness :
  Z.of_nat (List.length (snd (_extract_records new_parser (JDict two_collections))))
  = sum (Dict.values
           (hierarchy_map (fst (_extract_records new_parser (JDict two_collections))))).
Proof.
  apply (collection_record_count new_parser two_collections).
  - exact wf_two_collections.
  - reflexivity.
Defined.

Lemma collection_sizes_nonempty (data : dict json) :
  _is_collection_dict data = true -> collection_sizes data <> [].
Proof.
  unfold _is_collection_dict. rewrite list_count_filter.
  intros H. apply andb_prop in H. destruct H as [H _]. apply Z.ltb_lt in H.
  assert (0 < List.length (filter list_valued data))%nat as Hpos by lia.
  apply some_list_valued in Hpos. destruct Hpos as (k & l & Hin).
  intros He.
  assert (In (k, Z.of_nat (List.length l)) (collection_sizes data)) as Hs.
  { unfold collection_sizes. apply in_flat_map. exists (k, JList l).
    split; [exact Hin | left; reflexivity]. }
  rewrite He in Hs. contradiction.
Qed.

(** X6: when every collection of a collection dict is empty the parse
    returns no record, no field and an empty hierarchy, although the
    parser has recorded every collection, with the count 0, in its
    [hierarchy_map]: [detect_schema] leaves the hierarchy out when there
    is no record. *)
Theorem empty_collections_lose_hierarchy (h : HashOrder) (self : parser)
    (data : dict json) :
  Dict.wf data -> _is_collection_dict data = true ->
  collection_records data = [] ->
  exists st pd,
    json_parse h self (JDict data) = Ok (st, pd)
    /\ hierarchy_map st = collection_sizes data
    /\ hierarchy_map st <> []
    /\ (forall k n, In (k, n) (hierarchy_map st) -> n = 0)
    /\ ParsedData.get_hierarchy pd = []
    /\ ParsedData.get_records pd = []
    /\ ParsedData.get_fields pd = []
    /\ ParsedData.get_record_count pd = 0.
Proof.
  intros Hwf Hc He. unfold json_parse.
  rewrite (extract_collection self data Hwf Hc), He.
  cbn [detect_schema bind]. eexists. eexists.
  split; [reflexivity|]. cbn.
  split; [reflexivity|]. split; [apply collection_sizes_nonempty, Hc|].
  split; [|repeat split].
  intros k n Hin. unfold collection_sizes in Hin. apply in_flat_map in Hin.
  destruct Hin as ([k' v] & Hkv & Hin). cbn [fst snd] in Hin.
  destruct v as [| | | | |l|]; try contradiction.
  destruct Hin as [H|[]]. injection H as _ <-.
  destruct l as [|x l]; [reflexivity|]. exfalso.
  assert (In (collection_item k' x) (collection_records data)) as Hr.
  { unfold collection_records. apply in_flat_map. exists (k', JList (x :: l)).
    split; [exact Hkv | left; reflexivity]. }
  rewrite He in Hr. contradiction.
Qed.

Lemma empty_collections_lose_hierarchy_witness :
  exists st pd,
    json_parse insertion_order new_parser
      (JDict [("users", JList []); ("devices", JList [])]) = Ok (st, pd)
    /\ hierarchy_map st = [("users", 0); ("devices", 0)]
    /\ ParsedData.get_hierarchy pd = [].
Proof.
  destruct (empty_collections_lose_hierarchy insertion_order new_parser
              [("users", JList []); ("devices", JList [])])
    as (st & pd & Hp & Hh & _ & _ & Hpd & _).
  - unfold Dict.wf. simpl.
    constructor; [simpl; intros [H|[]]; discriminate H|].
    constructor; [intros []|constructor].
  - reflexivity.
  - reflexivity.
  - exists st, pd. split; [exact Hp|]. split; [exact Hh | exact Hpd].
Defined.

(** ** Flattened records *)

(** Induction on the depth left: a property of [_flatten_object] follows
    from the same property of the calls one level down. *)
Lemma flatten_object_ind
    (P : dict json -> string -> Z -> Z -> record -> Prop) :
  (forall obj prefix max_depth depth,
     (depth < max_depth ->
      forall d p, P d p max_depth (depth + 1)
                    (_flatten_object d p max_depth (depth + 1))) ->
     P obj prefix max_depth depth
       (fold_left (flatten_entry _flatten_object prefix max_depth depth) obj [])) ->
  forall obj prefix max_depth depth,
    P obj prefix max_depth depth (_flatten_object obj prefix max_depth depth).
Proof.
  intros Hstep obj prefix max_depth depth.
  remember (Z.to_nat (max_depth - depth)) as n eqn:Hn.
  revert obj prefix depth Hn.
  induction n as [|n IH]; intros obj prefix depth Hn;
    rewrite flatten_object_fold; apply Hstep.
  - intros Hlt. lia.
  - intros Hlt d p. apply IH. lia.
Qed.

(** A property of the record that every pair of the object preserves
    holds of the flattened object. *)
Lemma fold_entries_inv (P : record -> Prop)
    (flatten : dict json -> string -> Z -> Z -> record)
    (prefix : string) (max_depth depth : Z) (obj : dict json) :
  (forall acc e, In e obj -> P acc ->
                 P (flatten_entry flatten prefix max_depth depth acc e)) ->
  forall acc, P acc ->
    P (fold_left (flatten_entry flatten prefix max_depth depth) obj acc).
Proof.
  induction obj as [|e obj IH]; intros Hstep acc Hacc; [exact Hacc|].
  cbn [fold_left]. apply IH.
  - intros acc' e' He'. apply Hstep. right. exact He'.
  - apply Hstep; [left; reflexivity | exact Hacc].
Qed.

Lemma in_set {V : Type} (d : dict V) (k0 : string) (v0 : V) (e : string * V) :
  In e (Dict.set d k0 v0) -> e = (k0, v0) \/ In e d.
Proof.
  induction d as [|[k1 v1] d IH]; simpl.
  - intros [<-|[]]. left. reflexivity.
  - destruct (String.eqb_spec k1 k0) as [->|Hne]; simpl.
    + intros [<-|H]; auto.
    + intros [<-|H]; [auto|]. destruct (IH H); auto.
Qed.

Lemma in_update {V : Type} (other d : dict V) (e : string * V) :
  In e (Dict.update d other) -> In e d \/ In e other.
Proof.
  unfold Dict.update. revert d.
  induction other as [|[k v] other IH]; simpl; intros d H; [auto|].
  apply IH in H. destruct H as [H|H]; [|auto].
  apply in_set in H. destruct H as [->|H]; auto.
Qed.

Lemma prefix_app (p s : string) : String.prefix p (p ++ s) = true.
Proof.
  induction p as [|c p IH]; simpl; [destruct s; reflexivity|].
  destruct (ascii_dec c c); [exact IH|congruence].
Qed.

Lemma prefix_app_l (p q k : string) :
  String.prefix (p ++ q) k = true -> String.prefix p k = true.
Proof.
  revert k. induction p as [|c p IH]; intros k.
  - destruct k; reflexivity.
  - destruct k as [|d k]; simpl; [discriminate|].
    destruct (ascii_dec c d); [apply IH|discriminate].
Qed.

Lemma flatten_keys_prefix (obj : dict json) (prefix : string)
    (max_depth depth : Z) (k : string) :
  In k (Dict.keys (_flatten_object obj prefix max_depth depth)) ->
  String.prefix prefix k = true.
Proof.
  revert k.
  apply (flatten_object_ind
           (fun _ p _ _ r => forall k, In k (Dict.keys r) ->
                                       String.prefix p k = true)).
  clear. intros obj prefix max_depth depth IH.
  apply (fold_entries_inv
           (fun r => forall k, In k (Dict.keys r) -> String.prefix prefix k = true)).
  2:{ intros k []. }
  intros acc [key value] _ Hacc k Hk.
  unfold Dict.keys in Hk. apply in_map_iff in Hk. destruct Hk as ([k' v] & <- & Hin).
  cbn [fst].
  assert (forall x, In (k', v) (Dict.set acc (prefix ++ key)%string x) ->
                    String.prefix prefix k' = true) as Hset.
  { intros x Hx. apply in_set in Hx. destruct Hx as [Hx|Hx].
    - injection Hx as -> _. apply prefix_app.
    - apply Hacc. change k' with (fst (k', v)). apply in_map. exact Hx. }
  unfold flatten_entry in Hin. cbn [fst snd] in Hin.
  destruct value; try (eapply Hset; exact Hin).
  - destruct (_ || _); eapply Hset; exact Hin.
  - destruct (Z.ltb_spec depth max_depth) as [Hlt|Hge];
      [|eapply Hset; exact Hin].
    apply in_update in Hin. destruct Hin as [Hin|Hin].
    + apply Hacc. change k' with (fst (k', v)). apply in_map. exact Hin.
    + apply prefix_app_l with (q := (key ++ "_")%string).
      replace (prefix ++ key ++ "_")%string
        with ((prefix ++ key) ++ "_")%string.
      * apply (IH Hlt items ((prefix ++ key) ++ "_")%string).
        change k' with (fst (k', v)). apply in_map. exact Hin.
      * clear. induction prefix as [|c p IHp]; simpl; [reflexivity|].
        rewrite IHp. reflexivity.
Qed.

(** X7: every key of the flattened object starts with the prefix it was
    flattened with. *)
Theorem flattened_keys_start_with_prefix (obj : dict json) (prefix : string)
    (max_depth depth : Z) (k : string) :
  In k (Dict.keys (_flatten_object obj prefix max_depth depth)) ->
  String.prefix prefix k = true.
Proof.
  intros H. exact (flatten_keys_prefix obj prefix max_depth depth k H).
Qed.

Lemma flattened_keys_start_with_prefix_witness :
  String.prefix "users_" "users_profile_name" = true.
Proof.
  apply (flattened_keys_start_with_prefix
           [("profile", JDict [("name", JStr "x")])] "users_" 3 0).
  left. reflexivity.
Defined.

Lemma le_fold_max (x : nat) (l : list nat) :
  In x l -> (x <= fold_right Nat.max O l)%nat.
Proof.
  induction l as [|y l IH]; simpl; [intros []|].
  intros [->|H]; [lia|]. specialize (IH H). lia.
Qed.

Lemma dict_depth_child (items : dict json) (k : string) (v : json) :
  In (k, v) items -> (dict_depth v < dict_depth (JDict items))%nat.
Proof.
  intros Hin. cbn [dict_depth].
  assert (In (dict_depth v) (map (fun kv => dict_depth (snd kv)) items)) as H
    by (apply in_map_iff; exists (k, v); auto).
  apply le_fold_max in H. lia.
Qed.

(** An object nested no deeper than the depth left flattens to values
    that are neither lists nor dicts. *)
Lemma flatten_shallow_hashable (obj : dict json) (prefix : string)
    (max_depth depth : Z) :
  Z.of_nat (dict_depth (JDict obj)) <= max_depth - depth + 1 ->
  forall e, In e (_flatten_object obj prefix max_depth depth) ->
            hashable (snd e) = true.
Proof.
  apply (flatten_object_ind
           (fun o _ m c r =>
              Z.of_nat (dict_depth (JDict o)) <= m - c + 1 ->
              forall e, In e r -> hashable (snd e) = true)).
  clear. intros obj prefix max_depth depth IH Hd.
  apply (fold_entries_inv
           (fun r => forall e, In e r -> hashable (snd e) = true)).
  2:{ intros e []. }
  intros acc [key value] Hkv Hacc e He.
  assert (forall x, hashable x = true ->
                    In e (Dict.set acc (prefix ++ key)%string x) ->
                    hashable (snd e) = true) as Hset.
  { intros x Hx Hin. apply in_set in Hin.
    destruct Hin as [->|Hin]; [exact Hx | apply Hacc, Hin]. }
  pose proof (dict_depth_child obj key value Hkv) as Hlt.
  unfold flatten_entry in He. cbn [fst snd] in He.
  destruct value; try (eapply Hset; [|exact He]; reflexivity).
  - destruct (_ || _); (eapply Hset; [|exact He]; reflexivity).
  - destruct (Z.ltb_spec depth max_depth) as [Hc|Hc].
    + apply in_update in He. destruct He as [He|He]; [apply Hacc, He|].
      apply (IH Hc items ((prefix ++ key) ++ "_")%string); [lia | exact He].
    + exfalso. cbn [dict_depth] in Hlt. cbn [dict_depth] in Hd. lia.
Qed.

Lemma flatten_no_list (obj : dict json) (prefix : string)
    (max_depth depth : Z) :
  forall e, In e (_flatten_object obj prefix max_depth depth) ->
            is_list (snd e) = false.
Proof.
  apply (flatten_object_ind
           (fun _ _ _ _ r => forall e, In e r -> is_list (snd e) = false)).
  clear. intros obj prefix max_depth depth IH.
  apply (fold_entries_inv
           (fun r => forall e, In e r -> is_list (snd e) = false)).
  2:{ intros e []. }
  intros acc [key value] _ Hacc e He.
  assert (forall x, is_list x = false ->
                    In e (Dict.set acc (prefix ++ key)%string x) ->
                    is_list (snd e) = false) as Hset.
  { intros x Hx Hin. apply in_set in Hin.
    destruct Hin as [->|Hin]; [exact Hx | apply Hacc, Hin]. }
  unfold flatten_entry in He. cbn [fst snd] in He.
  destruct value; try (eapply Hset; [|exact He]; reflexivity).
  - destruct (_ || _); (eapply Hset; [|exact He]; reflexivity).
  - destruct (Z.ltb_spec depth max_depth) as [Hc|Hc].
    + apply in_update in He. destruct He as [He|He]; [apply Hacc, He|].
      exact (IH Hc items ((prefix ++ key) ++ "_")%string e He).
    + eapply Hset; [|exact He]. reflexivity.
Qed.

(** X8: no value of a flattened object is a list: a list met while
    flattening always becomes a text. *)
Theorem flattened_values_are_never_lists (obj : dict json) (prefix : string)
    (max_depth depth : Z) (k : string) (v : json) :
  In (k, v) (_flatten_object obj prefix max_depth depth) ->
  is_list v = false.
Proof.
  intros H. exact (flatten_no_list obj prefix max_depth depth (k, v) H).
Qed.

Lemma flattened_values_are_never_lists_witness :
  is_list (JStr "1, 2") = false.
Proof.
  apply (flattened_values_are_never_lists
           [("a", JDict [("b", JList [JInt 1; JInt 2])])] EmptyString 3 0
           "a_b" (JStr "1, 2")).
  left. reflexivity.
Defined.

Lemma shallow_hashable (v : json) :
  shallow v = true -> is_dict v = false -> hashable v = true.
Proof. destruct v; simpl; intros H1 H2; congruence. Qed.

Lemma shallow_item_hashable (item : json) (prefix : string) :
  shallow item = true ->
  forall e,
    In e (match item with
          | JDict d => flatten_object d prefix
          | _ => [("value", item)]
          end) ->
    hashable (snd e) = true.
Proof.
  intros Hs e He. destruct item; try discriminate Hs;
    try (destruct He as [<-|[]]; reflexivity).
  unfold flatten_object in He.
  eapply flatten_shallow_hashable; [|exact He].
  unfold shallow in Hs. apply Nat.leb_le in Hs. lia.
Qed.

Lemma shallow_collection_item_hashable (k : string) (item : json) :
  shallow item = true ->
  forall e, In e (collection_item k item) -> hashable (snd e) = true.
Proof.
  intros Hs e He. destruct item; try discriminate Hs;
    try (destruct He as [<-|[<-|[]]]; reflexivity).
  unfold collection_item in He. apply in_set in He.
  destruct He as [->|He]; [reflexivity|].
  unfold flatten_object in He.
  eapply flatten_shallow_hashable; [|exact He].
  unfold shallow in Hs. apply Nat.leb_le in Hs. lia.
Qed.

Lemma shallow_document_hashable (self : parser) (raw_data : json) :
  shallow_document raw_data = true ->
  all_hashable (snd (_extract_records self raw_data)) = true.
Proof.
  intros Hs. unfold all_hashable. apply forallb_forall. intros r Hr.
  apply forallb_forall. intros e He.
  destruct raw_data as [| | | | |l|d];
    try (destruct Hr as [<-|[]]; destruct He as [<-|[]]; reflexivity).
  - cbn [_extract_records snd] in Hr. unfold _flatten_records in Hr.
    apply in_map_iff in Hr. destruct Hr as (x & <- & Hx).
    cbn [shallow_document] in Hs. rewrite forallb_forall in Hs.
    exact (shallow_item_hashable x EmptyString (Hs x Hx) e He).
  - cbn [shallow_document] in Hs.
    destruct (_is_collection_dict d) eqn:Hc.
    + rewrite (extract_records_collection self d Hc) in Hr.
      unfold collection_records in Hr. apply in_flat_map in Hr.
      destruct Hr as ([k v] & Hkv & Hr). cbn [fst snd] in Hr.
      rewrite forallb_forall in Hs. specialize (Hs (k, v) Hkv). cbn [snd] in Hs.
      destruct v; try contradiction.
      apply in_map_iff in Hr. destruct Hr as (x & <- & Hx).
      rewrite forallb_forall in Hs.
      exact (shallow_collection_item_hashable k x (Hs x Hx) e He).
    + unfold _extract_records in Hr. rewrite Hc in Hr. cbn [snd] in Hr.
      destruct Hr as [<-|[]].
      exact (shallow_item_hashable (JDict d) EmptyString Hs e He).
Qed.

(** X9: a document parses without an exception when its records are made
    of shallow items: the elements of a top-level array, the items of the
    collections of a collection dict, or the top-level object itself, are
    not lists and nest objects at most four deep. *)
Theorem shallow_documents_parse (h : HashOrder) (self : parser)
    (raw_data : json) :
  shallow_document raw_data = true ->
  exists st pd, json_parse h self raw_data = Ok (st, pd).
Proof.
  intros Hs.
  pose proof (shallow_document_hashable self raw_data Hs) as Hh.
  pose proof (extract_records_wf self raw_data) as Hwf.
  unfold json_parse.
  destruct (_extract_records self raw_data) as [st recs]. cbn [snd] in *.
  pose proof (detect_schema_outcome h st recs Hwf) as H.
  destruct (detect_schema h st recs) as [s|e]; cbn [bind].
  - eexists. eexists. reflexivity.
  - destruct H as [H _]. congruence.
Qed.

Lemma shallow_documents_parse_witness :
  shallow_document four_deep_document = true
  /\ snd (_extract_records new_parser four_deep_document)
     = [ [("a_b_c_d", JInt 1); ("a_b_c_tags", JStr "[[1], null]");
          ("id", JInt 7)];
         [("value", JStr "x")] ]
  /\ exists st pd,
       json_parse reverse_order new_parser four_deep_document = Ok (st, pd).
Proof.
  split; [reflexivity|]. split; [reflexivity|].
  apply (shallow_documents_parse reverse_order new_parser). reflexivity.
Defined.

Lemma fold_flat_entries (obj : dict json) (max_depth depth : Z)
    (flatten : dict json -> string -> Z -> Z -> record) :
  forall acc : record,
    NoDup (Dict.keys acc ++ Dict.keys obj) ->
    forallb (fun kv => is_scalar (snd kv)) obj = true ->
    fold_left (flatten_entry flatten EmptyString max_depth depth) obj acc
    = (acc ++ obj)%list.
Proof.
  induction obj as [|[k v] obj IH]; intros acc Hnd Hsc.
  - rewrite app_nil_r. reflexivity.
  - cbn [forallb snd] in Hsc. apply andb_prop in Hsc. destruct Hsc as [Hv Hsc].
    cbn [fold_left].
    assert (flatten_entry flatten EmptyString max_depth depth acc (k, v)
            = (acc ++ [(k, v)])%list) as ->.
    { unfold flatten_entry. cbn [fst snd append].
      assert (~ In k (Dict.keys acc)) as Hk.
      { intros Hin. cbn [Dict.keys map fst] in Hnd.
        apply NoDup_remove_2 in Hnd. apply Hnd, in_app_iff. left. exact Hin. }
      destruct v; try discriminate Hv; apply set_fresh; exact Hk. }
    rewrite IH; [rewrite <- app_assoc; reflexivity | | exact Hsc].
    unfold Dict.keys in *. rewrite map_app, <- app_assoc. exact Hnd.
Qed.

(** X10: flattening with the empty prefix leaves unchanged an object
    whose values are all scalars. *)
Theorem flat_object_is_unchanged (obj : dict json) (max_depth depth : Z) :
  Dict.wf obj ->
  forallb (fun kv => is_scalar (snd kv)) obj = true ->
  _flatten_object obj EmptyString max_depth depth = obj.
Proof.
  intros Hwf Hsc. rewrite flatten_object_fold.
  rewrite fold_flat_entries; [reflexivity | exact Hwf | exact Hsc].
Qed.

Lemma flat_object_is_unchanged_witness :
  _flatten_object [("name", JStr "John"); ("age", JInt 30); ("x", JNone)]
                  EmptyString 3 0
  = [("name", JStr "John"); ("age", JInt 30); ("x", JNone)].
Proof.
  apply (flat_object_is_unchanged
           [("name", JStr "John"); ("age", JInt 30); ("x", JNone)] 3 0).
  - unfold Dict.wf. simpl.
    repeat constructor; simpl; intros H;
      repeat (destruct H as [H|H]; [discriminate H|]); exact H.
  - reflexivity.
Defined.

Lemma keys_set {V : Type} (d : dict V) (k0 : string) (v0 : V) (f : string) :
  In f (Dict.keys (Dict.set d k0 v0)) -> f = k0 \/ In f (Dict.keys d).
Proof.
  unfold Dict.keys. intros H. apply in_map_iff in H.
  destruct H as (e & <- & He). apply in_set in He.
  destruct He as [->|He]; [left; reflexivity | right; apply in_map, He].
Qed.

(** X11: every record of a collection dict carries, under
    [_entity_type], the name of a list-valued key of the dict, and each of
    its other fields is [value] or starts with that name and an
    underscore. *)
Theorem collection_records_are_tagged (self : parser) (data : dict json)
    (r : record) :
  _is_collection_dict data = true ->
  In r (snd (_extract_records self (JDict data))) ->
  exists k l,
    In (k, JList l) data
    /\ Dict.get r "_entity_type" = Some (JStr k)
    /\ forall f, In f (Dict.keys r) ->
         f = "_entity_type" \/ f = "value"
         \/ String.prefix (k ++ "_") f = true.
Proof.
  intros Hc Hr. rewrite (extract_records_collection self data Hc) in Hr.
  unfold collection_records in Hr. apply in_flat_map in Hr.
  destruct Hr as ([k v] & Hkv & Hr). cbn [fst snd] in Hr.
  destruct v as [| | | | |l|]; try contradiction.
  apply in_map_iff in Hr. destruct Hr as (x & <- & Hx).
  exists k, l. split; [exact Hkv|].
  destruct x;
    try (split; [reflexivity|];
         intros f [<-|[<-|[]]]; [left | right; left]; reflexivity).
  unfold collection_item. split.
  - rewrite get_set, String.eqb_refl. reflexivity.
  - intros f Hf. apply keys_set in Hf. destruct Hf as [->|Hf]; [auto|].
    right. right. unfold flatten_object in Hf.
    eapply flatten_keys_prefix. exact Hf.
Qed.

Lemma collection_records_are_tagged_witness :
  exists k l,
    In (k, JList l) two_collections
    /\ Dict.get [("users_id", JInt 1); ("_entity_type", JStr "users")]
                "_entity_type" = Some (JStr k)
    /\ forall f,
         In f (Dict.keys [("users_id", JInt 1); ("_entity_type", JStr "users")]) ->
         f = "_entity_type" \/ f = "value"
         \/ String.prefix (k ++ "_") f = true.
Proof.
  apply (collection_records_are_tagged new_parser two_collections).
  - reflexivity.
  - left. reflexivity.
Defined.

(** ** White space around a text *)

Lemma rstrip_idem (sp : ascii -> bool) (s : string) :
  rstrip_with sp (rstrip_with sp s) = rstrip_with sp s.
Proof.
  induction s as [|c r IH]; [reflexivity|]. cbn [rstrip_with].
  destruct (rstrip_with sp r) as [|d r'] eqn:Hr.
  - destruct (sp c) eqn:Hc; [reflexivity|]. cbn [rstrip_with]. rewrite Hc.
    reflexivity.
  - cbn [rstrip_with] in IH |- *. rewrite IH. reflexivity.
Qed.

Lemma rstrip_head (sp : ascii -> bool) (c : ascii) (r : string) :
  sp c = false -> exists r', rstrip_with sp (String c r) = String c r'.
Proof.
  intros Hc. cbn [rstrip_with].
  destruct (rstrip_with sp r) as [|d r']; [rewrite Hc|]; eauto.
Qed.

Lemma lstrip_head (sp : ascii -> bool) (s : string) :
  lstrip_with sp s = EmptyString
  \/ exists c r, lstrip_with sp s = String c r /\ sp c = false.
Proof.
  induction s as [|c r IH]; [left; reflexivity|]. cbn [lstrip_with].
  destruct (sp c) eqn:Hc; [exact IH|]. right. eauto.
Qed.

Lemma strip_idem (sp : ascii -> bool) (s : string) :
  strip_with sp (strip_with sp s) = strip_with sp s.
Proof.
  unfold strip_with.
  assert (lstrip_with sp (rstrip_with sp (lstrip_with sp s))
          = rstrip_with sp (lstrip_with sp s)) as ->.
  { destruct (lstrip_head sp s) as [->|(c & r & -> & Hc)]; [reflexivity|].
    destruct (rstrip_head sp c r Hc) as (r' & ->).
    cbn [lstrip_with]. rewrite Hc. reflexivity. }
  apply rstrip_idem.
Qed.

(** X12: the type of a text does not depend on the white space around
    it. *)
Theorem infer_type_ignores_surrounding_space (s : string) :
  infer_type (PJson (JStr s)) = infer_type (PJson (JStr (strip s))).
Proof.
  unfold infer_type, infer_text.
  cbn [is_None isinstance_str isinstance_bool isinstance_int isinstance_float
       isinstance_datetime py_str str orb andb].
  unfold strip. rewrite strip_idem. reflexivity.
Qed.

(** ** The type of a column *)

Lemma tally_classes_from (cls : list DataType) :
  forall acc : Counter * Z,
    fst (fold_left (fun acc t =>
                      if DataType_eqb t NULL then (fst acc, snd acc + 1)
                      else (counter_incr (fst acc) t, snd acc)) cls acc)
    = fst (fold_left (fun acc t =>
                        if DataType_eqb t NULL then (fst acc, snd acc + 1)
                        else (counter_incr (fst acc) t, snd acc))
                     (filter (fun t => negb (DataType_eqb t NULL)) cls)
                     (fst acc, 0)).
Proof.
  induction cls as [|t cls IH]; intros acc; [reflexivity|].
  cbn [fold_left filter]. destruct (DataType_eqb t NULL) eqn:Et; cbn [negb].
  - rewrite IH. reflexivity.
  - cbn [fold_left]. rewrite Et. rewrite IH. cbn [fst]. reflexivity.
Qed.

Lemma classes_filter (values : list pyobj) :
  classes (filter non_null values)
  = filter (fun t => negb (DataType_eqb t NULL)) (classes values).
Proof.
  unfold classes, non_null.
  induction values as [|v values IH]; [reflexivity|]. cbn [filter map].
  destruct (DataType_eqb (infer_type v) NULL); cbn [negb map]; rewrite IH;
    reflexivity.
Qed.

Lemma filter_idem {A : Type} (p : A -> bool) (l : list A) :
  filter p (filter p l) = filter p l.
Proof.
  induction l as [|x l IH]; [reflexivity|]. simpl.
  destruct (p x) eqn:Hx; simpl; rewrite ?Hx, IH; reflexivity.
Qed.

Lemma tally_filter (values : list pyobj) :
  fst (tally (filter non_null values)) = fst (tally values).
Proof.
  rewrite !tally_as_classes. unfold tally_classes.
  rewrite (tally_classes_from (classes values)).
  rewrite (tally_classes_from (classes (filter non_null values))).
  rewrite classes_filter, filter_idem. reflexivity.
Qed.

Lemma count_occ_filter (cls : list DataType) (t : DataType) :
  t <> NULL ->
  count_occ DataType_eq_dec (filter (fun x => negb (DataType_eqb x NULL)) cls) t
  = count_occ DataType_eq_dec cls t.
Proof.
  intros Hne. induction cls as [|x cls IH]; [reflexivity|]. cbn [filter].
  destruct (DataType_eqb x NULL) eqn:Ex; cbn [negb count_occ].
  - apply DataType_eqb_eq in Ex. subst x.
    destruct (DataType_eq_dec NULL t); [congruence|exact IH].
  - destruct (DataType_eq_dec x t); rewrite IH; reflexivity.
Qed.

(** X13: the values that classify as NULL have no part in the type of a
    column that has other values: the column without them has the same
    type. *)
Theorem nulls_do_not_change_column_type (values : list pyobj)
    (threshold : float) :
  0 < non_null_total values ->
  infer_column_type (filter non_null values) threshold
  = infer_column_type values threshold.
Proof.
  intros Hpos.
  assert (values <> []) as Hne by (intros ->; vm_compute in Hpos; discriminate).
  assert (non_null_total (filter non_null values) = non_null_total values) as Ht.
  { unfold non_null_total. rewrite classes_filter, filter_idem. reflexivity. }
  assert (filter non_null values <> []) as Hne'.
  { intros He. rewrite He in Ht. rewrite <- Ht in Hpos.
    vm_compute in Hpos. discriminate. }
  pose proof (infer_column_type_cases values threshold Hne) as H.
  pose proof (infer_column_type_cases _ threshold Hne') as H'.
  unfold most_common_type in *. rewrite tally_filter in H'.
  destruct (option_map fst (most_common_1 (fst (tally values)))) as [most|].
  - destruct H as (_ & Hnn & _ & _ & _ & ->).
    destruct H' as (_ & _ & _ & _ & _ & ->).
    unfold decide_column. rewrite Ht.
    assert (forall t, t <> NULL ->
              count_type (filter non_null values) t = count_type values t) as Hc.
    { intros t Hn. unfold count_type. rewrite classes_filter.
      rewrite count_occ_filter by exact Hn. reflexivity. }
    assert (forall t, t <> NULL ->
              appears (filter non_null values) t = appears values t) as Ha.
    { intros t Hn. apply eq_true_iff_eq. rewrite !appears_In, classes_filter.
      rewrite filter_In. split; [tauto|]. intros Hin. split; [exact Hin|].
      apply negb_true_iff, DataType_eqb_neq, Hn. }
    rewrite (Hc most Hnn), !Ha by discriminate. reflexivity.
  - destruct H as [_ ->]. destruct H' as [_ ->]. reflexivity.
Qed.

Lemma nulls_do_not_change_column_type_witness :
  infer_column_type (filter non_null tied_column) 0.5%float
  = infer_column_type tied_column 0.5%float.
Proof.
  apply (nulls_do_not_change_column_type tied_column 0.5%float). reflexivity.
Defined.

(** X14: a column gets the type INTEGER, BOOLEAN or DATETIME only when
    that type is its most common one and its share of the non-null values
    reaches the threshold; it gets NULL only when every value classifies as
    NULL. *)
Theorem column_type_needs_agreement (values : list pyobj) (threshold : float)
    (t : DataType) :
  infer_column_type values threshold = t ->
  (t = INTEGER \/ t = BOOLEAN \/ t = DATETIME ->
   most_common_type values = Some t
   /\ PrimFloat.leb threshold
        (true_div (count_type values t) (non_null_total values)) = true)
  /\ (t = NULL -> values <> [] /\ forall v, In v values -> infer_type v = NULL).
Proof.
  intros Hres.
  destruct values as [|v0 values].
  { simpl in Hres. subst t. split; [intros [H|[H|H]]|intros H]; discriminate H. }
  assert (v0 :: values <> []) as Hne by discriminate.
  pose proof (infer_column_type_cases (v0 :: values) threshold Hne) as H.
  destruct (most_common_type (v0 :: values)) as [most|].
  - destruct H as (_ & Hnn & _ & _ & _ & Hdec). rewrite Hdec in Hres.
    unfold decide_column in Hres.
    destruct (PrimFloat.leb threshold _) eqn:El.
    + subst most. split; [intros _; split; [reflexivity | exact El]|].
      intros ->. congruence.
    + destruct (appears _ INTEGER && appears _ FLOAT); subst t;
        (split; [intros [H|[H|H]]|intros H]; discriminate H).
  - destruct H as [Hall Hnull]. rewrite Hnull in Hres. subst t.
    split; [intros [H|[H|H]]; discriminate H|]. intros _. split; [exact Hne|].
    intros v Hv. apply Hall. unfold classes. apply in_map. exact Hv.
Qed.

Lemma column_type_needs_agreement_witness :
  most_common_type (map PJson [JInt 1; JInt 2; JInt 3; JInt 4; JStr "x"])
  = Some INTEGER
  /\ PrimFloat.leb default_threshold
       (true_div
          (count_type (map PJson [JInt 1; JInt 2; JInt 3; JInt 4; JStr "x"]) INTEGER)
          (non_null_total (map PJson [JInt 1; JInt 2; JInt 3; JInt 4; JStr "x"])))
     = true.
Proof.
  apply (column_type_needs_agreement
           (map PJson [JInt 1; JInt 2; JInt 3; JInt 4; JStr "x"])
           default_threshold INTEGER).
  - reflexivity.
  - left. reflexivity.
Defined.

(** ** The validator and the parser factory *)

Ltac one_message :=
  cbn [fst snd Validator.append_error Validator.file_path
       Validator.file_format Validator.validation_errors];
  repeat split; try reflexivity; try assumption;
  intros H; try discriminate H; eexists; reflexivity.

Lemma check_file_exists_step (os : Validator.file_system) :
  one_message_check (Validator._check_file_exists os).
Proof.
  intros self. unfold Validator._check_file_exists.
  destruct (negb (Validator.path_exists (os (Validator.path_of self))));
    [one_message|].
  destruct (negb (Validator.path_isfile (os (Validator.path_of self))));
    [one_message|].
  destruct (negb (Validator.path_readable (os (Validator.path_of self))));
    one_message.
Qed.

Lemma check_file_size_step (os : Validator.file_system) :
  one_message_check (Validator._check_file_size os).
Proof.
  intros self. unfold Validator._check_file_size.
  destruct (Validator.MAX_FILE_SIZE
            <? Validator.path_getsize (os (Validator.path_of self)));
    one_message.
Qed.

Lemma check_not_empty_step (os : Validator.file_system) :
  one_message_check (Validator._check_not_empty os).
Proof.
  intros self. unfold Validator._check_not_empty.
  destruct (Validator.path_getsize (os (Validator.path_of self)) =? 0);
    one_message.
Qed.

Lemma validate_structure_step (os : Validator.file_system) :
  one_message_check (Validator._validate_structure os).
Proof.
  intros self. unfold Validator._validate_structure.
  destruct (Validator.file_format self) eqn:Ef.
  - unfold Validator._validate_json_structure.
    destruct (Validator.load_json (os (Validator.path_of self))) as [data| | |];
      try (one_message).
    destruct (negb (Validator.truthy data)); [one_message|].
    destruct (negb (is_dict data || is_list data)); one_message.
  - unfold Validator._validate_csv_structure.
    destruct (Validator.read_csv (os (Validator.path_of self)))
      as [[|header [|row rows]]| | |];
      try (one_message);
      destruct ((match header with [] => true | _ :: _ => false end)
                || forallb Validator.blank header);
      one_message.
  - one_message.
Qed.

(** X15: [validate_file] records the path; when it succeeds it returns
    no error, the validator holds none, and the format returned is the
    one detected, JSON or CSV, for which [create_parser] builds a parser;
    when it fails it returns exactly one message, the one the validator
    holds. *)
Theorem validation_result_shape (os : Validator.file_system)
    (self : Validator.t) (path : string) :
  let r := Validator.validate_file os self path in
  let ok := fst (fst (snd r)) in
  let fmt := snd (fst (snd r)) in
  let errs := snd (snd r) in
  Validator.file_path (fst r) = Some path
  /\ (ok = true ->
      errs = [] /\ Validator.validation_errors (fst r) = []
      /\ fmt = Validator.file_format (fst r)
      /\ fmt <> Validator.UNKNOWN
      /\ exists p, Validator.create_parser fmt = Ok p)
  /\ (ok = false ->
      exists msg, errs = [msg] /\ Validator.validation_errors (fst r) = [msg]).
Proof.
  cbv zeta. unfold Validator.validate_file.
  set (s0 := Validator.mk (Some path) (Validator.file_format self) []).
  destruct (check_file_exists_step os s0) as (P1 & _ & T1 & E1).
  destruct (Validator._check_file_exists os s0) as [s1 [|]]; cbn [fst snd negb] in *.
  2:{ destruct (E1 eq_refl) as (msg & Hm). rewrite P1.
      split; [reflexivity|]. split; [discriminate|]. intros _. exists msg.
      split; exact Hm. }
  rewrite (T1 eq_refl). clear s1 P1 T1 E1.
  destruct (check_file_size_step os s0) as (P2 & _ & T2 & E2).
  destruct (Validator._check_file_size os s0) as [s2 [|]]; cbn [fst snd negb] in *.
  2:{ destruct (E2 eq_refl) as (msg & Hm). rewrite P2.
      split; [reflexivity|]. split; [discriminate|]. intros _. exists msg.
      split; exact Hm. }
  rewrite (T2 eq_refl). clear s2 P2 T2 E2.
  cbn [Validator.file_path Validator.file_format Validator.validation_errors s0].
  set (fmt := Validator._detect_format s0).
  set (s3 := Validator.mk (Some path) fmt []).
  destruct (check_not_empty_step os s3) as (P3 & F3 & T3 & E3).
  destruct (validate_structure_step os s3) as (P4 & F4 & T4 & E4).
  assert (forall f, f <> Validator.UNKNOWN ->
                    exists p, Validator.create_parser f = Ok p) as Hcreate.
  { intros [] Hf; [eexists; reflexivity .. | congruence]. }
  destruct fmt eqn:Ef;
    try (cbn [fst snd Validator.append_error Validator.file_path
              Validator.validation_errors app];
         split; [reflexivity|]; split; [discriminate|]; intros _;
         eexists; split; reflexivity);
    (destruct (Validator._check_not_empty os s3) as [s4 [|]];
     cbn [fst snd negb] in *;
     [ rewrite (T3 eq_refl);
       destruct (Validator._validate_structure os s3) as [s5 [|]];
       cbn [fst snd negb] in *;
       [ rewrite (T4 eq_refl); cbn [s3 Validator.file_path
                                    Validator.file_format
                                    Validator.validation_errors];
         split; [reflexivity|]; split; [|discriminate]; intros _;
         repeat split; try discriminate; apply Hcreate; discriminate
       | destruct (E4 eq_refl) as (msg & Hm); rewrite P4;
         split; [reflexivity|]; split; [discriminate|]; intros _; exists msg;
         split; exact Hm ]
     | destruct (E3 eq_refl) as (msg & Hm); rewrite P3;
       split; [reflexivity|]; split; [discriminate|]; intros _; exists msg;
       split; exact Hm ]).
Qed.

(** X16: when [validate_file] succeeds, the path exists, is a readable
    file, is not empty and is not over the size limit; for the format JSON
    the extension is [.json] in some case and the file decodes to an
    object or an array that is not empty; for CSV the extension is [.csv],
    the header has a cell that is not blank and a data row follows it. *)
Theorem validated_file_guarantees (os : Validator.file_system)
    (self : Validator.t) (path : string) :
  fst (fst (snd (Validator.validate_file os self path))) = true ->
  let v := os path in
  Validator.path_exists v = true /\ Validator.path_isfile v = true
  /\ Validator.path_readable v = true
  /\ Validator.path_getsize v <> 0
  /\ Validator.path_getsize v <= Validator.MAX_FILE_SIZE
  /\ match snd (fst (snd (Validator.validate_file os self path))) with
     | Validator.JSON =>
         lower (Validator.extension path) = ".json"
         /\ exists data,
              Validator.load_json v = Validator.JsonData data
              /\ ((exists e d, data = JDict (e :: d))
                  \/ (exists x l, data = JList (x :: l)))
     | Validator.CSV =>
         lower (Validator.extension path) = ".csv"
         /\ exists header row rows,
              Validator.read_csv v = Validator.CsvRows (header :: row :: rows)
              /\ existsb (fun cell => negb (Validator.blank cell)) header = true
     | Validator.UNKNOWN => False
     end.
Proof.
  cbv zeta. unfold Validator.validate_file.
  set (s0 := Validator.mk (Some path) (Validator.file_format self) []).
  unfold Validator._check_file_exists, Validator._check_file_size.
  cbv zeta. change (Validator.path_of s0) with path.
  destruct (Validator.path_exists (os path)); cbn [negb fst snd];
    [|discriminate].
  destruct (Validator.path_isfile (os path)); cbn [negb fst snd];
    [|discriminate].
  destruct (Validator.path_readable (os path)); cbn [negb fst snd];
    [|discriminate].
  change (Validator.path_of s0) with path.
  destruct (Z.ltb_spec Validator.MAX_FILE_SIZE
                       (Validator.path_getsize (os path))) as [Hbig|Hsize];
    cbn [negb fst snd]; [discriminate|].
  cbn [Validator.file_path Validator.file_format Validator.validation_errors s0].
  unfold Validator._detect_format. change (Validator.path_of s0) with path.
  destruct (String.eqb_spec (lower (Validator.extension path)) ".json")
    as [Hj|Hj].
  - unfold Validator._check_not_empty, Validator.path_of.
    cbn [Validator.file_path].
    destruct (Z.eqb_spec (Validator.path_getsize (os path)) 0) as [H0|H0];
      cbn [negb fst snd]; [discriminate|].
    unfold Validator._validate_structure, Validator._validate_json_structure,
      Validator.path_of.
    cbn [Validator.file_path Validator.file_format].
    destruct (Validator.load_json (os path)) as [data| | |];
      cbn [negb fst snd]; try discriminate.
    destruct (Validator.truthy data) eqn:Ht; cbn [negb fst snd];
      [|discriminate].
    destruct (is_dict data || is_list data) eqn:Hd; cbn [negb fst snd];
      [|discriminate].
    intros _. repeat split; try assumption. exists data. split; [reflexivity|].
    destruct data as [| | | | |[|x l]|[|e d]]; try discriminate; eauto.
  - destruct (String.eqb_spec (lower (Validator.extension path)) ".csv")
      as [Hc|Hc]; [|cbn [fst snd]; discriminate].
    unfold Validator._check_not_empty, Validator.path_of.
    cbn [Validator.file_path].
    destruct (Z.eqb_spec (Validator.path_getsize (os path)) 0) as [H0|H0];
      cbn [negb fst snd]; [discriminate|].
    unfold Validator._validate_structure, Validator._validate_csv_structure,
      Validator.path_of.
    cbn [Validator.file_path Validator.file_format].
    destruct (Validator.read_csv (os path)) as [[|header [|row rows]]| | |];
      cbn [negb fst snd]; try discriminate;
      destruct ((match header with [] => true | _ :: _ => false end)
                || forallb Validator.blank header) eqn:Hh;
      cbn [negb fst snd]; try discriminate.
    intros _. repeat split; try assumption. exists header, row, rows.
    split; [reflexivity|].
    apply orb_false_iff in Hh. destruct Hh as [_ Hh].
    clear - Hh. induction header as [|c header IH]; [discriminate|].
    cbn [forallb existsb] in *.
    destruct (Validator.blank c); cbn [negb andb orb] in *;
      [apply IH, Hh | reflexivity].
Qed.

Lemma validated_file_guarantees_witness :
  Validator.path_getsize (one_json_file "data/users.JSON") <> 0
  /\ Validator.validate_input_file one_json_file "data/users.JSON"
     = (true, Validator.JSON, []).
Proof.
  split; [|reflexivity].
  apply (validated_file_guarantees one_json_file Validator.init
                                   "data/users.JSON").
  reflexivity.
Defined.

(** X17: when the path is missing, is not a readable file or is over the
    size limit, [validate_file] returns the format UNKNOWN and one message
    but leaves the validator's own [file_format] as the previous call set
    it. *)
Theorem early_failure_keeps_old_format (os : Validator.file_system)
    (self : Validator.t) (path : string) :
  Validator.path_exists (os path) = false
  \/ Validator.path_isfile (os path) = false
  \/ Validator.path_readable (os path) = false
  \/ Validator.MAX_FILE_SIZE < Validator.path_getsize (os path) ->
  let r := Validator.validate_file os self path in
  fst (fst (snd r)) = false
  /\ snd (fst (snd r)) = Validator.UNKNOWN
  /\ Validator.file_format (fst r) = Validator.file_format self.
Proof.
  intros Hfail. cbv zeta. unfold Validator.validate_file.
  set (s0 := Validator.mk (Some path) (Validator.file_format self) []).
  unfold Validator._check_file_exists, Validator._check_file_size.
  cbv zeta. change (Validator.path_of s0) with path.
  destruct (Validator.path_exists (os path)); cbn [negb fst snd];
    [|repeat split].
  destruct (Validator.path_isfile (os path)); cbn [negb fst snd];
    [|repeat split].
  destruct (Validator.path_readable (os path)); cbn [negb fst snd];
    [|repeat split].
  change (Validator.path_of s0) with path.
  destruct (Z.ltb_spec Validator.MAX_FILE_SIZE
                       (Validator.path_getsize (os path))) as [Hbig|Hsize];
    cbn [negb fst snd]; [repeat split|].
  exfalso. destruct Hfail as [H|[H|[H|H]]]; try discriminate H. lia.
Qed.

Lemma early_failure_keeps_old_format_witness :
  let after_good := fst (Validator.validate_file one_json_file Validator.init
                                                 "data/users.JSON") in
  let r := Validator.validate_file one_json_file after_good "missing.csv" in
  Validator.file_format after_good = Validator.JSON
  /\ snd (fst (snd r)) = Validator.UNKNOWN
  /\ Validator.file_format (fst r) = Validator.JSON.
Proof.
  cbv zeta. split; [reflexivity|].
  destruct (early_failure_keeps_old_format one_json_file
              (fst (Validator.validate_file one_json_file Validator.init
                                            "data/users.JSON"))
              "missing.csv") as (_ & Hu & Hf).
  - left. reflexivity.
  - split; [exact Hu|]. rewrite Hf. reflexivity.
Defined.

Lemma rev_chars_spec (s : string) :
  forall acc,
    Validator.rev_chars s acc = (rev (list_ascii_of_string s) ++ acc)%list.
Proof.
  induction s as [|c s IH]; intros acc; [reflexivity|].
  cbn [Validator.rev_chars list_ascii_of_string rev]. rewrite IH.
  rewrite <- app_assoc. reflexivity.
Qed.

Lemma list_ascii_of_string_app (s1 s2 : string) :
  list_ascii_of_string (s1 ++ s2)
  = (list_ascii_of_string s1 ++ list_ascii_of_string s2)%list.
Proof.
  induction s1 as [|c s1 IH]; [reflexivity|]. simpl. rewrite IH. reflexivity.
Qed.

Lemma span_ext_run (l rest : list ascii) :
  forallb ext_char l = true ->
  Validator.span_ext (l ++ "."%char :: rest) = (l, "."%char :: rest).
Proof.
  induction l as [|c l IH]; [reflexivity|]. cbn [forallb app].
  intros H. apply andb_prop in H. destruct H as [Hc Hl].
  cbn [Validator.span_ext]. unfold ext_char in Hc.
  apply negb_true_iff in Hc. rewrite Hc, (IH Hl). reflexivity.
Qed.

Lemma forallb_rev_chars (e : string) :
  sall ext_char e = true ->
  forallb ext_char (rev (list_ascii_of_string e)) = true.
Proof.
  intros H. apply forallb_forall. intros c Hc. apply in_rev in Hc.
  revert H Hc. induction e as [|d e IH]; [intros _ []|].
  cbn [sall list_ascii_of_string]. intros H [<-|Hc];
    apply andb_prop in H; destruct H as [Hd He]; [exact Hd | apply IH; assumption].
Qed.

(** the text from the last dot, for a path that ends in a dot and a
    suffix and has [before] in front of them *)
Lemma extension_of (before e : string) :
  sall ext_char e = true ->
  Validator.extension (before ++ String "." e)
  = if Validator.has_stem (rev (list_ascii_of_string before))
    then String "." e else EmptyString.
Proof.
  intros He. unfold Validator.extension.
  rewrite rev_chars_spec, app_nil_r, list_ascii_of_string_app.
  cbn [list_ascii_of_string]. rewrite rev_app_distr. cbn [rev].
  rewrite <- app_assoc. cbn [app].
  rewrite (span_ext_run _ _ (forallb_rev_chars e He)).
  rewrite rev_involutive, string_of_list_ascii_of_string. reflexivity.
Qed.

Lemma detect_format_suffix (e : string) :
  (if String.eqb (lower (String "." e)) ".json" then Validator.JSON
   else if String.eqb (lower (String "." e)) ".csv" then Validator.CSV
   else Validator.UNKNOWN)
  = format_of_suffix e.
Proof. reflexivity. Qed.

(** X18: [_detect_format] reads the format off the text after the last
    dot of the path, whatever its case, when a character that is neither a
    dot nor a separator stands right before that dot; a name that begins
    with its only dot, alone or after a directory, has no extension and
    the format UNKNOWN. *)
Theorem detect_format_by_extension (self : Validator.t)
    (dir : string) (c : ascii) (e : string) :
  ext_char c = true -> sall ext_char e = true ->
  let at_path p :=
    Validator._detect_format
      (Validator.mk (Some p) (Validator.file_format self)
                    (Validator.validation_errors self)) in
  at_path (dir ++ String c (String "." e)) = format_of_suffix e
  /\ at_path (String "." e) = Validator.UNKNOWN
  /\ at_path (dir ++ String "/" (String "." e)) = Validator.UNKNOWN.
Proof.
  intros Hc He. cbv zeta. unfold Validator._detect_format, Validator.path_of.
  cbn [Validator.file_path].
  split; [|split].
  - replace (dir ++ String c (String "." e))%string
      with ((dir ++ String c EmptyString) ++ String "." e)%string.
    + rewrite (extension_of _ e He), list_ascii_of_string_app.
      cbn [list_ascii_of_string]. rewrite rev_app_distr.
      cbn [rev app Validator.has_stem].
      unfold ext_char in Hc. apply negb_true_iff, orb_false_iff in Hc.
      destruct Hc as [Hd Hs]. rewrite Hs, Hd. apply detect_format_suffix.
    + clear. induction dir as [|d dir IH]; [reflexivity|].
      simpl. rewrite IH. reflexivity.
  - change (String "." e) with (EmptyString ++ String "." e)%string.
    rewrite (extension_of _ e He). reflexivity.
  - replace (dir ++ String "/" (String "." e))%string
      with ((dir ++ String "/" EmptyString) ++ String "." e)%string.
    + rewrite (extension_of _ e He), list_ascii_of_string_app.
      cbn [list_ascii_of_string]. rewrite rev_app_distr. reflexivity.
    + clear. induction dir as [|d dir IH]; [reflexivity|].
      simpl. rewrite IH. reflexivity.
Qed.

Lemma detect_format_by_extension_witness :
  Validator._detect_format
    (Validator.mk (Some "out/report.v2.JSON") Validator.UNKNOWN [])
  = Validator.JSON.
Proof.
  apply (detect_format_by_extension Validator.init "out/report.v" "2" "JSON");
    reflexivity.
Defined.

(** ** Numbers and their text *)

Lemma rstrip_no_space (sp : ascii -> bool) (s : string) :
  sall (fun c => negb (sp c)) s = true -> rstrip_with sp s = s.
Proof.
  induction s as [|c r IH]; [reflexivity|]. simpl. intros H.
  apply andb_prop in H. destruct H as [Hc Hr]. rewrite (IH Hr).
  apply negb_true_iff in Hc. rewrite Hc. destruct r; reflexivity.
Qed.

Lemma uint_digits (d : Decimal.uint) :
  sall is_digit (NilEmpty.string_of_uint d) = true.
Proof. induction d; simpl; auto. Qed.

Lemma int_digits_uint_acc (d : Decimal.uint) :
  forall p : positive,
    int_digits (Z.pos p) false (NilEmpty.string_of_uint d)
    = Some (Z.pos (Pos.of_uint_acc d p)).
Proof.
  induction d as [|d IH|d IH|d IH|d IH|d IH|d IH|d IH|d IH|d IH|d IH];
    intros p; [reflexivity|..];
    cbn [NilEmpty.string_of_uint int_digits Pos.of_uint_acc];
    match goal with
    | |- context [is_digit ?c] => change (is_digit c) with true
    end; cbv beta iota;
    match goal with
    | |- int_digits ?a _ _ = Some (Z.pos (Pos.of_uint_acc _ ?q)) =>
        replace a with (Z.pos q)
          by (unfold digit_val;
              match goal with
              | |- context [code ?c] =>
                  let w := eval vm_compute in (code c) in
                  change (code c) with w
              end; lia)
    end; apply IH.
Qed.

Lemma int_digits_uint (d : Decimal.uint) :
  int_digits 0 false (NilEmpty.string_of_uint d) = Some (Z.of_uint d).
Proof.
  unfold Z.of_uint.
  induction d as [|d IH|d IH|d IH|d IH|d IH|d IH|d IH|d IH|d IH|d IH];
    [reflexivity | exact IH | ..];
    cbn [NilEmpty.string_of_uint int_digits Pos.of_uint];
    match goal with
    | |- context [is_digit ?c] => change (is_digit c) with true
    end; cbv beta iota;
    match goal with
    | |- int_digits ?a _ _ = _ =>
        let v := eval vm_compute in a in change a with v
    end; rewrite int_digits_uint_acc; reflexivity.
Qed.

(** a text of digits has as many digits as characters *)
Lemma digit_count_uint (d : Decimal.uint) :
  digit_count (NilEmpty.string_of_uint d) = Z.of_nat (Decimal.nb_digits d).
Proof.
  induction d as [|d IH|d IH|d IH|d IH|d IH|d IH|d IH|d IH|d IH|d IH];
    [reflexivity|..];
    cbn [NilEmpty.string_of_uint digit_count Decimal.nb_digits];
    match goal with
    | |- context [is_digit ?c] => change (is_digit c) with true
    end; cbv beta iota; rewrite IH; lia.
Qed.

Lemma int_unsigned_digits (c : ascii) (r : string) :
  is_digit c = true ->
  digit_count (String c r) <= MAX_STR_DIGITS ->
  int_unsigned (String c r) = int_digits 0 false (String c r).
Proof.
  intros Hc Hn. unfold int_unsigned. cbn [int_digits]. rewrite Hc.
  destruct (Z.ltb_spec MAX_STR_DIGITS (digit_count (String c r))); [lia|].
  reflexivity.
Qed.

Lemma int_unsigned_uint (d : Decimal.uint) :
  Z.of_nat (Decimal.nb_digits d) <= MAX_STR_DIGITS ->
  int_unsigned (NilZero.string_of_uint d) = Some (Z.of_uint d).
Proof.
  intros Hn. rewrite <- digit_count_uint in Hn.
  destruct d; [reflexivity|..]; cbn [NilZero.string_of_uint];
    rewrite <- int_digits_uint;
    cbn [NilEmpty.string_of_uint] in Hn |- *;
    (apply int_unsigned_digits; [reflexivity | exact Hn]).
Qed.

(** an accumulator followed by [nb_digits d] more digits *)
Lemma of_uint_acc_lower (d : Decimal.uint) :
  forall p : positive,
    Z.pos p * 10 ^ Z.of_nat (Decimal.nb_digits d)
    <= Z.pos (Pos.of_uint_acc d p).
Proof.
  induction d as [|d IH|d IH|d IH|d IH|d IH|d IH|d IH|d IH|d IH|d IH];
    intros p; [simpl; lia|..];
    cbn [Pos.of_uint_acc Decimal.nb_digits];
    rewrite Nat2Z.inj_succ, Z.pow_succ_r by lia;
    (eapply Z.le_trans; [|apply IH]);
    assert (0 <= 10 ^ Z.of_nat (Decimal.nb_digits d)) by (apply Z.pow_nonneg; lia);
    nia.
Qed.

(** the decimal writing of a positive number has no more digits than its
    size allows *)
Lemma to_uint_digits (p : positive) (n : nat) :
  Z.pos p < 10 ^ Z.of_nat n ->
  (Decimal.nb_digits (Pos.to_uint p) <= n)%nat.
Proof.
  intros Hp.
  pose proof (DecimalPos.Unsigned.of_to p) as Hof.
  assert (Decimal.unorm (Pos.to_uint p) = Pos.to_uint p) as Hnorm.
  { rewrite <- (DecimalPos.Unsigned.to_of (Pos.to_uint p)), Hof. reflexivity. }
  assert (Decimal.nzhead (Pos.to_uint p) = Pos.to_uint p) as Hhead.
  { rewrite <- Hnorm at 2. symmetry. apply DecimalFacts.unorm_nzhead.
    intros Hnil. apply DecimalFacts.unorm_0 in Hnil.
    apply (DecimalPos.Unsigned.to_uint_nonzero p). congruence. }
  pose proof (DecimalFacts.nzhead_nonzero (Pos.to_uint p)) as Hnz.
  rewrite Hhead in Hnz.
  destruct (Pos.to_uint p) as [|d|d|d|d|d|d|d|d|d|d] eqn:Hd;
    [discriminate Hof | exfalso; apply (Hnz d); reflexivity | ..];
    cbn [Pos.of_uint] in Hof; injection Hof as Hof;
    cbn [Decimal.nb_digits];
    match type of Hof with
    | Pos.of_uint_acc _ ?k = _ =>
        pose proof (of_uint_acc_lower d k) as Hlow
    end;
    rewrite Hof in Hlow;
    assert (10 ^ Z.of_nat (Decimal.nb_digits d) < 10 ^ Z.of_nat n) as Hlt
      by (assert (0 < 10 ^ Z.of_nat (Decimal.nb_digits d))
            by (apply Z.pow_pos_nonneg; lia); nia);
    apply Z.pow_lt_mono_r_iff in Hlt; lia.
Qed.

Lemma int_unsigned_to_uint (p : positive) :
  Z.pos p < 10 ^ MAX_STR_DIGITS ->
  int_unsigned (NilZero.string_of_uint (Pos.to_uint p)) = Some (Z.pos p).
Proof.
  intros Hp. rewrite int_unsigned_uint.
  - unfold Z.of_uint. rewrite DecimalPos.Unsigned.of_to. reflexivity.
  - rewrite <- (Z2Nat.id MAX_STR_DIGITS) in Hp |- * by (unfold MAX_STR_DIGITS; lia).
    apply Nat2Z.inj_le. apply to_uint_digits. exact Hp.
Qed.

Lemma digit_no_space (c : ascii) :
  is_digit c = true -> negb (is_space c) = true /\ negb (is_c_space c) = true.
Proof.
  destruct c as [[] [] [] [] [] [] [] []]; vm_compute; intros H;
    try discriminate H; split; reflexivity.
Qed.

Lemma digit_upper (c : ascii) : is_digit c = true -> upper_char c = c.
Proof.
  destruct c as [[] [] [] [] [] [] [] []]; vm_compute; intros H;
    try discriminate H; reflexivity.
Qed.

(** [str] of a natural number: digits only, at least one *)
Lemma string_of_uint_shape (d : Decimal.uint) :
  exists c r, NilZero.string_of_uint d = String c r
              /\ sall is_digit (String c r) = true.
Proof.
  destruct d; simpl; eexists _, _; (split; [reflexivity|]);
    try reflexivity; apply uint_digits.
Qed.

Lemma strip_no_space (sp : ascii -> bool) (s : string) :
  sall (fun c => negb (sp c)) s = true -> strip_with sp s = s.
Proof.
  intros H. unfold strip_with.
  assert (lstrip_with sp s = s) as ->.
  { destruct s as [|c r]; [reflexivity|]. simpl in *.
    apply andb_prop in H. destruct H as [Hc _].
    apply negb_true_iff in Hc. rewrite Hc. reflexivity. }
  apply rstrip_no_space. exact H.
Qed.

Lemma str_of_Z_shape (n : Z) :
  exists c r, str_of_Z n = String c r
              /\ sall sign_or_digit (String c r) = true.
Proof.
  unfold str_of_Z.
  destruct (Z.to_int n) as [d|d]; cbn [NilZero.string_of_int].
  - destruct (string_of_uint_shape d) as (c & r & -> & H).
    exists c, r. split; [reflexivity|].
    apply sall_weaken with (2 := H). intros x Hx. unfold sign_or_digit.
    rewrite Hx. reflexivity.
  - exists "-"%char, (NilZero.string_of_uint d). split; [reflexivity|].
    destruct (string_of_uint_shape d) as (c & r & -> & H).
    change (sall sign_or_digit (String c r) = true).
    apply sall_weaken with (2 := H). intros x Hx. unfold sign_or_digit.
    rewrite Hx. reflexivity.
Qed.

Lemma sign_or_digit_plain (c : ascii) :
  sign_or_digit c = true ->
  negb (is_space c) = true /\ negb (is_c_space c) = true /\ upper_char c = c.
Proof.
  destruct c as [[] [] [] [] [] [] [] []]; vm_compute; intros H;
    try discriminate H; repeat split; reflexivity.
Qed.

(** [int(str(n))] is [n], for an integer [str] prints *)
Lemma py_int_str_of_Z (n : Z) :
  Z.abs n < 10 ^ MAX_STR_DIGITS -> py_int (str_of_Z n) = Some n.
Proof.
  intros Hn. unfold py_int. rewrite strip_no_space.
  2:{ destruct (str_of_Z_shape n) as (c & r & -> & H).
      apply sall_weaken with (2 := H). intros x Hx.
      apply sign_or_digit_plain in Hx. tauto. }
  unfold str_of_Z. destruct n as [|p|p]; [reflexivity|..];
    cbn [Z.to_int NilZero.string_of_int].
  - pose proof (int_unsigned_to_uint p Hn) as Hu.
    destruct (string_of_uint_shape (Pos.to_uint p)) as (c & r & Hs & Hd).
    rewrite Hs in Hu |- *. cbn [sall] in Hd. apply andb_prop in Hd.
    destruct Hd as [Hc _]. revert Hu.
    destruct c as [[] [] [] [] [] [] [] []]; try discriminate Hc;
      exact (fun h => h).
  - rewrite (int_unsigned_to_uint p Hn). reflexivity.
Qed.

Lemma smap_id (f : ascii -> ascii) (p : ascii -> bool) (s : string) :
  (forall c, p c = true -> f c = c) -> sall p s = true -> smap f s = s.
Proof.
  intros Hf. induction s as [|c r IH]; [reflexivity|]. simpl. intros H.
  apply andb_prop in H. destruct H as [Hc Hr].
  rewrite (Hf _ Hc), (IH Hr). reflexivity.
Qed.

Lemma no_token_starts_with_sign_or_digit (c : ascii) (r : string) :
  sign_or_digit c = true ->
  mem (String c r) NULL_TOKENS = false /\ mem (String c r) BOOL_TOKENS = false.
Proof.
  destruct c as [[] [] [] [] [] [] [] []]; intros H;
    try discriminate H; split; reflexivity.
Qed.

Lemma infer_text_str_of_Z (n : Z) :
  Z.abs n < 10 ^ MAX_STR_DIGITS -> infer_text (str_of_Z n) = INTEGER.
Proof.
  intros Hn.
  destruct (str_of_Z_shape n) as (c & r & Hs & H).
  unfold infer_text. cbv zeta. unfold strip.
  rewrite (strip_no_space is_space (str_of_Z n)).
  2:{ rewrite Hs. apply sall_weaken with (2 := H). intros x Hx.
      apply sign_or_digit_plain in Hx. tauto. }
  assert (upper (str_of_Z n) = str_of_Z n) as ->.
  { rewrite Hs. apply smap_id with (p := sign_or_digit); [|exact H].
    intros x Hx. apply sign_or_digit_plain in Hx. tauto. }
  rewrite (py_int_str_of_Z n Hn).
  pose proof (py_int_no_point_no_exponent (str_of_Z n)) as Hp.
  rewrite (py_int_str_of_Z n Hn) in Hp. simpl in Hp.
  rewrite Hs in *. simpl in H. apply andb_prop in H. destruct H as [Hc _].
  destruct (no_token_starts_with_sign_or_digit c r Hc) as [-> ->].
  rewrite andb_false_r. cbn [String.eqb]. rewrite Hp. reflexivity.
Qed.

(** X19: a null, a boolean or an integer written as text gets the type of
    the value itself: [infer_type(str(v))] is [infer_type(v)], and [int]
    reads back from [str(n)] the integer [n]. *)
Theorem quoted_scalar_keeps_type (v : json) :
  printed_scalar v = true ->
  infer_type (JStr (str v)) = infer_type v
  /\ (forall n, v = JInt n -> py_int (str v) = Some n).
Proof.
  intros Hv.
  assert (forall n, v = JInt n -> Z.abs n < 10 ^ MAX_STR_DIGITS) as Hlim.
  { intros n ->. cbn [printed_scalar] in Hv. apply Z.ltb_lt in Hv. exact Hv. }
  split.
  - destruct v as [|[]|n|f|s|l|d]; try discriminate Hv; try reflexivity.
    specialize (Hlim n eq_refl). cbn [str repr].
    destruct (str_of_Z_shape n) as (c & r & Hs & H).
    unfold infer_type.
    cbn [is_None isinstance_str isinstance_bool isinstance_int
         isinstance_float isinstance_datetime py_str str orb andb].
    unfold strip. rewrite (strip_no_space is_space (str_of_Z n)).
    2:{ rewrite Hs. apply sall_weaken with (2 := H). intros x Hx.
        apply sign_or_digit_plain in Hx. tauto. }
    rewrite Hs at 1. cbn [String.eqb]. apply infer_text_str_of_Z. exact Hlim.
  - intros n Hn. subst v. apply py_int_str_of_Z. apply (Hlim n eq_refl).
Qed.

Lemma quoted_scalar_keeps_type_witness :
  infer_type (JStr "-2024") = INTEGER.
Proof.
  apply (quoted_scalar_keeps_type (JInt (-2024))). vm_compute. reflexivity.
Defined.

(** ** Entries of a collection dict that are not lists *)

Lemma collection_fold_filter (data : dict json) :
  forall acc,
    fold_left collection_step (collections_only data) acc
    = fold_left collection_step data acc.
Proof.
  induction data as [|[k v] rest IH]; intros acc; [reflexivity|].
  unfold collections_only in *. cbn [filter snd fold_left].
  destruct v; cbn [is_list fold_left]; rewrite IH; try reflexivity;
    destruct acc; reflexivity.
Qed.

Lemma list_count_collections_only (data : dict json) :
  list_count (collections_only data) = list_count data
  /\ Z.of_nat (List.length (collections_only data)) = list_count data.
Proof.
  unfold list_count, Dict.values, collections_only.
  induction data as [|[k v] rest [IH1 IH2]]; [split; reflexivity|].
  cbn [filter map snd]. destruct (is_list v) eqn:Hv;
    cbn [filter map snd List.length]; rewrite ?Hv; cbn [List.length];
    split; lia.
Qed.

Lemma extract_records_filter (self : parser) (data : dict json) :
  _is_collection_dict data = true ->
  _extract_records self (JDict (collections_only data))
  = _extract_records self (JDict data).
Proof.
  intros H. unfold _extract_records. rewrite H.
  assert (_is_collection_dict (collections_only data) = true) as ->.
  { unfold _is_collection_dict in *. destruct (list_count_collections_only data) as [-> ->].
    apply andb_prop in H. destruct H as [H1 _]. rewrite H1. cbn [andb].
    apply Z.leb_le. apply Z.ltb_lt in H1. lia. }
  apply collection_fold_filter.
Qed.

(** X20: the entries of a collection dict whose value is not a list are
    dropped: the parse of the document is the parse of the document
    without them, so that their keys and values reach no record, no field
    and no count of the hierarchy. *)
Theorem non_list_entries_are_dropped (h : HashOrder) (self : parser)
    (data : dict json) :
  _is_collection_dict data = true ->
  json_parse h self (JDict data)
  = json_parse h self (JDict (collections_only data)).
Proof.
  intros H. unfold json_parse.
  rewrite (extract_records_filter self data H). reflexivity.
Qed.

Lemma non_list_entries_are_dropped_witness :
  json_parse insertion_order new_parser
    (JDict [("version", JStr "1.2");
            ("users", JList [JDict [("id", JInt 1)]])])
  = json_parse insertion_order new_parser
      (JDict [("users", JList [JDict [("id", JInt 1)]])]).
Proof.
  apply (non_list_entries_are_dropped insertion_order new_parser
           [("version", JStr "1.2");
            ("users", JList [JDict [("id", JInt 1)]])]).
  reflexivity.
Defined.
